(** * Ghost-bot runtime: response engine, pattern store, worker guard and
      runtime manager

    A shallow embedding of [core/ai_engine.py], [core/ghost_bot.py],
    [ghost_manager.py], [database/crud.py] and [utils/language.py], and the
    properties of the natural-language specification checked against it.

    Conventions.
    - A Python [str] is a list of Unicode code points ([pystr]), so that
      [len], slicing and [in] count code points as CPython does.  Literals
      are written as UTF-8 text and decoded once by [u].
    - A Python [dict] whose iteration order is observed by the code is an
      association list in insertion order ([pydict]); the live-worker
      registry, where only membership matters, is a [gmap].
    - Code that may raise returns a [result]; [try/except Exception] is a
      match on it.
    - [int / int] and the float literals it is compared with are exact
      rationals ([Q]); see [py_truediv].
    - What the outside decides is an argument: the clock, the draws of
      [random.choice], how a stored token decrypts, whether a call of the
      transport is delivered and whether a write to storage goes through. *)

From Stdlib Require Import ZArith NArith QArith Qminmax List Bool Lia.
From Stdlib Require Import Strings.String Strings.Ascii.
From stdpp Require Import base decidable option list gmap sets.

Set Default Proof Using "Type".
Open Scope Z_scope.

(* ===================================================================== *)
(** ** Python strings                                                     *)
(* ===================================================================== *)

Module PyStr.

(** A code point. *)
Definition cp := N.

(** [str]: a sequence of code points. *)
Definition pystr := list cp.

Definition bytes_of_string (s : string) : list N :=
  List.map (fun a => N_of_ascii a) (list_ascii_of_string s).

(** UTF-8 decoding of well-formed text (used for literals only). *)
Fixpoint utf8_decode (bs : list N) : pystr :=
  match bs with
  | [] => []
  | b :: r =>
      if (b <? 128)%N then b :: utf8_decode r
      else if (b <? 224)%N then
        match r with
        | b1 :: r' => ((b - 192) * 64 + (b1 - 128))%N :: utf8_decode r'
        | _ => []
        end
      else if (b <? 240)%N then
        match r with
        | b1 :: b2 :: r' =>
            ((b - 224) * 4096 + (b1 - 128) * 64 + (b2 - 128))%N
              :: utf8_decode r'
        | _ => []
        end
      else
        match r with
        | b1 :: b2 :: b3 :: r' =>
            ((b - 240) * 262144 + (b1 - 128) * 4096
             + (b2 - 128) * 64 + (b3 - 128))%N :: utf8_decode r'
        | _ => []
        end
  end.

(** The literal [s] as a Python string. *)
Definition u (s : string) : pystr := utf8_decode (bytes_of_string s).

(** [str.isspace] on one code point: the code points CPython's
    [_PyUnicode_IsWhitespace] accepts. *)
Definition is_space (c : cp) : bool :=
  ((9 <=? c) && (c <=? 13) || (28 <=? c) && (c <=? 32)
   || (c =? 133) || (c =? 160) || (c =? 5760)
   || (8192 <=? c) && (c <=? 8202)
   || (c =? 8232) || (c =? 8233) || (c =? 8239) || (c =? 8287)
   || (c =? 12288))%N.

(** *** Case mapping

    The tables below are those of CPython 3.11 (Unicode 14.0), read off
    the interpreter.  A run [(first, last, step, target)] maps the code
    points [first], [first + step], ... up to [last] to [target],
    [target + step], ... in this order. *)

Fixpoint expand_run (n : nat) (c step target : N) : list (cp * cp) :=
  match n with
  | O => []
  | S n => (c, target) :: expand_run n (c + step)%N step (target + step)%N
  end.

Definition expand_runs (runs : list (N * N * N * N)) : list (cp * cp) :=
  flat_map (fun '(first, last, step, target) =>
              expand_run (S (N.to_nat ((last - first) / step))) first step target)
    runs.

Fixpoint assoc {A} (c : cp) (table : list (cp * A)) : option A :=
  match table with
  | [] => None
  | (k, v) :: rest => if (c =? k)%N then Some v else assoc c rest
  end.

Definition in_ranges (c : cp) (ranges : list (N * N)) : bool :=
  existsb (fun '(lo, hi) => (lo <=? c) && (c <=? hi))%N ranges.

(** The code points with a lower-case mapping of one code point, capital
    sigma apart. *)
Definition lower_runs : list (N * N * N * N) :=
  [(65, 90, 1, 97); (192, 214, 1, 224); (216, 222, 1, 248); (256, 302, 2, 257);
   (306, 310, 2, 307); (313, 327, 2, 314); (330, 374, 2, 331); (376, 376, 1, 255);
   (377, 381, 2, 378); (385, 385, 1, 595); (386, 388, 2, 387); (390, 390, 1, 596);
   (391, 391, 1, 392); (393, 394, 1, 598); (395, 395, 1, 396); (398, 398, 1, 477);
   (399, 399, 1, 601); (400, 400, 1, 603); (401, 401, 1, 402); (403, 403, 1, 608);
   (404, 404, 1, 611); (406, 406, 1, 617); (407, 407, 1, 616); (408, 408, 1, 409);
   (412, 412, 1, 623); (413, 413, 1, 626); (415, 415, 1, 629); (416, 420, 2, 417);
   (422, 422, 1, 640); (423, 423, 1, 424); (425, 425, 1, 643); (428, 428, 1, 429);
   (430, 430, 1, 648); (431, 431, 1, 432); (433, 434, 1, 650); (435, 437, 2, 436);
   (439, 439, 1, 658); (440, 440, 1, 441); (444, 444, 1, 445); (452, 452, 1, 454);
   (453, 453, 1, 454); (455, 455, 1, 457); (456, 456, 1, 457); (458, 458, 1, 460);
   (459, 475, 2, 460); (478, 494, 2, 479); (497, 497, 1, 499); (498, 500, 2, 499);
   (502, 502, 1, 405); (503, 503, 1, 447); (504, 542, 2, 505); (544, 544, 1, 414);
   (546, 562, 2, 547); (570, 570, 1, 11365); (571, 571, 1, 572); (573, 573, 1, 410);
   (574, 574, 1, 11366); (577, 577, 1, 578); (579, 579, 1, 384); (580, 580, 1, 649);
   (581, 581, 1, 652); (582, 590, 2, 583); (880, 882, 2, 881); (886, 886, 1, 887);
   (895, 895, 1, 1011); (902, 902, 1, 940); (904, 906, 1, 941); (908, 908, 1, 972);
   (910, 911, 1, 973); (913, 929, 1, 945); (932, 939, 1, 964); (975, 975, 1, 983);
   (984, 1006, 2, 985); (1012, 1012, 1, 952); (1015, 1015, 1, 1016); (1017, 1017, 1, 1010);
   (1018, 1018, 1, 1019); (1021, 1023, 1, 891); (1024, 1039, 1, 1104); (1040, 1071, 1, 1072);
   (1120, 1152, 2, 1121); (1162, 1214, 2, 1163); (1216, 1216, 1, 1231); (1217, 1229, 2, 1218);
   (1232, 1326, 2, 1233); (1329, 1366, 1, 1377); (4256, 4293, 1, 11520); (4295, 4295, 1, 11559);
   (4301, 4301, 1, 11565); (5024, 5103, 1, 43888); (5104, 5109, 1, 5112); (7312, 7354, 1, 4304);
   (7357, 7359, 1, 4349); (7680, 7828, 2, 7681); (7838, 7838, 1, 223); (7840, 7934, 2, 7841);
   (7944, 7951, 1, 7936); (7960, 7965, 1, 7952); (7976, 7983, 1, 7968); (7992, 7999, 1, 7984);
   (8008, 8013, 1, 8000); (8025, 8031, 2, 8017); (8040, 8047, 1, 8032); (8072, 8079, 1, 8064);
   (8088, 8095, 1, 8080); (8104, 8111, 1, 8096); (8120, 8121, 1, 8112); (8122, 8123, 1, 8048);
   (8124, 8124, 1, 8115); (8136, 8139, 1, 8050); (8140, 8140, 1, 8131); (8152, 8153, 1, 8144);
   (8154, 8155, 1, 8054); (8168, 8169, 1, 8160); (8170, 8171, 1, 8058); (8172, 8172, 1, 8165);
   (8184, 8185, 1, 8056); (8186, 8187, 1, 8060); (8188, 8188, 1, 8179); (8486, 8486, 1, 969);
   (8490, 8490, 1, 107); (8491, 8491, 1, 229); (8498, 8498, 1, 8526); (8544, 8559, 1, 8560);
   (8579, 8579, 1, 8580); (9398, 9423, 1, 9424); (11264, 11311, 1, 11312); (11360, 11360, 1, 11361);
   (11362, 11362, 1, 619); (11363, 11363, 1, 7549); (11364, 11364, 1, 637); (11367, 11371, 2, 11368);
   (11373, 11373, 1, 593); (11374, 11374, 1, 625); (11375, 11375, 1, 592); (11376, 11376, 1, 594);
   (11378, 11378, 1, 11379); (11381, 11381, 1, 11382); (11390, 11391, 1, 575); (11392, 11490, 2, 11393);
   (11499, 11501, 2, 11500); (11506, 11506, 1, 11507); (42560, 42604, 2, 42561); (42624, 42650, 2, 42625);
   (42786, 42798, 2, 42787); (42802, 42862, 2, 42803); (42873, 42875, 2, 42874); (42877, 42877, 1, 7545);
   (42878, 42886, 2, 42879); (42891, 42891, 1, 42892); (42893, 42893, 1, 613); (42896, 42898, 2, 42897);
   (42902, 42920, 2, 42903); (42922, 42922, 1, 614); (42923, 42923, 1, 604); (42924, 42924, 1, 609);
   (42925, 42925, 1, 620); (42926, 42926, 1, 618); (42928, 42928, 1, 670); (42929, 42929, 1, 647);
   (42930, 42930, 1, 669); (42931, 42931, 1, 43859); (42932, 42946, 2, 42933); (42948, 42948, 1, 42900);
   (42949, 42949, 1, 642); (42950, 42950, 1, 7566); (42951, 42953, 2, 42952); (42960, 42960, 1, 42961);
   (42966, 42968, 2, 42967); (42997, 42997, 1, 42998); (65313, 65338, 1, 65345); (66560, 66599, 1, 66600);
   (66736, 66771, 1, 66776); (66928, 66938, 1, 66967); (66940, 66954, 1, 66979); (66956, 66962, 1, 66995);
   (66964, 66965, 1, 67003); (68736, 68786, 1, 68800); (71840, 71871, 1, 71872); (93760, 93791, 1, 93792);
   (125184, 125217, 1, 125218)]%N.

Definition lower_table : list (cp * cp) := Eval vm_compute in expand_runs lower_runs.

(** [_PyUnicode_ToLowerFull]: the lower-case mapping of one code point
    other than capital sigma.  U+0130 is the one code point whose mapping
    has two code points. *)
Definition lower_full (c : cp) : list cp :=
  if (c =? 304)%N then [105; 775]%N
  else match assoc c lower_table with
       | Some d => [d]
       | None => [c]
       end.

(** The case-ignorable code points. *)
Definition case_ignorable_ranges : list (N * N) :=
  [(39, 39); (46, 46); (58, 58); (94, 94); (96, 96); (168, 168);
   (173, 173); (175, 175); (180, 180); (183, 184); (688, 879); (884, 885);
   (890, 890); (900, 901); (903, 903); (1155, 1161); (1369, 1369); (1375, 1375);
   (1425, 1469); (1471, 1471); (1473, 1474); (1476, 1477); (1479, 1479); (1524, 1524);
   (1536, 1541); (1552, 1562); (1564, 1564); (1600, 1600); (1611, 1631); (1648, 1648);
   (1750, 1757); (1759, 1768); (1770, 1773); (1807, 1807); (1809, 1809); (1840, 1866);
   (1958, 1968); (2027, 2037); (2042, 2042); (2045, 2045); (2070, 2093); (2137, 2139);
   (2184, 2184); (2192, 2193); (2200, 2207); (2249, 2306); (2362, 2362); (2364, 2364);
   (2369, 2376); (2381, 2381); (2385, 2391); (2402, 2403); (2417, 2417); (2433, 2433);
   (2492, 2492); (2497, 2500); (2509, 2509); (2530, 2531); (2558, 2558); (2561, 2562);
   (2620, 2620); (2625, 2626); (2631, 2632); (2635, 2637); (2641, 2641); (2672, 2673);
   (2677, 2677); (2689, 2690); (2748, 2748); (2753, 2757); (2759, 2760); (2765, 2765);
   (2786, 2787); (2810, 2815); (2817, 2817); (2876, 2876); (2879, 2879); (2881, 2884);
   (2893, 2893); (2901, 2902); (2914, 2915); (2946, 2946); (3008, 3008); (3021, 3021);
   (3072, 3072); (3076, 3076); (3132, 3132); (3134, 3136); (3142, 3144); (3146, 3149);
   (3157, 3158); (3170, 3171); (3201, 3201); (3260, 3260); (3263, 3263); (3270, 3270);
   (3276, 3277); (3298, 3299); (3328, 3329); (3387, 3388); (3393, 3396); (3405, 3405);
   (3426, 3427); (3457, 3457); (3530, 3530); (3538, 3540); (3542, 3542); (3633, 3633);
   (3636, 3642); (3654, 3662); (3761, 3761); (3764, 3772); (3782, 3782); (3784, 3789);
   (3864, 3865); (3893, 3893); (3895, 3895); (3897, 3897); (3953, 3966); (3968, 3972);
   (3974, 3975); (3981, 3991); (3993, 4028); (4038, 4038); (4141, 4144); (4146, 4151);
   (4153, 4154); (4157, 4158); (4184, 4185); (4190, 4192); (4209, 4212); (4226, 4226);
   (4229, 4230); (4237, 4237); (4253, 4253); (4348, 4348); (4957, 4959); (5906, 5908);
   (5938, 5939); (5970, 5971); (6002, 6003); (6068, 6069); (6071, 6077); (6086, 6086);
   (6089, 6099); (6103, 6103); (6109, 6109); (6155, 6159); (6211, 6211); (6277, 6278);
   (6313, 6313); (6432, 6434); (6439, 6440); (6450, 6450); (6457, 6459); (6679, 6680);
   (6683, 6683); (6742, 6742); (6744, 6750); (6752, 6752); (6754, 6754); (6757, 6764);
   (6771, 6780); (6783, 6783); (6823, 6823); (6832, 6862); (6912, 6915); (6964, 6964);
   (6966, 6970); (6972, 6972); (6978, 6978); (7019, 7027); (7040, 7041); (7074, 7077);
   (7080, 7081); (7083, 7085); (7142, 7142); (7144, 7145); (7149, 7149); (7151, 7153);
   (7212, 7219); (7222, 7223); (7288, 7293); (7376, 7378); (7380, 7392); (7394, 7400);
   (7405, 7405); (7412, 7412); (7416, 7417); (7468, 7530); (7544, 7544); (7579, 7679);
   (8125, 8125); (8127, 8129); (8141, 8143); (8157, 8159); (8173, 8175); (8189, 8190);
   (8203, 8207); (8216, 8217); (8228, 8228); (8231, 8231); (8234, 8238); (8288, 8292);
   (8294, 8303); (8305, 8305); (8319, 8319); (8336, 8348); (8400, 8432); (11388, 11389);
   (11503, 11505); (11631, 11631); (11647, 11647); (11744, 11775); (11823, 11823); (12293, 12293);
   (12330, 12333); (12337, 12341); (12347, 12347); (12441, 12446); (12540, 12542); (40981, 40981);
   (42232, 42237); (42508, 42508); (42607, 42610); (42612, 42621); (42623, 42623); (42652, 42655);
   (42736, 42737); (42752, 42785); (42864, 42864); (42888, 42890); (42994, 42996); (43000, 43001);
   (43010, 43010); (43014, 43014); (43019, 43019); (43045, 43046); (43052, 43052); (43204, 43205);
   (43232, 43249); (43263, 43263); (43302, 43309); (43335, 43345); (43392, 43394); (43443, 43443);
   (43446, 43449); (43452, 43453); (43471, 43471); (43493, 43494); (43561, 43566); (43569, 43570);
   (43573, 43574); (43587, 43587); (43596, 43596); (43632, 43632); (43644, 43644); (43696, 43696);
   (43698, 43700); (43703, 43704); (43710, 43711); (43713, 43713); (43741, 43741); (43756, 43757);
   (43763, 43764); (43766, 43766); (43867, 43871); (43881, 43883); (44005, 44005); (44008, 44008);
   (44013, 44013); (64286, 64286); (64434, 64450); (65024, 65039); (65043, 65043); (65056, 65071);
   (65106, 65106); (65109, 65109); (65279, 65279); (65287, 65287); (65294, 65294); (65306, 65306);
   (65342, 65342); (65344, 65344); (65392, 65392); (65438, 65439); (65507, 65507); (65529, 65531);
   (66045, 66045); (66272, 66272); (66422, 66426); (67456, 67461); (67463, 67504); (67506, 67514);
   (68097, 68099); (68101, 68102); (68108, 68111); (68152, 68154); (68159, 68159); (68325, 68326);
   (68900, 68903); (69291, 69292); (69446, 69456); (69506, 69509); (69633, 69633); (69688, 69702);
   (69744, 69744); (69747, 69748); (69759, 69761); (69811, 69814); (69817, 69818); (69821, 69821);
   (69826, 69826); (69837, 69837); (69888, 69890); (69927, 69931); (69933, 69940); (70003, 70003);
   (70016, 70017); (70070, 70078); (70089, 70092); (70095, 70095); (70191, 70193); (70196, 70196);
   (70198, 70199); (70206, 70206); (70367, 70367); (70371, 70378); (70400, 70401); (70459, 70460);
   (70464, 70464); (70502, 70508); (70512, 70516); (70712, 70719); (70722, 70724); (70726, 70726);
   (70750, 70750); (70835, 70840); (70842, 70842); (70847, 70848); (70850, 70851); (71090, 71093);
   (71100, 71101); (71103, 71104); (71132, 71133); (71219, 71226); (71229, 71229); (71231, 71232);
   (71339, 71339); (71341, 71341); (71344, 71349); (71351, 71351); (71453, 71455); (71458, 71461);
   (71463, 71467); (71727, 71735); (71737, 71738); (71995, 71996); (71998, 71998); (72003, 72003);
   (72148, 72151); (72154, 72155); (72160, 72160); (72193, 72202); (72243, 72248); (72251, 72254);
   (72263, 72263); (72273, 72278); (72281, 72283); (72330, 72342); (72344, 72345); (72752, 72758);
   (72760, 72765); (72767, 72767); (72850, 72871); (72874, 72880); (72882, 72883); (72885, 72886);
   (73009, 73014); (73018, 73018); (73020, 73021); (73023, 73029); (73031, 73031); (73104, 73105);
   (73109, 73109); (73111, 73111); (73459, 73460); (78896, 78904); (92912, 92916); (92976, 92982);
   (92992, 92995); (94031, 94031); (94095, 94111); (94176, 94177); (94179, 94180); (110576, 110579);
   (110581, 110587); (110589, 110590); (113821, 113822); (113824, 113827); (118528, 118573); (118576, 118598);
   (119143, 119145); (119155, 119170); (119173, 119179); (119210, 119213); (119362, 119364); (121344, 121398);
   (121403, 121452); (121461, 121461); (121476, 121476); (121499, 121503); (121505, 121519); (122880, 122886);
   (122888, 122904); (122907, 122913); (122915, 122916); (122918, 122922); (123184, 123197); (123566, 123566);
   (123628, 123631); (125136, 125142); (125252, 125259); (127995, 127999); (917505, 917505); (917536, 917631);
   (917760, 917999)]%N.

Definition case_ignorable (c : cp) : bool := in_ranges c case_ignorable_ranges.

(** The cased code points among those that are not case-ignorable; of a
    case-ignorable one the mapping never asks whether it is cased. *)
Definition cased_ranges : list (N * N) :=
  [(65, 90); (97, 122); (170, 170); (181, 181); (186, 186); (192, 214);
   (216, 246); (248, 442); (444, 447); (452, 659); (661, 687); (880, 883);
   (886, 887); (891, 893); (895, 895); (902, 902); (904, 906); (908, 908);
   (910, 929); (931, 1013); (1015, 1153); (1162, 1327); (1329, 1366); (1376, 1416);
   (4256, 4293); (4295, 4295); (4301, 4301); (4304, 4346); (4349, 4351); (5024, 5109);
   (5112, 5117); (7296, 7304); (7312, 7354); (7357, 7359); (7424, 7467); (7531, 7543);
   (7545, 7578); (7680, 7957); (7960, 7965); (7968, 8005); (8008, 8013); (8016, 8023);
   (8025, 8025); (8027, 8027); (8029, 8029); (8031, 8061); (8064, 8116); (8118, 8124);
   (8126, 8126); (8130, 8132); (8134, 8140); (8144, 8147); (8150, 8155); (8160, 8172);
   (8178, 8180); (8182, 8188); (8450, 8450); (8455, 8455); (8458, 8467); (8469, 8469);
   (8473, 8477); (8484, 8484); (8486, 8486); (8488, 8488); (8490, 8493); (8495, 8500);
   (8505, 8505); (8508, 8511); (8517, 8521); (8526, 8526); (8544, 8575); (8579, 8580);
   (9398, 9449); (11264, 11387); (11390, 11492); (11499, 11502); (11506, 11507); (11520, 11557);
   (11559, 11559); (11565, 11565); (42560, 42605); (42624, 42651); (42786, 42863); (42865, 42887);
   (42891, 42894); (42896, 42954); (42960, 42961); (42963, 42963); (42965, 42969); (42997, 42998);
   (43002, 43002); (43824, 43866); (43872, 43880); (43888, 43967); (64256, 64262); (64275, 64279);
   (65313, 65338); (65345, 65370); (66560, 66639); (66736, 66771); (66776, 66811); (66928, 66938);
   (66940, 66954); (66956, 66962); (66964, 66965); (66967, 66977); (66979, 66993); (66995, 67001);
   (67003, 67004); (68736, 68786); (68800, 68850); (71840, 71903); (93760, 93823); (119808, 119892);
   (119894, 119964); (119966, 119967); (119970, 119970); (119973, 119974); (119977, 119980); (119982, 119993);
   (119995, 119995); (119997, 120003); (120005, 120069); (120071, 120074); (120077, 120084); (120086, 120092);
   (120094, 120121); (120123, 120126); (120128, 120132); (120134, 120134); (120138, 120144); (120146, 120485);
   (120488, 120512); (120514, 120538); (120540, 120570); (120572, 120596); (120598, 120628); (120630, 120654);
   (120656, 120686); (120688, 120712); (120714, 120744); (120746, 120770); (120772, 120779); (122624, 122633);
   (122635, 122654); (125184, 125251); (127280, 127305); (127312, 127337); (127344, 127369)]%N.

Definition cased (c : cp) : bool := in_ranges c cased_ranges.

(** The first code point that is not case-ignorable. *)
Fixpoint skip_ignorable (s : pystr) : option cp :=
  match s with
  | [] => None
  | c :: r => if case_ignorable c then skip_ignorable r else Some c
  end.

(** [handle_capital_sigma]: a capital sigma is final when, case-ignorable
    code points apart, a cased code point comes before it and none comes
    after it.  [before] holds the code points before it, nearest first. *)
Definition final_sigma (before after : pystr) : bool :=
  match skip_ignorable before with
  | Some c =>
      cased c && match skip_ignorable after with
                 | Some d => negb (cased d)
                 | None => true
                 end
  | None => false
  end.

(** [lower_ucs4] on every code point of [s], which comes after [before]. *)
Fixpoint lower_from (before : pystr) (s : pystr) : pystr :=
  match s with
  | [] => []
  | c :: r =>
      (if (c =? 931)%N
       then [if final_sigma before r then 962%N else 963%N]
       else lower_full c)
      ++ lower_from (c :: before) r
  end.

(** [s.lower()] *)
Definition lower (s : pystr) : pystr := lower_from [] s.

(** The code points with a title-case mapping of one code point, and
    those with a longer one. *)
Definition title_runs : list (N * N * N * N) :=
  [(97, 122, 1, 65); (181, 181, 1, 924); (224, 246, 1, 192); (248, 254, 1, 216);
   (255, 255, 1, 376); (257, 303, 2, 256); (305, 305, 1, 73); (307, 311, 2, 306);
   (314, 328, 2, 313); (331, 375, 2, 330); (378, 382, 2, 377); (383, 383, 1, 83);
   (384, 384, 1, 579); (387, 389, 2, 386); (392, 392, 1, 391); (396, 396, 1, 395);
   (402, 402, 1, 401); (405, 405, 1, 502); (409, 409, 1, 408); (410, 410, 1, 573);
   (414, 414, 1, 544); (417, 421, 2, 416); (424, 424, 1, 423); (429, 429, 1, 428);
   (432, 432, 1, 431); (436, 438, 2, 435); (441, 441, 1, 440); (445, 445, 1, 444);
   (447, 447, 1, 503); (452, 452, 1, 453); (454, 454, 1, 453); (455, 455, 1, 456);
   (457, 457, 1, 456); (458, 458, 1, 459); (460, 476, 2, 459); (477, 477, 1, 398);
   (479, 495, 2, 478); (497, 497, 1, 498); (499, 501, 2, 498); (505, 543, 2, 504);
   (547, 563, 2, 546); (572, 572, 1, 571); (575, 576, 1, 11390); (578, 578, 1, 577);
   (583, 591, 2, 582); (592, 592, 1, 11375); (593, 593, 1, 11373); (594, 594, 1, 11376);
   (595, 595, 1, 385); (596, 596, 1, 390); (598, 599, 1, 393); (601, 601, 1, 399);
   (603, 603, 1, 400); (604, 604, 1, 42923); (608, 608, 1, 403); (609, 609, 1, 42924);
   (611, 611, 1, 404); (613, 613, 1, 42893); (614, 614, 1, 42922); (616, 616, 1, 407);
   (617, 617, 1, 406); (618, 618, 1, 42926); (619, 619, 1, 11362); (620, 620, 1, 42925);
   (623, 623, 1, 412); (625, 625, 1, 11374); (626, 626, 1, 413); (629, 629, 1, 415);
   (637, 637, 1, 11364); (640, 640, 1, 422); (642, 642, 1, 42949); (643, 643, 1, 425);
   (647, 647, 1, 42929); (648, 648, 1, 430); (649, 649, 1, 580); (650, 651, 1, 433);
   (652, 652, 1, 581); (658, 658, 1, 439); (669, 669, 1, 42930); (670, 670, 1, 42928);
   (837, 837, 1, 921); (881, 883, 2, 880); (887, 887, 1, 886); (891, 893, 1, 1021);
   (940, 940, 1, 902); (941, 943, 1, 904); (945, 961, 1, 913); (962, 962, 1, 931);
   (963, 971, 1, 931); (972, 972, 1, 908); (973, 974, 1, 910); (976, 976, 1, 914);
   (977, 977, 1, 920); (981, 981, 1, 934); (982, 982, 1, 928); (983, 983, 1, 975);
   (985, 1007, 2, 984); (1008, 1008, 1, 922); (1009, 1009, 1, 929); (1010, 1010, 1, 1017);
   (1011, 1011, 1, 895); (1013, 1013, 1, 917); (1016, 1016, 1, 1015); (1019, 1019, 1, 1018);
   (1072, 1103, 1, 1040); (1104, 1119, 1, 1024); (1121, 1153, 2, 1120); (1163, 1215, 2, 1162);
   (1218, 1230, 2, 1217); (1231, 1231, 1, 1216); (1233, 1327, 2, 1232); (1377, 1414, 1, 1329);
   (5112, 5117, 1, 5104); (7296, 7296, 1, 1042); (7297, 7297, 1, 1044); (7298, 7298, 1, 1054);
   (7299, 7300, 1, 1057); (7301, 7301, 1, 1058); (7302, 7302, 1, 1066); (7303, 7303, 1, 1122);
   (7304, 7304, 1, 42570); (7545, 7545, 1, 42877); (7549, 7549, 1, 11363); (7566, 7566, 1, 42950);
   (7681, 7829, 2, 7680); (7835, 7835, 1, 7776); (7841, 7935, 2, 7840); (7936, 7943, 1, 7944);
   (7952, 7957, 1, 7960); (7968, 7975, 1, 7976); (7984, 7991, 1, 7992); (8000, 8005, 1, 8008);
   (8017, 8023, 2, 8025); (8032, 8039, 1, 8040); (8048, 8049, 1, 8122); (8050, 8053, 1, 8136);
   (8054, 8055, 1, 8154); (8056, 8057, 1, 8184); (8058, 8059, 1, 8170); (8060, 8061, 1, 8186);
   (8064, 8071, 1, 8072); (8080, 8087, 1, 8088); (8096, 8103, 1, 8104); (8112, 8113, 1, 8120);
   (8115, 8115, 1, 8124); (8126, 8126, 1, 921); (8131, 8131, 1, 8140); (8144, 8145, 1, 8152);
   (8160, 8161, 1, 8168); (8165, 8165, 1, 8172); (8179, 8179, 1, 8188); (8526, 8526, 1, 8498);
   (8560, 8575, 1, 8544); (8580, 8580, 1, 8579); (9424, 9449, 1, 9398); (11312, 11359, 1, 11264);
   (11361, 11361, 1, 11360); (11365, 11365, 1, 570); (11366, 11366, 1, 574); (11368, 11372, 2, 11367);
   (11379, 11379, 1, 11378); (11382, 11382, 1, 11381); (11393, 11491, 2, 11392); (11500, 11502, 2, 11499);
   (11507, 11507, 1, 11506); (11520, 11557, 1, 4256); (11559, 11559, 1, 4295); (11565, 11565, 1, 4301);
   (42561, 42605, 2, 42560); (42625, 42651, 2, 42624); (42787, 42799, 2, 42786); (42803, 42863, 2, 42802);
   (42874, 42876, 2, 42873); (42879, 42887, 2, 42878); (42892, 42892, 1, 42891); (42897, 42899, 2, 42896);
   (42900, 42900, 1, 42948); (42903, 42921, 2, 42902); (42933, 42947, 2, 42932); (42952, 42954, 2, 42951);
   (42961, 42961, 1, 42960); (42967, 42969, 2, 42966); (42998, 42998, 1, 42997); (43859, 43859, 1, 42931);
   (43888, 43967, 1, 5024); (65345, 65370, 1, 65313); (66600, 66639, 1, 66560); (66776, 66811, 1, 66736);
   (66967, 66977, 1, 66928); (66979, 66993, 1, 66940); (66995, 67001, 1, 66956); (67003, 67004, 1, 66964);
   (68800, 68850, 1, 68736); (71872, 71903, 1, 71840); (93792, 93823, 1, 93760); (125218, 125251, 1, 125184)]%N.

Definition title_table : list (cp * cp) := Eval vm_compute in expand_runs title_runs.

Definition title_special : list (N * list N) :=
  [(223, [83; 115]); (329, [700; 78]); (496, [74; 780]);
   (912, [921; 776; 769]); (944, [933; 776; 769]); (1415, [1333; 1410]);
   (7830, [72; 817]); (7831, [84; 776]); (7832, [87; 778]);
   (7833, [89; 778]); (7834, [65; 702]); (8016, [933; 787]);
   (8018, [933; 787; 768]); (8020, [933; 787; 769]); (8022, [933; 787; 834]);
   (8114, [8122; 837]); (8116, [902; 837]); (8118, [913; 834]);
   (8119, [913; 834; 837]); (8130, [8138; 837]); (8132, [905; 837]);
   (8134, [919; 834]); (8135, [919; 834; 837]); (8146, [921; 776; 768]);
   (8147, [921; 776; 769]); (8150, [921; 834]); (8151, [921; 776; 834]);
   (8162, [933; 776; 768]); (8163, [933; 776; 769]); (8164, [929; 787]);
   (8166, [933; 834]); (8167, [933; 776; 834]); (8178, [8186; 837]);
   (8180, [911; 837]); (8182, [937; 834]); (8183, [937; 834; 837]);
   (64256, [70; 102]); (64257, [70; 105]); (64258, [70; 108]);
   (64259, [70; 102; 105]); (64260, [70; 102; 108]); (64261, [83; 116]);
   (64262, [83; 116]); (64275, [1348; 1398]); (64276, [1348; 1381]);
   (64277, [1348; 1387]); (64278, [1358; 1398]); (64279, [1348; 1389])]%N.

(** [_PyUnicode_ToTitleFull] *)
Definition title_full (c : cp) : list cp :=
  match assoc c title_special with
  | Some l => l
  | None =>
      match assoc c title_table with
      | Some d => [d]
      | None => [c]
      end
  end.

(** [s.capitalize()]: the first code point in title case, the rest in
    lower case. *)
Definition capitalize (s : pystr) : pystr :=
  match s with
  | [] => []
  | c :: r => title_full c ++ lower_from [c] r
  end.

(** [len(s)] *)
Definition len (s : pystr) : Z := Z.of_nat (length s).

(** [s.startswith(p)] *)
Fixpoint startswith (p s : pystr) : bool :=
  match p, s with
  | [], _ => true
  | _ :: _, [] => false
  | a :: p', b :: s' => (a =? b)%N && startswith p' s'
  end.

(** [k in s] for strings: [k] occurs as a contiguous slice of [s]. *)
Fixpoint isin (k s : pystr) : bool :=
  startswith k s ||
  match s with
  | [] => false
  | _ :: s' => isin k s'
  end.

(** [s.lstrip()], [s.rstrip()], [s.strip()] *)
Fixpoint lstrip (s : pystr) : pystr :=
  match s with
  | [] => []
  | c :: r => if is_space c then lstrip r else s
  end.

Definition rstrip (s : pystr) : pystr := rev (lstrip (rev s)).

Definition strip (s : pystr) : pystr := rstrip (lstrip s).

(** [s.split()]: maximal runs of non-whitespace code points.  [cur] is
    the run being read, in reverse. *)
Fixpoint split_aux (cur : pystr) (s : pystr) : list pystr :=
  match s with
  | [] => match cur with [] => [] | _ => [rev cur] end
  | c :: r =>
      if is_space c
      then match cur with
           | [] => split_aux [] r
           | _ => rev cur :: split_aux [] r
           end
      else split_aux (c :: cur) r
  end.

Definition split (s : pystr) : list pystr := split_aux [] s.

(** [s.replace(old, new)] for a non-empty [old]: every occurrence, left to
    right, without overlap.  [skip] counts the code points of a match that
    are still to be dropped. *)
Fixpoint replace_aux (old new : pystr) (skip : nat) (s : pystr) : pystr :=
  match s with
  | [] => []
  | c :: r =>
      match skip with
      | S k => replace_aux old new k r
      | O =>
          if startswith old s
          then new ++ replace_aux old new (length old - 1) r
          else c :: replace_aux old new 0 r
      end
  end.

Definition replace (old new s : pystr) : pystr := replace_aux old new 0 s.

(** Truth value of a string: non-empty. *)
Definition truthy (s : pystr) : bool :=
  match s with [] => false | _ => true end.

End PyStr.

Import PyStr.

(* ===================================================================== *)
(** ** Python values and exceptions                                       *)
(* ===================================================================== *)

(** The values a context or JSON blob of this program holds. *)
Inductive pyval :=
  | PNone
  | PStr (s : pystr)
  | PInt (z : Z).

(** [bool(v)] *)
Definition pyval_truthy (v : pyval) : bool :=
  match v with
  | PNone => false
  | PStr s => truthy s
  | PInt z => negb (z =? 0)
  end.

(** [v == "..."] against a string literal. *)
Definition pyval_eq_str (v : pyval) (s : pystr) : bool :=
  match v with
  | PStr t => bool_decide (t = s)
  | _ => false
  end.

(** The subclasses of [Exception] this code can meet. *)
Inductive exn :=
  | AttributeError   (* a method of [str] called on a value that has none *)
  | TypeError        (* an operand of the wrong type *)
  | StorageError     (* the database session, a query or a commit failed *)
  | TransportError.  (* the Telegram API refused a call or was not reached *)

Inductive result (A : Type) :=
  | Ok (a : A)
  | Raise (e : exn).
Arguments Ok {A} a.
Arguments Raise {A} e.

Definition rbind {A B} (r : result A) (k : A -> result B) : result B :=
  match r with
  | Ok a => k a
  | Raise e => Raise e
  end.

Notation "'let!' x ':=' r 'in' k" := (rbind r (fun x => k))
  (at level 10, x name, r at level 100, k at level 200).

(** A [dict] from tokens to counts, in insertion order. *)
Definition pydict := list (pystr * Z).

(** [d.get(k, 0)] *)
Fixpoint dict_get (d : pydict) (k : pystr) : Z :=
  match d with
  | [] => 0
  | (k', v) :: r => if bool_decide (k' = k) then v else dict_get r k
  end.

(** [k in d] *)
Fixpoint dict_mem (d : pydict) (k : pystr) : bool :=
  match d with
  | [] => false
  | (k', _) :: r => bool_decide (k' = k) || dict_mem r k
  end.

(** [d[k] = v]: an existing key keeps its place, a new one goes last. *)
Fixpoint dict_set (d : pydict) (k : pystr) (v : Z) : pydict :=
  match d with
  | [] => [(k, v)]
  | (k', v') :: r =>
      if bool_decide (k' = k) then (k', v) :: r else (k', v') :: dict_set r k v
  end.

(** [len(d)] *)
Definition dict_len (d : pydict) : Z := Z.of_nat (length d).

(** [a / b] on integers.  CPython rounds the exact quotient to the nearest
    double; the comparisons this program makes with it (against another
    quotient by the same divisor, [0], [0.3] and [1.0]) have the same
    outcome on the exact quotient for all counts and lengths below 2^52,
    so the quotient is kept exact.  The divisor is never 0 where the code
    divides. *)
Definition py_truediv (a b : Z) : Q := inject_Z a / inject_Z b.

(** [a > b] on such numbers. *)
Definition py_gt (a b : Q) : bool :=
  match (b ?= a)%Q with
  | Lt => true
  | _ => false
  end.

(** [random.choice(l)] with the generator's draw given as [r]. *)
Definition choice {A} (l : list A) (r : nat) (d : A) : A :=
  nth (r mod length l) l d.

(* ===================================================================== *)
(** ** The part of [re] that [LanguageManager] uses                       *)
(* ===================================================================== *)

Module Re.

(** [\w] on one code point: the Basic Latin letters, digits and the
    underscore, and the letters and digits of the Latin-1, Greek, Cyrillic
    and Bengali blocks.  (CPython asks the Unicode database for every
    block; combining vowel signs are not word characters there, nor
    here.) *)
Definition is_word (c : cp) : bool :=
  ((48 <=? c) && (c <=? 57) || (65 <=? c) && (c <=? 90)
   || (97 <=? c) && (c <=? 122) || (c =? 95)
   || (c =? 170) || (c =? 181) || (c =? 186)
   || (c =? 178) || (c =? 179) || (c =? 185) || (188 <=? c) && (c <=? 190)
   || (192 <=? c) && (c <=? 255) && negb (c =? 215) && negb (c =? 247)
   || (913 <=? c) && (c <=? 969) && negb (c =? 930)
   || (1024 <=? c) && (c <=? 1119)
   || (c =? 2432) || (2437 <=? c) && (c <=? 2444) || (c =? 2447) || (c =? 2448)
   || (2451 <=? c) && (c <=? 2472) || (2474 <=? c) && (c <=? 2480)
   || (c =? 2482) || (2486 <=? c) && (c <=? 2489) || (c =? 2493)
   || (c =? 2510) || (c =? 2524) || (c =? 2525)
   || (2527 <=? c) && (c <=? 2529) || (2534 <=? c) && (c <=? 2545)
   || (2548 <=? c) && (c <=? 2553) || (c =? 2556))%N.

Definition is_word_opt (o : option cp) : bool :=
  match o with
  | Some c => is_word c
  | None => false
  end.

(** [\b] between two neighbouring positions; outside the subject there is
    no word character. *)
Definition boundary (before after : option cp) : bool :=
  xorb (is_word_opt before) (is_word_opt after).

(** The case folding of the matcher: the lower-case mapping of the Basic
    Latin, Latin-1, Greek and Cyrillic capital letters; every other code
    point, and in particular the whole Bengali block, folds to itself.
    (CPython folds the other cased scripts as well and pairs a few more
    letters, such as [i] with the dotless one.) *)
Definition lower_cp (c : cp) : cp :=
  (if (65 <=? c) && (c <=? 90) then c + 32
   else if (192 <=? c) && (c <=? 222) && negb (c =? 215) then c + 32
   else if (913 <=? c) && (c <=? 937) && negb (c =? 930) then c + 32
   else if (1040 <=? c) && (c <=? 1071) then c + 32
   else if (1024 <=? c) && (c <=? 1039) then c + 80
   else c)%N.

(** Two code points match under [re.IGNORECASE]. *)
Definition ci_eq (a b : cp) : bool := (lower_cp a =? lower_cp b)%N.

Fixpoint ci_startswith (p s : pystr) : bool :=
  match p, s with
  | [], _ => true
  | _ :: _, [] => false
  | a :: p', b :: s' => ci_eq a b && ci_startswith p' s'
  end.

(** A compiled pattern: from the code point before the position and the
    subject from the position on, the length of the match there. *)
Definition matcher := option cp -> pystr -> option nat.

(** [re.escape(p)] under [re.IGNORECASE] *)
Definition lit_ci (p : pystr) : matcher := fun _ s =>
  if truthy p && ci_startswith p s then Some (length p) else None.

(** [r'\b' + re.escape(p) + r'\b'] under [re.IGNORECASE] *)
Definition word_ci (p : pystr) : matcher := fun before s =>
  if truthy p && ci_startswith p s
     && boundary before (head s)
     && boundary (s !! (length p - 1)%nat) (s !! length p)
  then Some (length p) else None.

(** [re.sub(pattern, repl, s)] for a pattern that matches no empty string
    and a replacement without backslashes: leftmost matches, left to
    right, without overlap. *)
Fixpoint sub_aux (m : matcher) (repl : pystr) (before : option cp)
    (skip : nat) (s : pystr) : pystr :=
  match s with
  | [] => []
  | c :: r =>
      match skip with
      | S k => sub_aux m repl (Some c) k r
      | O =>
          match m before s with
          | Some (S k) => repl ++ sub_aux m repl (Some c) k r
          | _ => c :: sub_aux m repl (Some c) 0 r
          end
      end
  end.

Definition sub (m : matcher) (repl s : pystr) : pystr :=
  sub_aux m repl None 0 s.

End Re.

(* ===================================================================== *)
(** ** utils/language.py                                                  *)
(* ===================================================================== *)

Module LanguageManager.

(** [BANGLISH_TO_BANGLA].  The source's literal lists the key
    ["ki korchen"] twice with the same value; a dict keeps one entry, at
    the first place. *)
Definition BANGLISH_TO_BANGLA : list (pystr * pystr) := Eval vm_compute in
  [ (u "ami", u "আমি");
    (u "tumi", u "তুমি");
    (u "apni", u "আপনি");
    (u "valo", u "ভালো");
    (u "kharap", u "খারাপ");
    (u "achhi", u "আছি");
    (u "acho", u "আছো");
    (u "achen", u "আছেন");
    (u "ki", u "কী");
    (u "kemon", u "কেমন");
    (u "kno", u "কেন");
    (u "kothay", u "কোথায়");
    (u "kokhon", u "কখন");
    (u "ke", u "কে");
    (u "ki kor", u "কী কর");
    (u "ki korch", u "কী করছ");
    (u "ki korchen", u "কী করছেন");
    (u "jan", u "জান");
    (u "jani", u "জানি");
    (u "janno", u "জানো");
    (u "janen", u "জানেন");
    (u "chai", u "চাই");
    (u "chaile", u "চাইলে");
    (u "hoy", u "হয়");
    (u "hoyeche", u "হয়েছে");
    (u "hoyni", u "হয়নি");
    (u "hobe", u "হবে");
    (u "hoyto", u "হতে");
    (u "ache", u "আছে");
    (u "nai", u "নাই");
    (u "nei", u "নেই");
    (u "onek", u "অনেক");
    (u "valo lage", u "ভালো লাগে");
    (u "valo lagena", u "ভালো লাগেনা");
    (u "amar", u "আমার");
    (u "tomar", u "তোমার");
    (u "apnar", u "আপনার");
    (u "tar", u "তার");
    (u "amader", u "আমাদের");
    (u "tomader", u "তোমাদের");
    (u "apnader", u "আপনাদের");
    (u "tader", u "তাদের");
    (u "ki obostha", u "কী অবস্থা");
    (u "ki khobor", u "কী খবর");
    (u "kothay achen", u "কোথায় আছেন");
    (u "ki jani na", u "কী জানি না");
    (u "thik ache", u "ঠিক আছে");
    (u "kono somossa nai", u "কোন সমস্যা নেই");
    (u "somossa ache", u "সমস্যা আছে");
    (u "valo thakben", u "ভালো থাকবেন");
    (u "allahr rohomot", u "আল্লাহর রহমত");
    (u "inshallah", u "ইনশাআল্লাহ");
    (u "mashallah", u "মাশাআল্লাহ");
    (u "alhamdulillah", u "আলহামদুলিল্লাহ");
    (u ":\)", u "😊");
    (u ":D", u "😃");
    (u ":\(", u "😔");
    (u ";\)", u "😉");
    (u ":P", u "😛");
    (u ":O", u "😮");
    (u ":\|", u "😐");
    (u ":\/", u "😕");
    (u "<3", u "❤️");
    (u ":\*", u "😘") ].

(** [ENGLISH_TO_BANGLA] *)
Definition ENGLISH_TO_BANGLA : list (pystr * pystr) := Eval vm_compute in
  [ (u "hello", u "হ্যালো");
    (u "hi", u "হাই");
    (u "how", u "কেমন");
    (u "are", u "আছ");
    (u "you", u "তুমি/আপনি");
    (u "i", u "আমি");
    (u "am", u "আছি");
    (u "good", u "ভালো");
    (u "bad", u "খারাপ");
    (u "what", u "কী");
    (u "why", u "কেন");
    (u "where", u "কোথায়");
    (u "when", u "কখন");
    (u "who", u "কে");
    (u "help", u "সাহায্য");
    (u "need", u "দরকার");
    (u "want", u "চাই");
    (u "thank", u "ধন্যবাদ");
    (u "thanks", u "থ্যাঙ্কস");
    (u "please", u "দয়া করে");
    (u "sorry", u "দুঃখিত");
    (u "yes", u "হ্যাঁ");
    (u "no", u "না");
    (u "ok", u "ওকে");
    (u "okay", u "ঠিক আছে");
    (u "problem", u "সমস্যা");
    (u "solution", u "সমাধান");
    (u "work", u "কাজ");
    (u "not", u "না");
    (u "working", u "কাজ করছে");
    (u "broken", u "ভাঙ্গা");
    (u "fix", u "ঠিক করা") ].

Definition colon : pystr := [58%N].

(** One pass of the first loop of [_to_bangla]: emoticons. *)
Definition emoticon_step (result : pystr) (kv : pystr * pystr) : pystr :=
  let '(emoticon, emoji) := kv in
  if startswith colon emoticon
  then Re.sub (Re.lit_ci emoticon) emoji result
  else result.

(** One pass of the second loop: Banglish words between word boundaries. *)
Definition banglish_step (result : pystr) (kv : pystr * pystr) : pystr :=
  let '(banglish, bangla) := kv in
  if negb (startswith colon banglish)
  then Re.sub (Re.word_ci banglish) bangla result
  else result.

(** One pass of the third loop: English words. *)
Definition english_step (result : pystr) (kv : pystr * pystr) : pystr :=
  let '(english, bangla) := kv in
  Re.sub (Re.word_ci english) bangla result.

Definition _to_bangla (text : pystr) : pystr :=
  if negb (truthy text) then text
  else
    let result := fold_left emoticon_step BANGLISH_TO_BANGLA text in
    let result := fold_left banglish_step BANGLISH_TO_BANGLA result in
    fold_left english_step ENGLISH_TO_BANGLA result.

Definition _to_banglish (text : pystr) : pystr := text.

(** [translate(text, target_lang)]; the target comes from the context and
    may be any value. *)
Definition translate (text : pystr) (target_lang : pyval) : pystr :=
  if pyval_eq_str target_lang (u "bangla") then _to_bangla text
  else if pyval_eq_str target_lang (u "banglish") then _to_banglish text
  else text.

End LanguageManager.

(* ===================================================================== *)
(** ** database/models.py                                                 *)
(* ===================================================================== *)

Module models.

Definition ACTIVE : pystr := Eval vm_compute in u "active".
Definition INACTIVE : pystr := Eval vm_compute in u "inactive".
Definition PENDING : pystr := Eval vm_compute in u "pending".
Definition SUSPENDED : pystr := Eval vm_compute in u "suspended".
Definition VERIFIED : pystr := Eval vm_compute in u "verified".
Definition TRIAL : pystr := Eval vm_compute in u "trial".

(** The keys of the [context_data] blob that the core reads or writes. *)
Record ContextData := {
  user_name : option pyval;
  last_interaction : option Z;
  total_interactions : Z          (* [0] when the key is absent *)
}.

Definition empty_context : ContextData :=
  {| user_name := None; last_interaction := None; total_interactions := 0 |}.

(** A row of [bots].  Times are seconds on the clock [datetime.now()]
    reads. *)
Record Bot := {
  id : Z;
  bot_token : pystr;
  admin_chat_id : Z;
  bot_name : pystr;
  plan_type : pystr;
  status : pystr;
  profile_clone : option bool;    (* [settings.get("profile_clone")] *)
  last_active : option Z;
  total_messages : Z;
  trial_expiry : option Z
}.

(** A row of [subscriptions]. *)
Record Subscription := {
  sub_id : Z;
  sub_bot_id : Z;
  sub_plan_type : pystr;
  sub_status : pystr;
  start_date : Z;
  end_date : option Z
}.

(** A row of [conversations]. *)
Record Conversation := {
  conv_bot_id : Z;
  from_user : Z;
  to_user : Z;
  message_text : pystr;
  bot_response : pystr;
  is_ghost_mode : bool;
  timestamp : Z
}.

(** A row of [learning]; a JSON column may hold NULL. *)
Record Learning := {
  learning_bot_id : Z;
  user_patterns : option pydict;
  response_patterns : option pydict;
  context_data : option ContextData;
  accuracy_score : option Q;
  training_count : Z;
  last_trained : Z
}.

(** The tables, each in the order the storage engine returns its rows when
    a query names no order. *)
Record Db := {
  bots : list Bot;
  subscriptions : list Subscription;
  learnings : list Learning;
  conversations : list Conversation
}.

End models.

(* ===================================================================== *)
(** ** database/crud.py                                                   *)
(* ===================================================================== *)

Module crud.

(** [query.first()] *)
Definition first {A} (l : list A) : option A := head l.

(** [Security.decrypt_token] with the configured key (security.py 40-48):
    a function from strings to strings that gives [""] for whatever does
    not decrypt.  The cipher is not modelled; everything below holds for
    every such function. *)
Definition cipher := pystr -> pystr.

(** [db.query(models.Bot).filter(models.Bot.id == bot_id).first()] *)
Definition bot_row (db : models.Db) (bot_id : Z) : option models.Bot :=
  first (List.filter (fun b => models.id b =? bot_id) (models.bots db)).

(** What the queries on [bots] do to each row they return: a non-empty
    token is replaced by its decryption.  The assignment is made to the
    row of the session, so the next commit of that session writes it. *)
Definition decrypted (decrypt_token : cipher) (b : models.Bot) : models.Bot :=
  if truthy (models.bot_token b)
  then {| models.id := models.id b;
          models.bot_token := decrypt_token (models.bot_token b);
          models.admin_chat_id := models.admin_chat_id b;
          models.bot_name := models.bot_name b;
          models.plan_type := models.plan_type b;
          models.status := models.status b;
          models.profile_clone := models.profile_clone b;
          models.last_active := models.last_active b;
          models.total_messages := models.total_messages b;
          models.trial_expiry := models.trial_expiry b |}
  else b.

Definition get_bot (decrypt_token : cipher) (db : models.Db) (bot_id : Z)
  : option models.Bot :=
  decrypted decrypt_token <$> bot_row db bot_id.

Definition get_active_bots (decrypt_token : cipher) (db : models.Db)
  : list models.Bot :=
  List.map (decrypted decrypt_token)
    (List.filter (fun b => bool_decide (models.status b = models.ACTIVE))
       (models.bots db)).

(** [end_date > datetime.now()]; SQL's comparison with NULL is not true. *)
Definition unexpired (now : Z) (s : models.Subscription) : bool :=
  match models.end_date s with
  | Some e => now <? e
  | None => false
  end.

Definition get_active_subscription (db : models.Db) (bot_id now : Z)
  : option models.Subscription :=
  first (List.filter
           (fun s => (models.sub_bot_id s =? bot_id)
                     && bool_decide (models.sub_status s = models.VERIFIED)
                     && unexpired now s)
           (models.subscriptions db)).

Definition get_learning (db : models.Db) (bot_id : Z) : option models.Learning :=
  first (List.filter (fun l => models.learning_bot_id l =? bot_id)
           (models.learnings db)).

Definition create_conversation (db : models.Db) (bot_id from_user to_user : Z)
    (message_text bot_response : pystr) (is_ghost_mode : bool) (now : Z)
  : models.Db :=
  {| models.bots := models.bots db;
     models.subscriptions := models.subscriptions db;
     models.learnings := models.learnings db;
     models.conversations :=
       models.conversations db ++
       [ {| models.conv_bot_id := bot_id;
            models.from_user := from_user;
            models.to_user := to_user;
            models.message_text := message_text;
            models.bot_response := bot_response;
            models.is_ghost_mode := is_ghost_mode;
            models.timestamp := now |} ] |}.

End crud.

(* ===================================================================== *)
(** ** core/ai_engine.py                                                  *)
(* ===================================================================== *)

Module AIEngine.

(** The dict [get_learning_data] builds and caches for a bot. *)
Record LearningData := {
  user_patterns : pydict;
  response_patterns : pydict;
  context_data : models.ContextData;
  accuracy : Q
}.

(** The keys of the context dict that the engine reads.  [None] is an
    absent key. *)
Record Context := {
  bot_id : Z;
  user_id : Z;
  message_text : option pyval;
  language : option pyval
}.

Inductive intent := greeting | question | request | complaint | general.
Inductive sentiment := positive | negative | neutral.

(** The keys of [TextTemplates.get_response_templates()] the engine asks
    for. *)
Inductive bucket := greetings_b | questions_b | requests_b | complaints_b | general_b.

(** What the engine gets from outside: the outcome of
    [crud.get_learning] inside a fresh session, and the template table of
    [utils/text_templates.py], which is not part of the sources at hand and
    is therefore left open. *)
Record Env := {
  load_learning : Z -> result (option models.Learning);
  response_templates : bucket -> list pystr
}.

(** [self.learning_data] *)
Abbreviation cache := (gmap Z LearningData).

Definition default_learning : LearningData :=
  {| user_patterns := []; response_patterns := [];
     context_data := models.empty_context; accuracy := 0 |}.

(** [x or {}] and [x or 0.0] on a column value. *)
Definition or_empty (d : option pydict) : pydict := default [] d.

Definition of_row (l : models.Learning) : LearningData :=
  {| user_patterns := or_empty (models.user_patterns l);
     response_patterns := or_empty (models.response_patterns l);
     context_data := default models.empty_context (models.context_data l);
     accuracy := default 0%Q (models.accuracy_score l) |}.

Definition get_learning_data (E : Env) (c : cache) (bot_id : Z)
  : result (LearningData * cache) :=
  match c !! bot_id with
  | Some d => Ok (d, c)
  | None =>
      let! row := load_learning E bot_id in
      let d := match row with
               | Some l => of_row l
               | None => default_learning
               end in
      Ok (d, <[bot_id := d]> c)
  end.

Definition greetings : list (pystr * pystr) := Eval vm_compute in
  [ (u "hello", u "হ্যালো! কেমন আছেন? 😊");
    (u "hi", u "হাই! ভালো আছি, আপনি? 💝");
    (u "hola", u "ওহে! কী খবর? ✨");
    (u "hey", u "হেই! কেমন চলছে? 🎯");
    (u "সালাম", u "ওয়ালাইকুম আসসালাম! কেমন আছেন? 🤲");
    (u "হ্যালো", u "হ্যালো! ভালো আছি, আপনিও ভালো থাকুন 🌟");
    (u "কেমন আছ", u "আলহামদুলিল্লাহ ভালো আছি! আপনি কেমন আছেন? 😊");
    (u "খবর কি", u "সব ভালো! আপনার কী খবর? 💫");
    (u "কি কর", u "আপনার সাথে চ্যাট করছি! 😄");
    (u "ভাই", u "জি বলুন ভাই, কীভাবে সাহায্য করতে পারি? 🛠️");
    (u "আপু", u "জি আপু, কী করতে হবে? 💖");
    (u "বন্ধু", u "হ্যালো বন্ধু! কেমন আছ? 👋") ].

Definition help_keywords : list pystr := Eval vm_compute in
  [ u "help"; u "হেল্প"; u "সাহায্য"; u "জানি না"; u "কিভাবে" ].

Definition help_response : pystr := Eval vm_compute in
  u "কীভাবে সাহায্য করতে পারি? বিস্তারিত বলুন। 🤔".

(** The first loop of [check_predefined_responses]. *)
Fixpoint find_greeting (table : list (pystr * pystr)) (message : pystr)
  : option pystr :=
  match table with
  | [] => None
  | (key, response) :: rest =>
      if isin key (lower message) then Some response
      else find_greeting rest message
  end.

(** The second loop. *)
Fixpoint find_help (keywords : list pystr) (message : pystr) : option pystr :=
  match keywords with
  | [] => None
  | keyword :: rest =>
      if isin keyword (lower message) then Some help_response
      else find_help rest message
  end.

Definition check_predefined_responses (message : pystr) : option pystr :=
  match find_greeting greetings message with
  | Some response => Some response
  | None => find_help help_keywords message
  end.

(** [set(message.lower().split())]: only membership and size are used. *)
Definition message_words (message : pystr) : list pystr :=
  remove_dups (split (lower message)).

(** One pass of the scoring loop; the state is [(best_match, best_score)]. *)
Definition score_step (words : list pystr) (best : option pystr * Q)
    (item : pystr * Z) : option pystr * Q :=
  let '(pattern, count) := item in
  if bool_decide (pattern ∈ words) then
    let score := py_truediv count (Z.of_nat (length words)) in
    if py_gt score (snd best) then (Some pattern, score) else best
  else best.

Definition ack_suffix : pystr := Eval vm_compute in u "... আরও বলুন।".

(** The loop over [response_patterns.items()]. *)
Fixpoint first_frequent (response_patterns : pydict) : option pystr :=
  match response_patterns with
  | [] => None
  | (word, frequency) :: rest =>
      if frequency >? 5 then Some (capitalize word ++ ack_suffix)
      else first_frequent rest
  end.

Definition check_learned_patterns (learning : LearningData) (message : pystr)
  : option pystr :=
  match user_patterns learning, response_patterns learning with
  | [], _ | _, [] => None
  | _, _ =>
      let words := message_words message in
      let '(best_match, best_score) :=
        fold_left (score_step words) (user_patterns learning) (None, 0%Q) in
      match best_match with
      | Some m =>
          if truthy m && py_gt best_score (3 # 10)
          then first_frequent (response_patterns learning)
          else None
      | None => None
      end
  end.

Definition positive_words : list pystr := Eval vm_compute in
  [ u "ভালো"; u "খুশি"; u "আনন্দ"; u "ধন্যবাদ"; u "থ্যাংকস"; u "সুপার"; u "এক্সিলেন্ট"; u "বিউটিফুল" ].

Definition negative_words : list pystr := Eval vm_compute in
  [ u "খারাপ"; u "বাজে"; u "দুঃখ"; u "কষ্ট"; u "প্রবলেম"; u "সমস্যা"; u "বিরক্ত"; u "অসুস্থ" ].

(** [sum(1 for word in words if word in text)] *)
Definition count_in (words : list pystr) (text : pystr) : Z :=
  Z.of_nat (length (List.filter (fun word => isin word text) words)).

Definition analyze_sentiment (text : pystr) : sentiment :=
  let text_lower := lower text in
  let pos_count := count_in positive_words text_lower in
  let neg_count := count_in negative_words text_lower in
  if pos_count >? neg_count then positive
  else if neg_count >? pos_count then negative
  else neutral.

Definition greeting_words : list pystr := Eval vm_compute in
  [ u "হ্যালো"; u "হাই"; u "সালাম"; u "কেমন"; u "খবর" ].
Definition question_words : list pystr := Eval vm_compute in
  [ u "কি"; u "কেন"; u "কিভাবে"; u "কখন"; u "কোথায়"; u "কে" ].
Definition request_words : list pystr := Eval vm_compute in
  [ u "চাই"; u "দাও"; u "করো"; u "করুন"; u "সাহায্য"; u "হেল্প" ].
Definition complaint_words : list pystr := Eval vm_compute in
  [ u "সমস্যা"; u "প্রবলেম"; u "ভুল"; u "এরর"; u "কাজ করে না" ].

(** [any(word in text for word in words)] *)
Definition any_in (words : list pystr) (text : pystr) : bool :=
  existsb (fun word => isin word text) words.

Definition detect_intent (text : pystr) : intent :=
  let text_lower := lower text in
  if any_in greeting_words text_lower then greeting
  else if any_in question_words text_lower then question
  else if any_in request_words text_lower then request
  else if any_in complaint_words text_lower then complaint
  else general.

Definition fallbacks : list pystr := Eval vm_compute in
  [ u "দুঃখিত, বুঝতে পারিনি। আবার বলুন। 🤔";
    u "কী বললেন? একটু ক্লিয়ার বলবেন? 💭";
    u "একটু অন্যভাবে বলুন দেখি। ✨";
    u "আমি এখনো শিখছি, সহজ ভাষায় বলুন। 📚";
    u "একটু বিশদভাবে বলুন কী চান। 💫" ].

(** [get_fallback_response()], with the generator's draw [r]. *)
Definition get_fallback_response (r : nat) : pystr := choice fallbacks r [].

Definition listening : pystr := Eval vm_compute in u "জি বলুন, আমি শুনছি। 😊".
Definition name_slot : pystr := Eval vm_compute in u "{name}".
Definition mark_positive : pystr := Eval vm_compute in u " 😊".
Definition mark_negative : pystr := Eval vm_compute in u " 😔".
Definition mark_neutral : pystr := Eval vm_compute in u " 💫".

Definition bucket_of (i : intent) : bucket :=
  match i with
  | greeting => greetings_b
  | question => questions_b
  | request => requests_b
  | complaint => complaints_b
  | general => general_b
  end.

(** [generate_contextual_response]; [message] is the context's
    [message_text], already known to be a string, and [r] the draw of
    [random.choice]. *)
Definition generate_contextual_response (E : Env) (message : pystr)
    (learning : LearningData) (r : nat) : result pystr :=
  let previous_context := context_data learning in
  let sentiment := analyze_sentiment message in
  let intent := detect_intent message in
  let responses := response_templates E (bucket_of intent) in
  let response := match responses with
                  | [] => listening
                  | _ => choice responses r []
                  end in
  let! response :=
    match models.user_name previous_context with
    | Some v =>
        if pyval_truthy v then
          match v with
          | PStr name => Ok (replace name_slot name response)
          | _ => Raise TypeError
          end
        else Ok response
    | None => Ok response
    end in
  Ok (response ++ match sentiment with
                  | positive => mark_positive
                  | negative => mark_negative
                  | neutral => mark_neutral
                  end).

Definition banglish : pystr := Eval vm_compute in u "banglish".

(** [context.get("message_text", "").strip().lower()] *)
Definition prepared_text (context : Context) : result pystr :=
  match message_text context with
  | None => Ok []
  | Some (PStr s) => Ok (lower (strip s))
  | Some _ => Raise AttributeError
  end.

(** [context.get("message_text", "")] where it is known to be a string. *)
Definition raw_text (context : Context) : pystr :=
  match message_text context with
  | Some (PStr s) => s
  | _ => []
  end.

(** The body of the [try] of [generate_response].  The cache is an
    attribute of the engine, so what [get_learning_data] stored stays
    stored when a later statement raises. *)
Definition generate_response_try (E : Env) (c : cache) (context : Context)
    (r : nat) : result pystr * cache :=
  match prepared_text context with
  | Raise e => (Raise e, c)
  | Ok message_text =>
      match get_learning_data E c (bot_id context) with
      | Raise e => (Raise e, c)
      | Ok (learning, c') =>
          let predefined := check_predefined_responses message_text in
          if truthy (default [] predefined)
          then (Ok (LanguageManager.translate (default [] predefined)
                      (PStr banglish)), c')
          else
            let learned_response := check_learned_patterns learning message_text in
            if truthy (default [] learned_response)
            then (Ok (default [] learned_response), c')
            else
              (let! response :=
                 generate_contextual_response E (raw_text context) learning r in
               Ok (match language context with
                   | None => response
                   | Some lang =>
                       if pyval_eq_str lang banglish then response
                       else LanguageManager.translate response lang
                   end), c')
      end
  end.

(** [generate_response]: [r] is the draw for the template, [r'] the draw
    for the fallback. *)
Definition generate_response (E : Env) (c : cache) (context : Context)
    (r r' : nat) : pystr * cache :=
  match generate_response_try E c context r with
  | (Ok response, c') => (response, c')
  | (Raise _, c') => (get_fallback_response r', c')
  end.

(** One pass of the loops of [update_patterns]. *)
Definition count_word (d : pydict) (word : pystr) : pydict :=
  if len word >? 2 then dict_set d word (dict_get d word + 1) else d.

Definition update_patterns (learning : LearningData)
    (user_message bot_response : pystr) : LearningData :=
  let words := split (lower user_message) in
  let up := fold_left count_word words (user_patterns learning) in
  let resp_words := split (lower bot_response) in
  let rp := fold_left count_word resp_words (response_patterns learning) in
  let total_patterns := dict_len up + dict_len rp in
  {| user_patterns := up;
     response_patterns := rp;
     context_data := context_data learning;
     accuracy := if total_patterns >? 0
                 then Qmin 1 (py_truediv total_patterns 1000)
                 else accuracy learning |}.

End AIEngine.

(* ===================================================================== *)
(** ** core/ghost_bot.py                                                  *)
(* ===================================================================== *)

Module GhostBot.

(** The attributes of a worker that its message handler reads or writes. *)
Record t := {
  bot_id : Z;
  admin_chat_id : Z;
  self_id : Z;                       (* [self.bot.id] *)
  is_cloning : bool;
  ai_engine : gmap Z AIEngine.LearningData   (* [self.ai_engine.learning_data] *)
}.

(** An inbound message. *)
Record Message := {
  from_user_id : Z;
  chat_id : Z;
  text : option pystr;
  caption : option pystr
}.

(** What the handler does to the outside: the calls of the transport that
    were delivered, and what was logged. *)
Inductive effect :=
  | SendChatAction (chat : Z)
  | Sleep (seconds : Z)
  | Answer (chat : Z) (body : pystr) (html : bool)
  | LogError (e : exn).

(** The writes of the handler that can fail: the commit inside
    [create_conversation], the [refresh] after it, and the commit at the
    end. *)
Inductive db_call :=
  | SaveConversation
  | RefreshConversation
  | CommitActivity.

(** What the outside does with a call: whether the transport delivers it,
    and whether a write goes through.  (The reads are taken to answer: a
    failing read of the handler ends in its [except] before anything is
    sent or written, and a failing read of the engine makes the reply one
    of the fallbacks.) *)
Record Io := {
  delivers : effect -> bool;
  goes_through : db_call -> bool
}.

(** Everything is delivered and every write goes through. *)
Definition all_well : Io :=
  {| delivers := fun _ => true; goes_through := fun _ => true |}.

(** [a or b or ""] on the text fields of a message. *)
Definition text_or_caption (m : Message) : pystr :=
  match text m with
  | Some (c :: s) => c :: s
  | _ =>
      match caption m with
      | Some (c :: s) => c :: s
      | _ => []
      end
  end.

(** One pass of the loops of [update_learning_patterns]. *)
Definition count_word (d : pydict) (word : pystr) : pydict :=
  if len word >? 3 then
    if negb (dict_mem d word) then dict_set d word 1
    else dict_set d word (dict_get d word + 1)
  else d.

Definition update_learning_patterns (learning : models.Learning)
    (user_message bot_response : pystr) (now : Z) : models.Learning :=
  let user_patterns := AIEngine.or_empty (models.user_patterns learning) in
  let response_patterns := AIEngine.or_empty (models.response_patterns learning) in
  let context_data := default models.empty_context (models.context_data learning) in
  let words := split (lower user_message) in
  let user_patterns := fold_left count_word words user_patterns in
  let response_words := split (lower bot_response) in
  let response_patterns := fold_left count_word response_words response_patterns in
  let context_data :=
    {| models.user_name := models.user_name context_data;
       models.last_interaction := Some now;
       models.total_interactions := models.total_interactions context_data + 1 |} in
  {| models.learning_bot_id := models.learning_bot_id learning;
     models.user_patterns := Some user_patterns;
     models.response_patterns := Some response_patterns;
     models.context_data := Some context_data;
     models.accuracy_score := models.accuracy_score learning;
     models.training_count := models.training_count learning + 1;
     models.last_trained := now |}.

(** [message.answer(text)]: the effects, and whether the call returned. *)
Definition answer (io : Io) (chat : Z) (response_text : pystr)
  : list effect * bool :=
  if delivers io (Answer chat response_text false)
  then ([Answer chat response_text false], true)
  else ([], false).

(** [send_as_admin]: typing action, one second of delay, the reply as
    HTML; when one of the calls fails, the failure is logged and the reply
    is sent plainly.  The effects, and whether the method returned. *)
Definition send_as_admin (io : Io) (chat : Z) (response_text : pystr)
  : list effect * bool :=
  if delivers io (SendChatAction chat)
  then if delivers io (Answer chat response_text true)
       then ([SendChatAction chat; Sleep 1; Answer chat response_text true], true)
       else let '(sent, ok) := answer io chat response_text in
            ([SendChatAction chat; Sleep 1; LogError TransportError] ++ sent, ok)
  else let '(sent, ok) := answer io chat response_text in
       (LogError TransportError :: sent, ok).

(** What the commit writes of a learning row that
    [update_learning_patterns] has updated.  The three blobs are plain
    [JSON] columns (models.py 191-193), and the session compares what is
    assigned to such a column with what it holds.  A dict that was loaded
    from the row, changed in place and assigned back is the object the
    session holds, so no change is seen and the column is not written.
    Only where the row held NULL or an empty dict has [or {}] made a new
    dict, and that one is written.  The counters are always written.  (A
    blob of [context_data] is empty when it has none of the keys of
    [ContextData].) *)
Definition blob_truthy (c : models.ContextData) : bool :=
  bool_decide (is_Some (models.user_name c))
  || bool_decide (is_Some (models.last_interaction c))
  || negb (models.total_interactions c =? 0).

Definition flushed (stored updated : models.Learning) : models.Learning :=
  {| models.learning_bot_id := models.learning_bot_id stored;
     models.user_patterns :=
       match models.user_patterns stored with
       | Some (_ :: _) => models.user_patterns stored
       | _ => models.user_patterns updated
       end;
     models.response_patterns :=
       match models.response_patterns stored with
       | Some (_ :: _) => models.response_patterns stored
       | _ => models.response_patterns updated
       end;
     models.context_data :=
       match models.context_data stored with
       | Some c => if blob_truthy c then Some c else models.context_data updated
       | None => models.context_data updated
       end;
     models.accuracy_score := models.accuracy_score updated;
     models.training_count := models.training_count updated;
     models.last_trained := models.last_trained updated |}.

(** Writing back the first row a query by key returned. *)
Fixpoint put_bot (bots : list models.Bot) (b : models.Bot) : list models.Bot :=
  match bots with
  | [] => []
  | b' :: rest =>
      if models.id b' =? models.id b then b :: rest else b' :: put_bot rest b
  end.

Fixpoint put_learning (ls : list models.Learning) (l : models.Learning)
  : list models.Learning :=
  match ls with
  | [] => []
  | l' :: rest =>
      if models.learning_bot_id l' =? models.learning_bot_id l
      then l :: rest else l' :: put_learning rest l
  end.

Definition touch (b : models.Bot) (now : Z) : models.Bot :=
  {| models.id := models.id b;
     models.bot_token := models.bot_token b;
     models.admin_chat_id := models.admin_chat_id b;
     models.bot_name := models.bot_name b;
     models.plan_type := models.plan_type b;
     models.status := models.status b;
     models.profile_clone := models.profile_clone b;
     models.last_active := Some now;
     models.total_messages := models.total_messages b + 1;
     models.trial_expiry := models.trial_expiry b |}.

(** The engine as the worker sees it: the learning row is read from the
    storage the handler has just read from. *)
Definition engine_env (db : models.Db)
    (templates : AIEngine.bucket -> list pystr) : AIEngine.Env :=
  {| AIEngine.load_learning := fun bot_id => Ok (crud.get_learning db bot_id);
     AIEngine.response_templates := templates |}.

(** The outcome of handling one message: the worker, the storage and the
    effects, oldest first. *)
Definition outcome := (t * models.Db * list effect)%type.

(** The second half of [handle_incoming_message]: the reply is sent, the
    exchange is saved, the learning row and the activity of the bot are
    updated and committed.  [bot] is the row [get_bot] returned and
    [learning] the row [get_learning] returned.  The commit inside
    [create_conversation] commits the session, and with it the token
    [get_bot] has assigned to the row of the bot. *)
Definition send_and_save (io : Io) (self : t) (db : models.Db)
    (bot : models.Bot) (learning : option models.Learning)
    (message : Message) (ai_response : pystr) (now : Z) : outcome :=
  let user_id := from_user_id message in
  let message_text := text_or_caption message in
  let '(sent, returned) :=
    if default true (models.profile_clone bot) && is_cloning self
    then send_as_admin io (chat_id message) ai_response
    else answer io (chat_id message) ai_response in
  if negb returned
  then (self, db, sent ++ [LogError TransportError])
  else if negb (goes_through io SaveConversation)
  then (self, db, sent ++ [LogError StorageError])
  else
    let saved :=
      crud.create_conversation
        {| models.bots := put_bot (models.bots db) bot;
           models.subscriptions := models.subscriptions db;
           models.learnings := models.learnings db;
           models.conversations := models.conversations db |}
        (bot_id self) user_id (admin_chat_id self)
        message_text ai_response true now in
    if negb (goes_through io RefreshConversation
             && goes_through io CommitActivity)
    then (self, saved, sent ++ [LogError StorageError])
    else
      let learnings :=
        match learning with
        | Some l =>
            put_learning (models.learnings saved)
              (flushed l
                 (update_learning_patterns l message_text ai_response now))
        | None => models.learnings saved
        end in
      (self,
       {| models.bots := put_bot (models.bots saved) (touch bot now);
          models.subscriptions := models.subscriptions saved;
          models.learnings := learnings;
          models.conversations := models.conversations saved |},
       sent).

(** [handle_incoming_message].  [now] is the clock, [r] and [r'] are the
    draws of the engine.  On every way out of the first half the session
    is closed without a commit, so nothing is written there. *)
Definition handle_incoming_message (decrypt_token : crud.cipher) (io : Io)
    (self : t) (db : models.Db)
    (templates : AIEngine.bucket -> list pystr)
    (message : Message) (now : Z) (r r' : nat) : outcome :=
  let user_id := from_user_id message in
  let message_text := text_or_caption message in
  if (user_id =? admin_chat_id self) || (user_id =? self_id self)
  then (self, db, [])
  else
    match crud.get_bot decrypt_token db (bot_id self) with
    | None => (self, db, [])
    | Some bot =>
        if negb (bool_decide (models.status bot = models.ACTIVE))
        then (self, db, [])
        else
          let subscription := crud.get_active_subscription db (bot_id self) now in
          (* [Some true]: the trial guard closes; [None]: the comparison
             with a missing expiry raises. *)
          let guard :=
            match subscription with
            | Some _ => Some false
            | None =>
                if bool_decide (models.plan_type bot = models.TRIAL)
                then match models.trial_expiry bot with
                     | Some expiry => Some (expiry <? now)
                     | None => None
                     end
                else Some false
            end in
          match guard with
          | None => (self, db, [LogError TypeError])
          | Some true => (self, db, [])
          | Some false =>
              let learning := crud.get_learning db (bot_id self) in
              let context :=
                {| AIEngine.bot_id := bot_id self;
                   AIEngine.user_id := user_id;
                   AIEngine.message_text := Some (PStr message_text);
                   AIEngine.language := None |} in
              let '(ai_response, cache') :=
                AIEngine.generate_response (engine_env db templates)
                  (ai_engine self) context r r' in
              let self' :=
                {| bot_id := bot_id self;
                   admin_chat_id := admin_chat_id self;
                   self_id := self_id self;
                   is_cloning := is_cloning self;
                   ai_engine := cache' |} in
              send_and_save io self' db bot learning message ai_response now
          end
    end.

End GhostBot.

(* ===================================================================== *)
(** ** ghost_manager.py                                                   *)
(* ===================================================================== *)

Module GhostBotManager.

(** What the manager keeps of a worker it created. *)
Record worker := {
  w_token : pystr;
  w_bot_id : Z;
  w_admin_chat_id : Z
}.

(** What the manager writes to its error log. *)
Inductive log_entry :=
  | StartError (bot_id : Z)     (* "Error starting bot ..." *)
  | MonitorError.               (* "Error in bot monitor ..." *)

(** The manager: [self.active_bots], and the error log, oldest first. *)
Record t := {
  active_bots : gmap Z worker;
  errors : list log_entry
}.

(** Whether [GhostBot(...)] and [asyncio.create_task] go through for this
    row, which carries the decrypted token; a rejected token is the usual
    reason they do not. *)
Definition starter := models.Bot -> bool.

Definition start_bot (ok : starter) (self : t) (bot : models.Bot) : t :=
  match active_bots self !! models.id bot with
  | Some _ => self
  | None =>
      if ok bot then
        {| active_bots :=
             <[models.id bot :=
                 {| w_token := models.bot_token bot;
                    w_bot_id := models.id bot;
                    w_admin_chat_id := models.admin_chat_id bot |}]>
               (active_bots self);
           errors := errors self |}
      else
        {| active_bots := active_bots self;
           errors := errors self ++ [StartError (models.id bot)] |}
  end.

(** [stop_bot]: [GhostBot.stop] swallows what closing the session raises,
    so the entry is always deleted. *)
Definition stop_bot (self : t) (bot_id : Z) : t :=
  match active_bots self !! bot_id with
  | Some _ =>
      {| active_bots := delete bot_id (active_bots self);
         errors := errors self |}
  | None => self
  end.

(** One pass of the second loop of [monitor_bots]. *)
Definition start_pass (ok : starter) (self : t) (bot : models.Bot) : t :=
  if negb (bool_decide (is_Some (active_bots self !! models.id bot)))
  then start_bot ok self bot else self.

(** One pass of the body of [monitor_bots].  [q] is what opening a
    session and listing the active bots gives; when that raises, the
    handler of the loop logs it and the pass is over. *)
Definition monitor_pass (decrypt_token : crud.cipher) (ok : starter) (self : t)
    (q : result models.Db) : t :=
  match q with
  | Raise _ =>
      {| active_bots := active_bots self;
         errors := errors self ++ [MonitorError] |}
  | Ok db =>
      let db_active_bots := crud.get_active_bots decrypt_token db in
      let db_active_ids := List.map models.id db_active_bots in
      let self :=
        fold_left
          (fun self bot_id =>
             if negb (bool_decide (bot_id ∈ db_active_ids))
             then stop_bot self bot_id else self)
          (map_to_list (active_bots self)).*1 self in
      fold_left (start_pass ok) db_active_bots self
  end.

(** The ids of the live workers. *)
Definition live (self : t) : gset Z := dom (active_bots self).

End GhostBotManager.

(* ===================================================================== *)
(** ** The specification's own wording, for comparison                    *)
(* ===================================================================== *)

Module Spec.

(** "at most one currently effective entitlement window per TenantBot;
    overlapping windows are resolved by taking the later end timestamp":
    the verified, unexpired windows of a bot, and the one among them that
    ends last. *)
Definition windows (db : models.Db) (bot_id now : Z) : list models.Subscription :=
  List.filter
    (fun s => (models.sub_bot_id s =? bot_id)
              && bool_decide (models.sub_status s = models.VERIFIED)
              && crud.unexpired now s)
    (models.subscriptions db).

Definition end_of (s : models.Subscription) : Z := default 0 (models.end_date s).

Definition later (a b : models.Subscription) : models.Subscription :=
  if end_of a <? end_of b then b else a.

Definition effective_window (db : models.Db) (bot_id now : Z)
  : option models.Subscription :=
  match windows db bot_id now with
  | [] => None
  | s :: rest => Some (fold_left later rest s)
  end.

(** "trial window open": the trial expiry has not passed. *)
Definition trial_open (b : models.Bot) (now : Z) : bool :=
  match models.trial_expiry b with
  | Some expiry => now <=? expiry
  | None => false
  end.

(** "entitled": status is active, and there is a verified unexpired
    subscription or an open trial window. *)
Definition is_entitled (db : models.Db) (bot_id now : Z) : bool :=
  match crud.bot_row db bot_id with
  | None => false
  | Some b =>
      bool_decide (models.status b = models.ACTIVE)
      && (bool_decide (windows db bot_id now <> []) || trial_open b now)
  end.

(** "tokenize the inbound message (lower-cased, whitespace-split)" *)
Definition tokens (message : pystr) : list pystr := split (lower message).

(** "score = frequency / token_count_of_message" *)
Definition score (inbound : pydict) (message token : pystr) : Q :=
  py_truediv (dict_get inbound token) (Z.of_nat (length (tokens message))).

(** "select the token with the highest score", among the tokens of the
    message present in the inbound map. *)
Definition best_token (inbound : pydict) (message : pystr) : option pystr :=
  fold_left
    (fun best token =>
       if dict_mem inbound token then
         match best with
         | None => Some token
         | Some b =>
             if py_gt (score inbound message token) (score inbound message b)
             then Some token else Some b
         end
       else best)
    (tokens message) None.

(** "the tenant's most frequent outbound token (with frequency > 5)" *)
Definition most_frequent (outbound : pydict) : option pystr :=
  fst <$> fold_left
    (fun best item =>
       if snd item >? 5 then
         match best with
         | None => Some item
         | Some b => if snd b <? snd item then Some item else Some b
         end
       else best)
    outbound None.

(** The learned-pattern stage as the specification words it. *)
Definition learned_pattern_match (learning : AIEngine.LearningData)
    (message : pystr) : option pystr :=
  match best_token (AIEngine.user_patterns learning) message with
  | Some token =>
      if py_gt (score (AIEngine.user_patterns learning) message token) (3 # 10)
      then
        match most_frequent (AIEngine.response_patterns learning) with
        | Some word => Some (capitalize word ++ AIEngine.ack_suffix)
        | None => None
        end
      else None
  | None => None
  end.

(** "first matching category wins, in that priority order" *)
Definition priority : list (AIEngine.intent * list pystr) :=
  [ (AIEngine.greeting, AIEngine.greeting_words);
    (AIEngine.question, AIEngine.question_words);
    (AIEngine.request, AIEngine.request_words);
    (AIEngine.complaint, AIEngine.complaint_words) ].

Definition matches (text : pystr) (category : AIEngine.intent * list pystr) : bool :=
  AIEngine.any_in (snd category) (lower text).

Definition classify (text : pystr) : AIEngine.intent :=
  match List.find (matches text) priority with
  | Some category => fst category
  | None => AIEngine.general
  end.

(** "case-insensitive substring match against a fixed greeting/help
    table": the table, help keywords included, and the entries a message
    matches. *)
Definition predefined_table : list (pystr * pystr) :=
  AIEngine.greetings
  ++ List.map (fun keyword => (keyword, AIEngine.help_response)) AIEngine.help_keywords.

Definition matches_entry (message : pystr) (entry : pystr * pystr) : bool :=
  isin (fst entry) (lower message).

(** "accuracy = min(1.0, (inbound_vocab_size + outbound_vocab_size) / 1000)" *)
Definition accuracy_of (inbound outbound : pydict) : Q :=
  Qmin 1 (py_truediv (dict_len inbound + dict_len outbound) 1000).

End Spec.

(* ===================================================================== *)
(** ** Notions used in the statements                                     *)
(* ===================================================================== *)

(** Whether a cased code point comes before, case-ignorable ones apart. *)
Definition cased_before (before : pystr) : bool :=
  match skip_ignorable before with
  | Some c => cased c
  | None => false
  end.

Definition nonempty_values (table : list (pystr * pystr)) : bool :=
  forallb (fun kv => truthy (snd kv)) table.

(** A key neither starts nor ends with white space. *)
Definition trimmed (k : pystr) : bool :=
  match head k, last k with
  | Some c, Some c' => negb (is_space c) && negb (is_space c')
  | _, _ => false
  end.

(** The score of an item of the inbound map against the distinct tokens
    [words] exceeds the threshold. *)
Definition qualifies (words : list pystr) (item : pystr * Z) : bool :=
  bool_decide (fst item ∈ words)
  && py_gt (py_truediv (snd item) (Z.of_nat (length words))) (3 # 10).

(** The state of the scoring loop: no match and score [0], or a match that
    is one of the tokens. *)
Definition loop_state (words : list pystr) (best : option pystr * Q) : Prop :=
  (fst best = None /\ (snd best == 0)%Q) \/ (exists p, fst best = Some p /\ p ∈ words).

(** The vocabulary size the accuracy is computed from. *)
Definition vocabulary (learning : AIEngine.LearningData) : Z :=
  dict_len (AIEngine.user_patterns learning)
  + dict_len (AIEngine.response_patterns learning).

(** A sequence of [update_patterns] calls, oldest first. *)
Definition run_updates (ops : list (pystr * pystr))
    (learning : AIEngine.LearningData) : AIEngine.LearningData :=
  fold_left (fun l op => AIEngine.update_patterns l (fst op) (snd op)) ops learning.

(** A sequence of [update_learning_patterns] calls with their clock
    readings, oldest first. *)
Definition run_learning (ops : list (pystr * pystr * Z))
    (row : models.Learning) : models.Learning :=
  fold_left
    (fun l op => GhostBot.update_learning_patterns l (fst (fst op)) (snd (fst op)) (snd op))
    ops row.

(** The accuracy is at most the one computed from the vocabularies.  The
    store [create_learning] makes is such a store, and so is whatever the
    two update routines make of one. *)
Definition within_derived (l : AIEngine.LearningData) : Prop :=
  (AIEngine.accuracy l
   <= Spec.accuracy_of (AIEngine.user_patterns l) (AIEngine.response_patterns l))%Q.

(** The condition under which the handler, as written, answers nothing:
    the bot row is missing or not active, or no verified unexpired
    subscription exists and the plan is the trial one with its expiry
    missing or passed. *)
Definition guard_closed (db : models.Db) (bot_id now : Z) : bool :=
  match crud.bot_row db bot_id with
  | None => true
  | Some bot =>
      negb (bool_decide (models.status bot = models.ACTIVE))
      || (negb (bool_decide (is_Some (crud.get_active_subscription db bot_id now)))
          && bool_decide (models.plan_type bot = models.TRIAL)
          && match models.trial_expiry bot with
             | Some expiry => expiry <? now
             | None => true
             end)
  end.

(* ===================================================================== *)
(** ** Sample data                                                        *)
(* ===================================================================== *)

Definition hello_context : AIEngine.Context :=
  {| AIEngine.bot_id := 1; AIEngine.user_id := 7;
     AIEngine.message_text := Some (PStr (u "  Hello there"));
     AIEngine.language := None |}.

Definition plain_env : AIEngine.Env :=
  {| AIEngine.load_learning := fun _ => Ok None;
     AIEngine.response_templates := fun _ => [] |}.

(** A storage that cannot be read. *)
Definition failing_env : AIEngine.Env :=
  {| AIEngine.load_learning := fun _ => Raise StorageError;
     AIEngine.response_templates := fun _ => [] |}.

(** A store with one inbound and two outbound tokens. *)
Definition order_store : AIEngine.LearningData :=
  {| AIEngine.user_patterns := [(u "order", 1)];
     AIEngine.response_patterns := [(u "okay", 6); (u "sure", 9)];
     AIEngine.context_data := models.empty_context;
     AIEngine.accuracy := 0 |}.

(** The row [crud.create_learning] inserts. *)
Definition fresh_row : models.Learning :=
  {| models.learning_bot_id := 1;
     models.user_patterns := Some [];
     models.response_patterns := Some [];
     models.context_data := Some models.empty_context;
     models.accuracy_score := Some 0%Q;
     models.training_count := 0;
     models.last_trained := 0 |}.

(** A store whose accuracy is above the value computed from its
    vocabularies, and one whose accuracy is above 1. *)
Definition stale_store (a : Q) : AIEngine.LearningData :=
  {| AIEngine.user_patterns := []; AIEngine.response_patterns := [];
     AIEngine.context_data := models.empty_context; AIEngine.accuracy := a |}.

Definition window (n : Z) (ends : Z) : models.Subscription :=
  {| models.sub_id := n; models.sub_bot_id := 1;
     models.sub_plan_type := u "100"; models.sub_status := models.VERIFIED;
     models.start_date := 0; models.end_date := Some ends |}.

Definition two_windows : models.Db :=
  {| models.bots := []; models.subscriptions := [window 1 100; window 2 200];
     models.learnings := []; models.conversations := [] |}.

Definition stranger_says_hello : GhostBot.Message :=
  {| GhostBot.from_user_id := 7; GhostBot.chat_id := 7;
     GhostBot.text := Some (u "hello"); GhostBot.caption := None |}.


Definition worker_1 : GhostBot.t :=
  {| GhostBot.bot_id := 1; GhostBot.admin_chat_id := 5; GhostBot.self_id := 9;
     GhostBot.is_cloning := false; GhostBot.ai_engine := ∅ |}.

(** A cipher for the examples: what follows the prefix ["enc:"], and the
    empty string for a text without the prefix. *)
Definition sample_cipher : crud.cipher :=
  fun s => if startswith (u "enc:") s then drop 4 s else [].

Definition bot_1 (plan : pystr) (expiry : option Z) : models.Bot :=
  {| models.id := 1; models.bot_token := u "enc:t"; models.admin_chat_id := 5;
     models.bot_name := u "b"; models.plan_type := plan;
     models.status := models.ACTIVE; models.profile_clone := None;
     models.last_active := None; models.total_messages := 0;
     models.trial_expiry := expiry |}.

(** One active bot, no subscription, no learning row. *)
Definition one_bot (plan : pystr) (expiry : option Z) : models.Db :=
  {| models.bots := [bot_1 plan expiry]; models.subscriptions := [];
     models.learnings := []; models.conversations := [] |}.

Definition no_templates : AIEngine.bucket -> list pystr := fun _ => [].

Definition no_workers : GhostBotManager.t :=
  {| GhostBotManager.active_bots := ∅; GhostBotManager.errors := [] |}.

Definition always : GhostBotManager.starter := fun _ => true.

(* ===================================================================== *)
(** ** core/ai_engine.py: training from stored conversations              *)
(* ===================================================================== *)

Module AIEngineTraining.

(** A conversation as [GhostBot.get_chat_history] hands it over: the
    [message_text] and [bot_response] columns, [None] for NULL. *)
Record conv := {
  message : option pystr;
  response : option pystr
}.

(** One pass of the loop of [train_from_conversations]. *)
Definition train_step (learning : AIEngine.LearningData) (c : conv)
  : AIEngine.LearningData :=
  match message c, response c with
  | Some user_msg, Some bot_resp =>
      if truthy user_msg && truthy bot_resp
      then AIEngine.update_patterns learning user_msg bot_resp
      else learning
  | _, _ => learning
  end.

(** The write-back of the four learning columns, when the bot has a row. *)
Definition save (db : models.Db) (bot_id : Z)
    (learning : AIEngine.LearningData) : models.Db :=
  match crud.get_learning db bot_id with
  | Some db_learning =>
      {| models.bots := models.bots db;
         models.subscriptions := models.subscriptions db;
         models.learnings :=
           GhostBot.put_learning (models.learnings db)
             {| models.learning_bot_id := models.learning_bot_id db_learning;
                models.user_patterns := Some (AIEngine.user_patterns learning);
                models.response_patterns := Some (AIEngine.response_patterns learning);
                models.context_data := Some (AIEngine.context_data learning);
                models.accuracy_score := Some (AIEngine.accuracy learning);
                models.training_count := models.training_count db_learning;
                models.last_trained := models.last_trained db_learning |};
         models.conversations := models.conversations db |}
  | None => db
  end.

(** [train_from_conversations].  [session] is what opening the session
    for the write-back gives.  The dict the loop updates is the cached
    one, so the cache holds the trained data whether or not the write-back
    goes through.  The result is the returned flag, the cache and the
    storage. *)
Definition train_from_conversations (E : AIEngine.Env)
    (c : gmap Z AIEngine.LearningData) (session : result models.Db)
    (bot_id : Z) (conversations : list conv)
  : bool * gmap Z AIEngine.LearningData * result models.Db :=
  match AIEngine.get_learning_data E c bot_id with
  | Raise _ => (false, c, session)
  | Ok (learning, c') =>
      let learning := fold_left train_step conversations learning in
      let c' := <[bot_id := learning]> c' in
      match session with
      | Raise e => (false, c', Raise e)
      | Ok db => (true, c', Ok (save db bot_id learning))
      end
  end.

End AIEngineTraining.

(* ===================================================================== *)
(** ** ghost_manager.py: the operations of the operator                   *)
(* ===================================================================== *)

Module GhostBotManagerOps.

Import GhostBotManager.

(** [stop_all]: the manager afterwards, and the new value of [running]. *)
Definition stop_all (self : t) : t * bool :=
  (fold_left stop_bot (map_to_list (active_bots self)).*1 self, false).

(** [restart_bot], with the storage answering. *)
Definition restart_bot (decrypt_token : crud.cipher) (ok : starter) (self : t)
    (db : models.Db) (bot_id : Z) : t :=
  let self := stop_bot self bot_id in
  match crud.get_bot decrypt_token db bot_id with
  | Some bot =>
      if bool_decide (models.status bot = models.ACTIVE)
      then start_bot ok self bot else self
  | None => self
  end.

(** The ["status"] entry of what [get_bot_status] returns. *)
Inductive report :=
  | Running
  | Stored (status : pystr)
  | NotFound.

Definition get_bot_status (decrypt_token : crud.cipher) (self : t)
    (db : models.Db) (bot_id : Z) : report :=
  match active_bots self !! bot_id with
  | Some _ => Running
  | None =>
      match crud.get_bot decrypt_token db bot_id with
      | Some bot => Stored (models.status bot)
      | None => NotFound
      end
  end.

(** One pass of the loop of [load_active_bots], on a row as
    [get_active_bots] returns it: the token is the decrypted one. *)
Definition load_pass (ok : starter) (self : t) (bot : models.Bot) : t :=
  if bool_decide (models.status bot = models.ACTIVE) && truthy (models.bot_token bot)
  then start_bot ok self bot else self.

(** [load_active_bots], with the storage answering. *)
Definition load_active_bots (decrypt_token : crud.cipher) (ok : starter)
    (self : t) (db : models.Db) : t :=
  fold_left (load_pass ok) (crud.get_active_bots decrypt_token db) self.

End GhostBotManagerOps.

(* ===================================================================== *)
(** ** utils/language.py: telling the languages apart                     *)
(* ===================================================================== *)

Module LanguageDetect.

Definition BANGLA : pystr := Eval vm_compute in u "bangla".
Definition BANGLISH : pystr := Eval vm_compute in u "banglish".
Definition ENGLISH : pystr := Eval vm_compute in u "english".
Definition UNKNOWN : pystr := Eval vm_compute in u "unknown".

(** [[\u0980-\u09FF]] *)
Definition bangla_cp (c : cp) : bool := ((2432 <=? c) && (c <=? 2559))%N.

(** [[a-zA-Z]] *)
Definition latin_cp (c : cp) : bool :=
  ((65 <=? c) && (c <=? 90) || (97 <=? c) && (c <=? 122))%N.

(** [word in LanguageManager.BANGLISH_TO_BANGLA] *)
Definition banglish_word (word : pystr) : bool :=
  existsb (fun kv => bool_decide (fst kv = word)) LanguageManager.BANGLISH_TO_BANGLA.

Definition is_bangla (text : pystr) : bool := existsb bangla_cp text.

Definition is_english (text : pystr) : bool :=
  let clean_text := List.filter latin_cp text in
  (len clean_text >? 0) && negb (is_bangla text).

Definition is_banglish (text : pystr) : bool :=
  if is_bangla text then false
  else
    let words := split (lower text) in
    let banglish_count := Z.of_nat (length (List.filter banglish_word words)) in
    (Z.of_nat (length words) >? 0)
    && py_gt (py_truediv banglish_count (Z.of_nat (length words))) (3 # 10).

Definition detect_language (text : pystr) : pystr :=
  if negb (truthy text) then UNKNOWN
  else if existsb bangla_cp text then BANGLA
  else if existsb latin_cp text then
    if existsb banglish_word (split (lower text)) then BANGLISH else ENGLISH
  else UNKNOWN.

End LanguageDetect.

(* ===================================================================== *)
(** ** Further notions used in the statements                             *)
(* ===================================================================== *)

(** The conversations that have both a message and a reply, as pairs. *)
Definition complete_pairs (conversations : list AIEngineTraining.conv)
  : list (pystr * pystr) :=
  omap (fun c =>
          match AIEngineTraining.message c, AIEngineTraining.response c with
          | Some (x :: user_msg), Some (y :: bot_resp) =>
              Some (x :: user_msg, y :: bot_resp)
          | _, _ => None
          end) conversations.

(** The keywords of [detect_intent], all four lists. *)
Definition intent_keywords : list pystr :=
  AIEngine.greeting_words ++ AIEngine.question_words
  ++ AIEngine.request_words ++ AIEngine.complaint_words.

(** A keyword in which a key of the predefined table occurs. *)
Definition shadowed (keyword : pystr) : bool :=
  existsb (fun entry => isin (fst entry) keyword) Spec.predefined_table.

(** How often [token] occurs in a list of tokens. *)
Definition occurrences (token : pystr) (words : list pystr) : Z :=
  Z.of_nat (length (List.filter (fun w => bool_decide (w = token)) words)).

(** A code point of the Bengali block, or a Basic Latin one that is no
    letter and none of [:], [;] and [<]. *)
Definition plain_bangla_cp (c : cp) : bool :=
  ((2432 <=? c) && (c <=? 2559)
   || (c <? 128) && negb (LanguageDetect.latin_cp c)
      && negb (c =? 58) && negb (c =? 59) && negb (c =? 60))%N.

(** The first code point of a key is a Basic Latin letter or one of [:],
    [;] and [<]. *)
Definition latin_headed (k : pystr) : bool :=
  match k with
  | c :: _ => (LanguageDetect.latin_cp c || (c =? 58) || (c =? 59) || (c =? 60))%N
  | [] => false
  end.

(** The data the worker's context has: the message and no language. *)
Definition private_context (self : GhostBot.t) (user_id : Z) (text : pystr)
  : AIEngine.Context :=
  {| AIEngine.bot_id := GhostBot.bot_id self;
     AIEngine.user_id := user_id;
     AIEngine.message_text := Some (PStr text);
     AIEngine.language := None |}.

(** The worker with another cache. *)
Definition with_cache (self : GhostBot.t) (c : gmap Z AIEngine.LearningData)
  : GhostBot.t :=
  {| GhostBot.bot_id := GhostBot.bot_id self;
     GhostBot.admin_chat_id := GhostBot.admin_chat_id self;
     GhostBot.self_id := GhostBot.self_id self;
     GhostBot.is_cloning := GhostBot.is_cloning self;
     GhostBot.ai_engine := c |}.

(** The Conversation the handler writes for a reply. *)
Definition exchange (self : GhostBot.t) (message : GhostBot.Message)
    (reply : pystr) (now : Z) : models.Conversation :=
  {| models.conv_bot_id := GhostBot.bot_id self;
     models.from_user := GhostBot.from_user_id message;
     models.to_user := GhostBot.admin_chat_id self;
     models.message_text := GhostBot.text_or_caption message;
     models.bot_response := reply;
     models.is_ghost_mode := true;
     models.timestamp := now |}.

(** Truth value of a JSON column that holds a dict, or NULL. *)
Definition truthy_dict (d : option pydict) : bool :=
  match d with
  | Some (_ :: _) => true
  | _ => false
  end.

(** The storage with another learning table. *)
Definition with_learnings (db : models.Db) (ls : list models.Learning) : models.Db :=
  {| models.bots := models.bots db;
     models.subscriptions := models.subscriptions db;
     models.learnings := ls;
     models.conversations := models.conversations db |}.

(** One active bot with the learning row [create_learning] makes. *)
Definition learning_bot (plan : pystr) (expiry : option Z) : models.Db :=
  with_learnings (one_bot plan expiry) [fresh_row].

(** A worker whose engine has cached an empty store for its bot. *)
Definition warm_worker : GhostBot.t :=
  {| GhostBot.bot_id := 1; GhostBot.admin_chat_id := 5; GhostBot.self_id := 9;
     GhostBot.is_cloning := false;
     GhostBot.ai_engine := <[1 := AIEngine.default_learning]> ∅ |}.

(* ===================================================================== *)
(** ** Facts about the string operations                                  *)
(* ===================================================================== *)

Lemma startswith_spec (p s : pystr) :
  startswith p s = true <-> exists t, s = p ++ t.
Proof.
  revert s. induction p as [|a p IH]; intros s; simpl.
  - split; [intros _; by exists s | done].
  - destruct s as [|b s].
    + split; [done | intros [t Ht]; discriminate].
    + rewrite andb_true_iff, N.eqb_eq, IH. split.
      * intros [-> [t ->]]. by exists t.
      * intros [t Ht]. injection Ht as -> ->. split; [done | by exists t].
Qed.

Lemma isin_spec (k s : pystr) :
  isin k s = true <-> exists a b, s = a ++ k ++ b.
Proof.
  induction s as [|c s IH].
  - simpl. rewrite orb_false_r, startswith_spec. split.
    + intros [t Ht]. by exists [], t.
    + intros [a [b Hab]]. symmetry in Hab.
      apply app_eq_nil in Hab as [-> Hab].
      apply app_eq_nil in Hab as [-> ->]. by exists [].
  - cbn [isin]. rewrite orb_true_iff, startswith_spec, IH. split.
    + intros [[t Ht] | [a [b Hab]]].
      * by exists [], t.
      * exists (c :: a), b. by rewrite Hab.
    + intros [[|x a] [b Hab]].
      * left. by exists b.
      * right. injection Hab as -> ->. by exists a, b.
Qed.

Lemma isin_rev (k s : pystr) : isin (rev k) (rev s) = isin k s.
Proof.
  apply eq_true_iff_eq. rewrite !isin_spec. split.
  - intros [a [b Hab]]. exists (rev b), (rev a).
    apply (f_equal (@rev _)) in Hab.
    rewrite rev_involutive, !rev_app_distr, rev_involutive in Hab.
    by rewrite Hab, <- app_assoc.
  - intros [a [b ->]]. exists (rev b), (rev a).
    by rewrite !rev_app_distr, <- app_assoc.
Qed.

(** A key that starts with a code point that is no white space is found
    in a string exactly when it is found after [lstrip]. *)
Lemma isin_lstrip (c : cp) (k s : pystr) :
  is_space c = false -> isin (c :: k) (lstrip s) = isin (c :: k) s.
Proof.
  intros Hc. induction s as [|x s IH]; [done|].
  cbn [lstrip]. destruct (is_space x) eqn:Hx; [|done].
  rewrite IH. cbn [isin startswith].
  destruct (N.eqb_spec c x) as [->|]; [congruence | done].
Qed.

Lemma isin_rstrip (k s : pystr) (c : cp) :
  last k = Some c -> is_space c = false -> isin k (rstrip s) = isin k s.
Proof.
  intros Hl Hc. unfold rstrip.
  rewrite <- (rev_involutive k) at 1. rewrite isin_rev.
  assert (Hk : rev k = c :: rev (removelast k)).
  { destruct (exists_last (l := k)) as [k' [x Hx]].
    { intros ->. discriminate. }
    subst k. rewrite last_snoc in Hl. injection Hl as ->.
    by rewrite removelast_last, rev_app_distr. }
  rewrite Hk, isin_lstrip by done. rewrite <- Hk. apply isin_rev.
Qed.

Lemma isin_strip (k s : pystr) (c c' : cp) :
  head k = Some c -> is_space c = false ->
  last k = Some c' -> is_space c' = false ->
  isin k (strip s) = isin k s.
Proof.
  intros Hh Hc Hl Hc'. unfold strip.
  rewrite (isin_rstrip _ _ c') by done.
  destruct k as [|x k]; [done|]. injection Hh as ->.
  by apply isin_lstrip.
Qed.

Ltac bool_to_prop :=
  rewrite ?orb_true_iff, ?orb_false_iff, ?andb_true_iff, ?andb_false_iff,
    ?negb_true_iff, ?negb_false_iff,
    ?N.leb_le, ?N.leb_gt, ?N.eqb_eq, ?N.eqb_neq in *.

(** The white space code points, one by one. *)
Lemma is_space_cases (c : cp) :
  is_space c = true ->
  In c [9; 10; 11; 12; 13; 28; 29; 30; 31; 32; 133; 160; 5760;
        8192; 8193; 8194; 8195; 8196; 8197; 8198; 8199; 8200; 8201; 8202;
        8232; 8233; 8239; 8287; 12288]%N.
Proof. unfold is_space. bool_to_prop. cbn [In]. lia. Qed.

Lemma assoc_in {A} (c : cp) (table : list (cp * A)) (v : A) :
  assoc c table = Some v -> In (c, v) table.
Proof.
  induction table as [|[k w] table IH]; [done|]. cbn [assoc].
  destruct (N.eqb_spec c k) as [->|]; [|by right; apply IH].
  intros [= ->]. by left.
Qed.

Lemma lower_full_other (c : cp) :
  c <> 304%N ->
  lower_full c = match assoc c lower_table with Some d => [d] | None => [c] end.
Proof. intros H. unfold lower_full. by destruct (N.eqb_spec c 304). Qed.

(** What a code point becomes is left alone by lower-casing. *)
Lemma lower_full_settled (c : cp) :
  c <> 931%N -> forallb (fun d => negb (d =? 931)%N && bool_decide (lower_full d = [d]))
                  (lower_full c) = true.
Proof.
  intros Hc.
  destruct (N.eqb_spec c 304) as [->|H304]; [by vm_compute|].
  pose proof (lower_full_other c H304) as Hl.
  destruct (assoc c lower_table) as [d|] eqn:Hd; rewrite Hl; cbn [forallb].
  - assert (Hall : forallb (fun kv => negb (snd kv =? 931)%N
                                      && bool_decide (lower_full (snd kv) = [snd kv]))
                     lower_table = true) by (vm_compute; reflexivity).
    rewrite forallb_forall in Hall.
    specialize (Hall _ (assoc_in _ _ _ Hd)). cbn [snd] in Hall.
    by rewrite Hall.
  - rewrite andb_true_r, andb_true_iff, negb_true_iff. split.
    + by apply N.eqb_neq.
    + by apply bool_decide_eq_true.
Qed.

(** Strings of such code points are their own lower case, wherever they
    stand. *)
Lemma lower_from_settled (before s : pystr) :
  forallb (fun d => negb (d =? 931)%N && bool_decide (lower_full d = [d])) s = true ->
  lower_from before s = s.
Proof.
  revert before. induction s as [|c s IH]; intros before H; [done|].
  cbn [forallb] in H. apply andb_true_iff in H as [Hc Hs].
  apply andb_true_iff in Hc as [Hc Hf].
  apply negb_true_iff in Hc. apply bool_decide_eq_true in Hf.
  cbn [lower_from]. by rewrite Hc, Hf, IH.
Qed.

Lemma lower_from_out (before s : pystr) :
  forallb (fun d => negb (d =? 931)%N && bool_decide (lower_full d = [d]))
    (lower_from before s) = true.
Proof.
  revert before. induction s as [|c s IH]; intros before; [done|].
  cbn [lower_from]. rewrite forallb_app, IH, andb_true_r.
  destruct (N.eqb_spec c 931) as [->|Hc].
  - by destruct (final_sigma before s); vm_compute.
  - by apply lower_full_settled.
Qed.

Lemma lower_idemp (s : pystr) : lower (lower s) = lower s.
Proof. apply lower_from_settled, lower_from_out. Qed.

(** White space is not touched by lower-casing, is neither cased nor
    case-ignorable, and is produced from white space only. *)
Lemma is_space_plain (c : cp) :
  is_space c = true ->
  c <> 931%N /\ lower_full c = [c] /\ case_ignorable c = false /\ cased c = false.
Proof.
  intros H. apply is_space_cases in H.
  assert (Hall : forallb (fun c => negb (c =? 931)%N && bool_decide (lower_full c = [c])
                                   && negb (case_ignorable c) && negb (cased c))
                   [9; 10; 11; 12; 13; 28; 29; 30; 31; 32; 133; 160; 5760;
                    8192; 8193; 8194; 8195; 8196; 8197; 8198; 8199; 8200; 8201; 8202;
                    8232; 8233; 8239; 8287; 12288]%N = true)
    by (vm_compute; reflexivity).
  rewrite forallb_forall in Hall. specialize (Hall c H).
  rewrite !andb_true_iff, !negb_true_iff, bool_decide_eq_true in Hall.
  destruct Hall as [[[H1 H2] H3] H4]. by apply N.eqb_neq in H1.
Qed.

Lemma lower_full_no_space (c : cp) :
  is_space c = false ->
  exists d t, lower_full c = d :: t /\ forallb (fun x => negb (is_space x)) (d :: t) = true.
Proof.
  intros Hc.
  destruct (N.eqb_spec c 304) as [->|H304]; [by eexists _, _|].
  rewrite (lower_full_other c H304).
  destruct (assoc c lower_table) as [d|] eqn:Hd.
  - assert (Hall : forallb (fun kv => negb (is_space (snd kv))) lower_table = true)
      by (vm_compute; reflexivity).
    rewrite forallb_forall in Hall. specialize (Hall _ (assoc_in _ _ _ Hd)).
    eexists _, _. split; [done|]. cbn [forallb snd] in *. by rewrite Hall.
  - eexists _, _. split; [done|]. cbn [forallb]. by rewrite Hc.
Qed.

(** What one code point becomes, wherever it stands, when it is no white
    space: at least one code point, none of them white space. *)
Lemma lower_head_no_space (before r : pystr) (c : cp) :
  is_space c = false ->
  exists d t,
    (if (c =? 931)%N then [if final_sigma before r then 962%N else 963%N]
     else lower_full c) = d :: t
    /\ forallb (fun x => negb (is_space x)) (d :: t) = true.
Proof.
  intros Hc. destruct (c =? 931)%N.
  - eexists _, _. split; [done|]. by destruct (final_sigma before r).
  - by apply lower_full_no_space.
Qed.

Lemma final_sigma_before (before after : pystr) :
  final_sigma before after
  = cased_before before && match skip_ignorable after with
                           | Some d => negb (cased d)
                           | None => true
                           end.
Proof.
  unfold final_sigma, cased_before. by destruct (skip_ignorable before).
Qed.

(** Of what comes before, lower-casing only uses [cased_before]. *)
Lemma lower_from_before (before before' s : pystr) :
  cased_before before = cased_before before' ->
  lower_from before s = lower_from before' s.
Proof.
  revert before before'. induction s as [|c s IH]; intros before before' H; [done|].
  cbn [lower_from]. rewrite !final_sigma_before, H. f_equal.
  apply IH. unfold cased_before. cbn [skip_ignorable].
  destruct (case_ignorable c); [exact H | done].
Qed.

Lemma lower_from_space (before r : pystr) (w : cp) :
  is_space w = true -> lower_from before (w :: r) = w :: lower_from [] r.
Proof.
  intros Hw. destruct (is_space_plain w Hw) as [H1 [H2 [H3 H4]]].
  cbn [lower_from]. apply N.eqb_neq in H1. rewrite H1, H2. cbn [app]. f_equal.
  apply lower_from_before. unfold cased_before. cbn [skip_ignorable].
  by rewrite H3, H4.
Qed.

Lemma lower_lstrip (s : pystr) : lower (lstrip s) = lstrip (lower s).
Proof.
  unfold lower. induction s as [|c s IH]; [done|].
  cbn [lstrip]. destruct (is_space c) eqn:Hc.
  - rewrite (lower_from_space [] s c Hc). cbn [lstrip]. by rewrite Hc.
  - cbn [lower_from].
    destruct (lower_head_no_space [] s c Hc) as [d [t [-> Hd]]].
    cbn [forallb] in Hd. apply andb_true_iff in Hd as [Hd _].
    apply negb_true_iff in Hd. cbn [app lstrip]. by rewrite Hd.
Qed.

Lemma skip_ignorable_snoc_space (r : pystr) (w : cp) :
  is_space w = true ->
  skip_ignorable (r ++ [w])
  = match skip_ignorable r with Some d => Some d | None => Some w end.
Proof.
  intros Hw. destruct (is_space_plain w Hw) as [_ [_ [H3 _]]].
  induction r as [|c r IH]; cbn [app skip_ignorable].
  - by rewrite H3.
  - by destruct (case_ignorable c).
Qed.

Lemma lower_from_snoc_space (before s : pystr) (w : cp) :
  is_space w = true -> lower_from before (s ++ [w]) = lower_from before s ++ [w].
Proof.
  intros Hw. destruct (is_space_plain w Hw) as [H1 [H2 [H3 H4]]].
  revert before. induction s as [|c s IH]; intros before; cbn [app lower_from].
  - apply N.eqb_neq in H1. by rewrite H1, H2.
  - rewrite IH, <- app_assoc. f_equal.
    destruct (c =? 931)%N; [|done].
    rewrite !final_sigma_before, (skip_ignorable_snoc_space s w Hw).
    destruct (skip_ignorable s); [done|]. by rewrite H4.
Qed.

Lemma lower_from_snoc_last (before s : pystr) (c : cp) :
  is_space c = false ->
  exists t d, lower_from before (s ++ [c]) = t ++ [d] /\ is_space d = false.
Proof.
  intros Hc. revert before. induction s as [|x s IH]; intros before;
    cbn [app lower_from].
  - destruct (lower_head_no_space before [] c Hc) as [d [t [-> Hd]]].
    rewrite app_nil_r.
    destruct (exists_last (l := d :: t)) as [t' [d' Ht]]; [done|].
    rewrite Ht in *. exists t', d'. split; [done|].
    rewrite forallb_app in Hd. cbn [forallb] in Hd.
    rewrite !andb_true_iff, negb_true_iff in Hd. tauto.
  - destruct (IH (x :: before)) as [t [d [-> Hd]]].
    eexists (_ ++ t), d. by rewrite app_assoc.
Qed.

Lemma rstrip_snoc (s : pystr) (c : cp) :
  rstrip (s ++ [c]) = if is_space c then rstrip s else s ++ [c].
Proof.
  unfold rstrip. rewrite rev_app_distr. cbn [rev app lstrip].
  destruct (is_space c); [done|]. cbn [rev]. by rewrite rev_involutive.
Qed.

Lemma lower_rstrip (s : pystr) : lower (rstrip s) = rstrip (lower s).
Proof.
  unfold lower. induction s as [|c s IH] using rev_ind; [done|].
  rewrite rstrip_snoc. destruct (is_space c) eqn:Hc.
  - by rewrite (lower_from_snoc_space [] s c Hc), rstrip_snoc, Hc.
  - destruct (lower_from_snoc_last [] s c Hc) as [t [d [-> Hd]]].
    by rewrite rstrip_snoc, Hd.
Qed.

Lemma lower_strip (s : pystr) : lower (strip s) = strip (lower s).
Proof. unfold strip. by rewrite lower_rstrip, lower_lstrip. Qed.

(** What the engine looks a key up in is, for the keys of its tables, the
    lower-cased message itself. *)
Lemma isin_prepared (k s : pystr) (c c' : cp) :
  head k = Some c -> is_space c = false ->
  last k = Some c' -> is_space c' = false ->
  isin k (lower (lower (strip s))) = isin k (lower s).
Proof.
  intros. rewrite lower_idemp, lower_strip. by eapply isin_strip.
Qed.

(** Every token [split] returns has at least one code point. *)
Lemma split_aux_nonempty (cur s : pystr) :
  Forall (fun w => w <> []) (split_aux cur s).
Proof.
  revert cur. induction s as [|c s IH]; intros cur; simpl.
  - destruct cur as [|x cur]; [constructor|].
    constructor; [|constructor].
    intros H. apply (f_equal (@length _)) in H.
    rewrite length_rev in H. discriminate.
  - destruct (is_space c); [|apply IH].
    destruct cur as [|x cur]; [apply IH|].
    constructor; [|apply IH].
    intros H. apply (f_equal (@length _)) in H.
    rewrite length_rev in H. discriminate.
Qed.

Lemma split_nonempty (s w : pystr) : w ∈ split s -> w <> [].
Proof.
  intros Hw. pose proof (split_aux_nonempty [] s) as H.
  rewrite Forall_forall in H. by apply H.
Qed.

Lemma choice_in {A} (l : list A) (r : nat) (d : A) :
  l <> [] -> choice l r d ∈ l.
Proof.
  intros Hl. unfold choice. apply list_elem_of_In, nth_In.
  apply Nat.mod_upper_bound. by destruct l.
Qed.

(** [re.sub] with a non-empty replacement never empties its subject. *)
Lemma sub_nonempty (m : Re.matcher) (repl s : pystr) :
  repl <> [] -> s <> [] -> Re.sub m repl s <> [].
Proof.
  intros Hr Hs. destruct s as [|c s]; [done|].
  unfold Re.sub. cbn [Re.sub_aux].
  destruct (m None (c :: s)) as [[|k]|]; try done.
  intros H. by apply app_eq_nil in H as [? _].
Qed.

Lemma fold_nonempty (step : pystr -> pystr * pystr -> pystr)
    (table : list (pystr * pystr)) (s : pystr) :
  (forall t kv, kv ∈ table -> t <> [] -> step t kv <> []) ->
  s <> [] -> fold_left step table s <> [].
Proof.
  revert s. induction table as [|kv table IH]; intros s Hstep Hs; [done|].
  cbn [fold_left]. apply IH.
  - intros t kv' Hkv. apply Hstep. by right.
  - apply Hstep; [by left | done].
Qed.

Lemma nonempty_values_spec table kv :
  nonempty_values table = true -> kv ∈ table -> snd kv <> [].
Proof.
  unfold nonempty_values. rewrite forallb_forall. intros H Hkv.
  apply list_elem_of_In in Hkv. apply H in Hkv.
  destruct kv as [k [|c v]]; [discriminate | done].
Qed.

Lemma to_bangla_nonempty (s : pystr) :
  s <> [] -> LanguageManager._to_bangla s <> [].
Proof.
  intros Hs. unfold LanguageManager._to_bangla.
  destruct s as [|c s]; [done|]. cbn [truthy negb].
  assert (H1 : nonempty_values LanguageManager.BANGLISH_TO_BANGLA = true)
    by (vm_compute; reflexivity).
  assert (H2 : nonempty_values LanguageManager.ENGLISH_TO_BANGLA = true)
    by (vm_compute; reflexivity).
  apply fold_nonempty; [| apply fold_nonempty; [| apply fold_nonempty; [|done]]].
  - intros t [k v] Hkv Ht. unfold LanguageManager.english_step.
    apply sub_nonempty; [|done].
    apply (nonempty_values_spec _ _ H2 Hkv).
  - intros t [k v] Hkv Ht. unfold LanguageManager.banglish_step.
    destruct (negb _); [|done]. apply sub_nonempty; [|done].
    apply (nonempty_values_spec _ _ H1 Hkv).
  - intros t [k v] Hkv Ht. unfold LanguageManager.emoticon_step.
    destruct (startswith _ _); [|done]. apply sub_nonempty; [|done].
    apply (nonempty_values_spec _ _ H1 Hkv).
Qed.

Lemma translate_nonempty (s : pystr) (lang : pyval) :
  s <> [] -> LanguageManager.translate s lang <> [].
Proof.
  intros Hs. unfold LanguageManager.translate.
  destruct (pyval_eq_str lang _); [by apply to_bangla_nonempty|].
  by destruct (pyval_eq_str lang _).
Qed.

(* ===================================================================== *)
(** ** The response engine never fails and never answers nothing          *)
(* ===================================================================== *)

Lemma fallback_in (r : nat) :
  AIEngine.get_fallback_response r ∈ AIEngine.fallbacks.
Proof. by apply choice_in. Qed.

Lemma fallback_nonempty (r : nat) : AIEngine.get_fallback_response r <> [].
Proof.
  pose proof (fallback_in r) as H. unfold AIEngine.fallbacks in H.
  repeat (apply elem_of_cons in H as [-> | H]; [done|]).
  by apply elem_of_nil in H.
Qed.

Lemma contextual_nonempty E message learning r response :
  AIEngine.generate_contextual_response E message learning r = Ok response ->
  response <> [].
Proof.
  unfold AIEngine.generate_contextual_response, rbind. intros H.
  assert (Hmark : forall (t m : pystr) , m <> [] -> t ++ m <> []).
  { intros t m Hm Ht. by apply app_eq_nil in Ht as [_ ?]. }
  destruct (models.user_name _) as [v|].
  - destruct (pyval_truthy v); [destruct v; try discriminate|];
      injection H as <-; apply Hmark;
      by destruct (AIEngine.analyze_sentiment message).
  - injection H as <-. apply Hmark.
    by destruct (AIEngine.analyze_sentiment message).
Qed.

Lemma truthy_nonempty (s : pystr) : truthy s = true -> s <> [].
Proof. by destruct s. Qed.

Lemma try_nonempty E c context r response c' :
  AIEngine.generate_response_try E c context r = (Ok response, c') ->
  response <> [].
Proof.
  unfold AIEngine.generate_response_try. intros H.
  destruct (AIEngine.prepared_text context) as [text|]; [|by injection H].
  destruct (AIEngine.get_learning_data E c _) as [[learning c1]|];
    [|by injection H].
  destruct (truthy (default [] (AIEngine.check_predefined_responses text)))
    eqn:Hp.
  { injection H as <- _. by apply translate_nonempty, truthy_nonempty. }
  destruct (truthy (default [] (AIEngine.check_learned_patterns learning text)))
    eqn:Hl.
  { injection H as <- _. by apply truthy_nonempty. }
  destruct (AIEngine.generate_contextual_response E _ learning r)
    as [resp|] eqn:Hc; cbn [rbind] in H; [|by injection H].
  apply contextual_nonempty in Hc. injection H as <- _.
  destruct (AIEngine.language context) as [lang|]; [|done].
  destruct (pyval_eq_str lang AIEngine.banglish); [done|].
  by apply translate_nonempty.
Qed.

(** Whatever happens inside, the engine hands back a string with at least
    one code point. *)
Lemma generate_response_nonempty
    (E : AIEngine.Env) (c : gmap Z AIEngine.LearningData)
    (context : AIEngine.Context) (r r' : nat) :
  (AIEngine.generate_response E c context r r').1 <> [].
Proof.
  unfold AIEngine.generate_response.
  destruct (AIEngine.generate_response_try E c context r) as [[resp|e] c'] eqn:H;
    cbn [fst].
  - by eapply try_nonempty.
  - apply fallback_nonempty.
Qed.

(** C1.  For every context, cache, environment and pair of random draws,
    [generate_response] returns a string (it has no failing outcome) that
    is not empty; it is the string the [try] body produced when that body
    did not raise, and one of the five fixed fallback strings when it
    did, whatever was raised. *)
Theorem generate_response_never_fails
    (E : AIEngine.Env) (c : gmap Z AIEngine.LearningData)
    (context : AIEngine.Context) (r r' : nat) :
  let out := (AIEngine.generate_response E c context r r').1 in
  out <> [] /\
  out = match (AIEngine.generate_response_try E c context r).1 with
        | Ok response => response
        | Raise _ => AIEngine.get_fallback_response r'
        end /\
  AIEngine.get_fallback_response r' ∈ AIEngine.fallbacks.
Proof.
  cbv zeta. split; [apply generate_response_nonempty|].
  split; [|apply fallback_in].
  unfold AIEngine.generate_response.
  by destruct (AIEngine.generate_response_try E c context r) as [[resp|e] c'].
Qed.

(** A context whose message text is [None]: [strip] raises, the handler
    answers with a fallback. *)
Example fallback_on_attribute_error :
  (AIEngine.generate_response
     {| AIEngine.load_learning := fun _ => Ok None;
        AIEngine.response_templates := fun _ => [] |} ∅
     {| AIEngine.bot_id := 1; AIEngine.user_id := 7;
        AIEngine.message_text := Some PNone; AIEngine.language := None |}
     0 2).1
  = u "একটু অন্যভাবে বলুন দেখি। ✨".
Proof. vm_compute. reflexivity. Qed.

(** The same when the learning row cannot be read. *)
Example fallback_on_storage_error :
  (AIEngine.generate_response
     {| AIEngine.load_learning := fun _ => Raise StorageError;
        AIEngine.response_templates := fun _ => [] |} ∅
     {| AIEngine.bot_id := 1; AIEngine.user_id := 7;
        AIEngine.message_text := Some (PStr (u "hello")); AIEngine.language := None |}
     0 0).1
  = u "দুঃখিত, বুঝতে পারিনি। আবার বলুন। 🤔".
Proof. vm_compute. reflexivity. Qed.

(* ===================================================================== *)
(** ** The predefined lookup                                              *)
(* ===================================================================== *)

Lemma isin_prepared_trimmed (k s : pystr) :
  trimmed k = true -> isin k (lower (lower (strip s))) = isin k (lower s).
Proof.
  unfold trimmed. destruct (head k) as [c|] eqn:Hh; [|done].
  destruct (last k) as [c'|] eqn:Hl; [|done].
  rewrite andb_true_iff, !negb_true_iff. intros [Hc Hc'].
  by eapply isin_prepared.
Qed.

Lemma find_app_first {A} (f : A -> bool) (l1 l2 : list A) :
  List.find f (l1 ++ l2) =
  match List.find f l1 with
  | Some x => Some x
  | None => List.find f l2
  end.
Proof.
  induction l1 as [|x l1 IH]; [done|]. simpl. by destruct (f x).
Qed.

Lemma find_agree {A} (f g : A -> bool) (l : list A) :
  (forall x, x ∈ l -> f x = g x) -> List.find f l = List.find g l.
Proof.
  induction l as [|x l IH]; intros H; [done|]. simpl.
  rewrite (H x) by left. destruct (g x); [done|].
  apply IH. intros y Hy. apply H. by right.
Qed.

Lemma find_greeting_find (table : list (pystr * pystr)) (message : pystr) :
  AIEngine.find_greeting table message
  = snd <$> List.find (Spec.matches_entry message) table.
Proof.
  induction table as [|[k v] table IH]; [done|]. simpl.
  unfold Spec.matches_entry at 1. simpl.
  by destruct (isin k (lower message)).
Qed.

Lemma find_help_find (keywords : list pystr) (message : pystr) :
  AIEngine.find_help keywords message
  = snd <$> List.find (Spec.matches_entry message)
              (List.map (fun keyword => (keyword, AIEngine.help_response)) keywords).
Proof.
  induction keywords as [|k keywords IH]; [done|]. simpl.
  unfold Spec.matches_entry at 1. simpl.
  by destruct (isin k (lower message)).
Qed.

(** The two loops of [check_predefined_responses] are one search for the
    first matching entry of the table. *)
Lemma check_predefined_find (message : pystr) :
  AIEngine.check_predefined_responses message
  = snd <$> List.find (Spec.matches_entry message) Spec.predefined_table.
Proof.
  unfold AIEngine.check_predefined_responses, Spec.predefined_table.
  rewrite find_app_first, find_greeting_find, find_help_find.
  by destruct (List.find _ AIEngine.greetings).
Qed.

Lemma predefined_keys_trimmed (entry : pystr * pystr) :
  entry ∈ Spec.predefined_table -> trimmed (fst entry) = true.
Proof.
  intros H.
  assert (Hall : forallb (fun e => trimmed (fst e)) Spec.predefined_table = true)
    by (vm_compute; reflexivity).
  rewrite forallb_forall in Hall. by apply Hall, list_elem_of_In.
Qed.

Lemma predefined_values_nonempty (entry : pystr * pystr) :
  entry ∈ Spec.predefined_table -> truthy (snd entry) = true.
Proof.
  intros H.
  assert (Hall : forallb (fun e => truthy (snd e)) Spec.predefined_table = true)
    by (vm_compute; reflexivity).
  rewrite forallb_forall in Hall. by apply Hall, list_elem_of_In.
Qed.

(** Stripping and lower-casing the message first does not change which
    entry is found. *)
Lemma find_prepared (m : pystr) :
  List.find (Spec.matches_entry (lower (strip m))) Spec.predefined_table
  = List.find (Spec.matches_entry m) Spec.predefined_table.
Proof.
  apply find_agree. intros entry He. unfold Spec.matches_entry.
  by apply isin_prepared_trimmed, predefined_keys_trimmed.
Qed.

Lemma translate_banglish (s : pystr) :
  LanguageManager.translate s (PStr AIEngine.banglish) = s.
Proof.
  unfold LanguageManager.translate.
  assert (pyval_eq_str (PStr AIEngine.banglish) (u "bangla") = false) as ->
    by (vm_compute; reflexivity).
  assert (pyval_eq_str (PStr AIEngine.banglish) (u "banglish") = true) as ->
    by (vm_compute; reflexivity).
  done.
Qed.

Lemma get_learning_data_ok E c bot_id :
  (forall e, AIEngine.load_learning E bot_id <> Raise e) ->
  exists learning c', AIEngine.get_learning_data E c bot_id = Ok (learning, c').
Proof.
  intros Hload. unfold AIEngine.get_learning_data.
  destruct (c !! bot_id) as [d|]; [by eexists _, _|].
  destruct (AIEngine.load_learning E bot_id) as [row|e] eqn:Hrow.
  - by eexists _, _.
  - by destruct (Hload e).
Qed.

(** C7, as the code has it.  The engine fetches the tenant's learning data
    before it looks the message up.  When the message matches the
    greeting/help table (some key occurs in the lower-cased message) and
    the fetch succeeds, the engine returns the response of the first
    matching entry of the table, unchanged, for every pair of random
    draws, hence the same string on every run; when the fetch raises, it
    returns the fallback of the draw instead. *)
Theorem predefined_lookup_verbatim
    (E : AIEngine.Env) (c : gmap Z AIEngine.LearningData)
    (context : AIEngine.Context) (m : pystr) :
  AIEngine.message_text context = Some (PStr m) ->
  existsb (Spec.matches_entry m) Spec.predefined_table = true ->
  exists entry,
    entry ∈ Spec.predefined_table /\
    List.find (Spec.matches_entry m) Spec.predefined_table = Some entry /\
    match AIEngine.get_learning_data E c (AIEngine.bot_id context) with
    | Ok _ =>
        forall r r', (AIEngine.generate_response E c context r r').1 = snd entry
    | Raise _ =>
        forall r r', (AIEngine.generate_response E c context r r').1
                     = AIEngine.get_fallback_response r'
    end.
Proof.
  intros Hm Hex.
  destruct (List.find (Spec.matches_entry m) Spec.predefined_table)
    as [entry|] eqn:Hfind.
  2:{ apply existsb_exists in Hex as [x [Hx Hmx]].
      by rewrite (find_none _ _ Hfind x Hx) in Hmx. }
  pose proof (find_some _ _ Hfind) as [Hin _].
  apply list_elem_of_In in Hin.
  exists entry. split; [done|]. split; [done|].
  destruct (AIEngine.get_learning_data E c (AIEngine.bot_id context))
    as [[learning c']|e] eqn:Hload; intros r r';
    unfold AIEngine.generate_response, AIEngine.generate_response_try,
      AIEngine.prepared_text; rewrite Hm, Hload; [|done].
  rewrite check_predefined_find, find_prepared, Hfind.
  cbn [fmap option_fmap option_map default from_option id].
  rewrite (predefined_values_nonempty _ Hin). cbn [fst].
  apply translate_banglish.
Qed.

(** The statement above at a message with leading blanks and a capital,
    with a storage that answers. *)
Lemma predefined_lookup_verbatim_witness :
  exists entry,
    entry ∈ Spec.predefined_table /\
    List.find (Spec.matches_entry (u "  Hello there")) Spec.predefined_table
      = Some entry /\
    forall r r',
      (AIEngine.generate_response plain_env ∅ hello_context r r').1 = snd entry.
Proof.
  destruct (predefined_lookup_verbatim plain_env ∅ hello_context (u "  Hello there"))
    as [entry [Hin [Hfind Hresp]]].
  - reflexivity.
  - vm_compute. reflexivity.
  - exists entry. split; [exact Hin|]. split; [exact Hfind | exact Hresp].
Defined.

(** C7, as the specification words it, fails when the learning data
    cannot be fetched: the message below matches the entry of ["hello"],
    whose response is not what the engine returns, and two runs with
    different draws return different strings. *)
Lemma predefined_lookup_counterexample :
  List.find (Spec.matches_entry (u "  Hello there")) Spec.predefined_table
    = Some (u "hello", u "হ্যালো! কেমন আছেন? 😊")
  /\ (AIEngine.generate_response failing_env ∅ hello_context 0 0).1
     = u "দুঃখিত, বুঝতে পারিনি। আবার বলুন। 🤔"
  /\ (AIEngine.generate_response failing_env ∅ hello_context 0 1).1
     = u "কী বললেন? একটু ক্লিয়ার বলবেন? 💭".
Proof. vm_compute. repeat split. Qed.

(** Letters that only become a key when lower-cased as CPython does it:
    the capital I with a dot lower-cases to [i] and a combining dot, so
    the message below holds the key ["hi"], which comes before ["hey"]. *)
Example dotted_capital_matches_hi :
  fst <$> List.find (Spec.matches_entry (u "hey Hİ")) Spec.predefined_table
  = Some (u "hi").
Proof. vm_compute. reflexivity. Qed.

(* ===================================================================== *)
(** ** The learned-pattern stage                                          *)
(* ===================================================================== *)

Lemma py_gt_lt (a b : Q) : py_gt a b = true <-> (b < a)%Q.
Proof.
  unfold py_gt. rewrite Qlt_alt. by destruct (b ?= a)%Q.
Qed.

Lemma truediv_gt_threshold (count n : Z) :
  0 < n -> ((3 # 10) < py_truediv count n)%Q <-> 3 * n < 10 * count.
Proof.
  intros Hn. unfold py_truediv, Qdiv, Qlt, Qmult, Qinv, inject_Z.
  destruct n as [|p|p]; try lia. simpl. lia.
Qed.

Lemma score_step_state words best item :
  loop_state words best -> loop_state words (AIEngine.score_step words best item).
Proof.
  intros H. unfold AIEngine.score_step. destruct item as [pattern count].
  case_bool_decide as Hin; [|done].
  destruct (py_gt _ _); [|done]. right. by exists pattern.
Qed.

Lemma score_step_threshold words best item :
  py_gt (snd (AIEngine.score_step words best item)) (3 # 10)
  = py_gt (snd best) (3 # 10) || qualifies words item.
Proof.
  unfold AIEngine.score_step, qualifies. destruct item as [pattern count].
  cbn [fst snd]. case_bool_decide as Hin; [|by rewrite orb_false_r].
  cbn [andb]. set (score := py_truediv count _).
  apply eq_true_iff_eq.
  destruct (py_gt score (snd best)) eqn:Hgt; cbn [snd];
    rewrite orb_true_iff, !py_gt_lt.
  - apply py_gt_lt in Hgt. split; [by right|].
    intros [H|H]; [|done]. by transitivity (snd best).
  - split; [by left|]. intros [H|H]; [done|].
    destruct (Qlt_le_dec (snd best) score) as [Hlt|Hle].
    + apply py_gt_lt in Hlt. congruence.
    + by eapply Qlt_le_trans.
Qed.

Lemma score_fold words items best :
  loop_state words best ->
  let best' := fold_left (AIEngine.score_step words) items best in
  loop_state words best' /\
  py_gt (snd best') (3 # 10)
  = py_gt (snd best) (3 # 10) || existsb (qualifies words) items.
Proof.
  revert best. induction items as [|item items IH]; intros best Hst; cbn zeta.
  - split; [done|]. by rewrite orb_false_r.
  - cbn [fold_left existsb].
    destruct (IH _ (score_step_state words best item Hst)) as [H1 H2].
    split; [done|]. by rewrite H2, score_step_threshold, orb_assoc.
Qed.

Lemma first_frequent_find (response_patterns : pydict) :
  AIEngine.first_frequent response_patterns
  = (fun item => capitalize (fst item) ++ AIEngine.ack_suffix)
      <$> List.find (fun item => snd item >? 5) response_patterns.
Proof.
  induction response_patterns as [|[word frequency] rest IH]; [done|].
  simpl. by destruct (frequency >? 5).
Qed.

Lemma message_words_nonempty message w :
  w ∈ AIEngine.message_words message -> w <> [].
Proof.
  unfold AIEngine.message_words. rewrite elem_of_remove_dups.
  apply split_nonempty.
Qed.

(** C4, as the code has it.  The tokens of the message are the distinct
    elements of its lower-cased whitespace split.  The stage answers
    exactly when some token of the message that is in the inbound map has
    frequency divided by the number of distinct tokens above 0.3 (which is
    when the best score is) and some outbound token has frequency above 5;
    the answer then names the first such outbound token in the order of
    the map, not the most frequent one.  Otherwise it falls through. *)
Theorem learned_patterns_first_frequent
    (learning : AIEngine.LearningData) (message : pystr) :
  AIEngine.check_learned_patterns learning message =
  if existsb (qualifies (AIEngine.message_words message))
       (AIEngine.user_patterns learning)
  then (fun item => capitalize (fst item) ++ AIEngine.ack_suffix)
         <$> List.find (fun item => snd item >? 5)
               (AIEngine.response_patterns learning)
  else None.
Proof.
  unfold AIEngine.check_learned_patterns.
  destruct (AIEngine.user_patterns learning) as [|i up] eqn:Hup; [done|].
  destruct (AIEngine.response_patterns learning) as [|j rp] eqn:Hrp.
  { by destruct (existsb _ _). }
  rewrite <- Hup, <- Hrp. clear Hup Hrp i up j rp.
  set (words := AIEngine.message_words message).
  destruct (score_fold words (AIEngine.user_patterns learning) (None, 0%Q))
    as [Hst Hth].
  { by left. }
  destruct (fold_left _ _ _) as [bm bs]. unfold loop_state in Hst.
  cbn [fst snd] in Hst, Hth.
  assert (py_gt 0 (3 # 10) = false) as Hz by reflexivity.
  rewrite Hz, orb_false_l in Hth. rewrite <- Hth.
  destruct Hst as [[-> Hbs] | [p [-> Hp]]].
  - assert (py_gt bs (3 # 10) = false) as ->; [|done].
    destruct (py_gt bs (3 # 10)) eqn:Hgt; [|done].
    apply py_gt_lt in Hgt. rewrite Hbs in Hgt. by vm_compute in Hgt.
  - apply message_words_nonempty in Hp. destruct p; [done|]. cbn [truthy andb].
    rewrite first_frequent_find. by destruct (py_gt bs _).
Qed.

(** C4, as the specification words it, fails twice.  On a message that
    repeats its one token four times the code divides by 1, not by 4, and
    answers where the specification falls through; and on the message
    ["order"] the code names ["okay"] (frequency 6, first in the map)
    where the specification names ["sure"] (frequency 9). *)
Lemma learned_patterns_counterexample :
  (AIEngine.check_learned_patterns order_store (u "order order order order")
     = Some (u "Okay... আরও বলুন।")
   /\ Spec.learned_pattern_match order_store (u "order order order order") = None)
  /\ (AIEngine.check_learned_patterns order_store (u "order")
        = Some (u "Okay... আরও বলুন।")
      /\ Spec.learned_pattern_match order_store (u "order")
        = Some (u "Sure... আরও বলুন।")).
Proof. vm_compute. repeat split. Qed.

Lemma qualifies_spec (words : list pystr) (item : pystr * Z) :
  qualifies words item = true <->
  fst item ∈ words /\ 3 * Z.of_nat (length words) < 10 * snd item.
Proof.
  unfold qualifies. rewrite andb_true_iff, bool_decide_eq_true, py_gt_lt.
  split; intros [Hin H]; (split; [done|]);
    apply truediv_gt_threshold; try done;
    destruct words; [by apply elem_of_nil in Hin | simpl; lia
                    | by apply elem_of_nil in Hin | simpl; lia].
Qed.

(* ===================================================================== *)
(** ** Intent and sentiment                                               *)
(* ===================================================================== *)

(** C8.  [detect_intent] returns the first category, in the order
    greeting, question, request, complaint, one of whose keywords occurs
    in the lower-cased text, and general when none does; being a function
    of the text it is deterministic.  [analyze_sentiment] returns
    positive exactly when more positive than negative keywords occur,
    negative when more negative ones do, and neutral on a tie. *)
Theorem intent_first_match_sentiment_strict (text : pystr) :
  AIEngine.detect_intent text = Spec.classify text /\
  AIEngine.analyze_sentiment text =
  match AIEngine.count_in AIEngine.positive_words (lower text)
        ?= AIEngine.count_in AIEngine.negative_words (lower text) with
  | Gt => AIEngine.positive
  | Lt => AIEngine.negative
  | Eq => AIEngine.neutral
  end.
Proof.
  split.
  - unfold AIEngine.detect_intent, Spec.classify, Spec.priority.
    cbn [List.find]. unfold Spec.matches. cbn [snd fst].
    by repeat destruct (AIEngine.any_in _ _).
  - unfold AIEngine.analyze_sentiment.
    set (p := AIEngine.count_in AIEngine.positive_words (lower text)).
    set (n := AIEngine.count_in AIEngine.negative_words (lower text)).
    destruct (Z.compare_spec p n) as [H|H|H].
    + assert ((p >? n) = false) as -> by lia.
      by assert ((n >? p) = false) as -> by lia.
    + assert ((p >? n) = false) as -> by lia.
      by assert ((n >? p) = true) as -> by lia.
    + by assert ((p >? n) = true) as -> by lia.
Qed.

(** A complaint keyword and a question keyword in one text: the earlier
    category wins. *)
Example intent_priority_example :
  AIEngine.detect_intent (u "কেন সমস্যা") = AIEngine.question.
Proof. vm_compute. reflexivity. Qed.

Example sentiment_tie_example :
  AIEngine.analyze_sentiment (u "ভালো খারাপ") = AIEngine.neutral.
Proof. vm_compute. reflexivity. Qed.

(* ===================================================================== *)
(** ** Pattern store updates                                              *)
(* ===================================================================== *)

Lemma dict_get_set (d : pydict) (k k' : pystr) (v : Z) :
  dict_get (dict_set d k v) k' = if bool_decide (k = k') then v else dict_get d k'.
Proof.
  induction d as [|[k0 v0] d IH]; simpl.
  - done.
  - destruct (bool_decide (k0 = k)) eqn:Hk0; simpl.
    + apply bool_decide_eq_true in Hk0 as ->.
      by destruct (bool_decide (k = k')).
    + rewrite IH. apply bool_decide_eq_false in Hk0.
      destruct (bool_decide (k0 = k')) eqn:Hk'; [|done].
      apply bool_decide_eq_true in Hk' as ->.
      by rewrite bool_decide_eq_false_2 by congruence.
Qed.

Lemma dict_len_set (d : pydict) (k : pystr) (v : Z) :
  dict_len d <= dict_len (dict_set d k v).
Proof.
  unfold dict_len. induction d as [|[k0 v0] d IH]; simpl; [lia|].
  destruct (bool_decide (k0 = k)); simpl; lia.
Qed.

Lemma dict_get_absent (d : pydict) (k : pystr) :
  dict_mem d k = false -> dict_get d k = 0.
Proof.
  induction d as [|[k0 v0] d IH]; simpl; [done|].
  destruct (bool_decide (k0 = k)); [done | apply IH].
Qed.

Lemma ai_count_word_get (d : pydict) (word token : pystr) :
  dict_get d token <= dict_get (AIEngine.count_word d word) token.
Proof.
  unfold AIEngine.count_word. destruct (len word >? 2); [|lia].
  rewrite dict_get_set. case_bool_decide as H; [subst; lia | lia].
Qed.

Lemma ai_count_word_len (d : pydict) (word : pystr) :
  dict_len d <= dict_len (AIEngine.count_word d word).
Proof.
  unfold AIEngine.count_word. destruct (len word >? 2); [|lia].
  apply dict_len_set.
Qed.

Lemma ghost_count_word_get (d : pydict) (word token : pystr) :
  dict_get d token <= dict_get (GhostBot.count_word d word) token.
Proof.
  unfold GhostBot.count_word. destruct (len word >? 3); [|lia].
  destruct (dict_mem d word) eqn:Hm; cbn [negb];
    rewrite dict_get_set; case_bool_decide as H; subst; try lia.
  rewrite (dict_get_absent _ _ Hm). lia.
Qed.

(** A loop whose passes only raise a measure only raises it. *)
Lemma fold_left_le {A B} (f : A -> B -> A) (measure : A -> Z) (l : list B) (a : A) :
  (forall a b, measure a <= measure (f a b)) ->
  measure a <= measure (fold_left f l a).
Proof.
  intros Hf. revert a. induction l as [|b l IH]; intros a; simpl; [lia|].
  etransitivity; [apply (Hf a b) | apply IH].
Qed.

Lemma update_patterns_get learning um br token :
  dict_get (AIEngine.user_patterns learning) token
  <= dict_get (AIEngine.user_patterns (AIEngine.update_patterns learning um br)) token
  /\ dict_get (AIEngine.response_patterns learning) token
     <= dict_get (AIEngine.response_patterns (AIEngine.update_patterns learning um br)) token.
Proof.
  unfold AIEngine.update_patterns. cbn.
  split; apply (fold_left_le _ (fun d => dict_get d token));
    intros; apply ai_count_word_get.
Qed.

Lemma update_patterns_vocabulary learning um br :
  vocabulary learning <= vocabulary (AIEngine.update_patterns learning um br).
Proof.
  unfold vocabulary, AIEngine.update_patterns. cbn.
  pose proof (fold_left_le AIEngine.count_word dict_len (split (lower um))
                (AIEngine.user_patterns learning) ai_count_word_len).
  pose proof (fold_left_le AIEngine.count_word dict_len (split (lower br))
                (AIEngine.response_patterns learning) ai_count_word_len).
  lia.
Qed.

Lemma vocabulary_nonneg learning : 0 <= vocabulary learning.
Proof. unfold vocabulary, dict_len. lia. Qed.

(** What [update_patterns] leaves in [accuracy]. *)
Lemma update_patterns_accuracy learning um br :
  let learning' := AIEngine.update_patterns learning um br in
  AIEngine.accuracy learning' =
  if vocabulary learning' >? 0
  then Spec.accuracy_of (AIEngine.user_patterns learning')
         (AIEngine.response_patterns learning')
  else AIEngine.accuracy learning.
Proof. reflexivity. Qed.

Lemma run_updates_get ops learning token :
  dict_get (AIEngine.user_patterns learning) token
  <= dict_get (AIEngine.user_patterns (run_updates ops learning)) token
  /\ dict_get (AIEngine.response_patterns learning) token
     <= dict_get (AIEngine.response_patterns (run_updates ops learning)) token.
Proof.
  unfold run_updates.
  split.
  - apply (fold_left_le _ (fun l => dict_get (AIEngine.user_patterns l) token)).
    intros l op. apply update_patterns_get.
  - apply (fold_left_le _ (fun l => dict_get (AIEngine.response_patterns l) token)).
    intros l op. apply update_patterns_get.
Qed.

Lemma accuracy_of_le_1 a b : (Spec.accuracy_of a b <= 1)%Q.
Proof. apply Q.le_min_l. Qed.

Lemma truediv_le (a b : Z) :
  a <= b -> (py_truediv a 1000 <= py_truediv b 1000)%Q.
Proof.
  intros H. unfold py_truediv, Qdiv, Qle, Qmult, Qinv, inject_Z. simpl. lia.
Qed.

Lemma accuracy_of_mono (l l' : AIEngine.LearningData) :
  vocabulary l <= vocabulary l' ->
  (Spec.accuracy_of (AIEngine.user_patterns l) (AIEngine.response_patterns l)
   <= Spec.accuracy_of (AIEngine.user_patterns l') (AIEngine.response_patterns l'))%Q.
Proof.
  intros H. unfold Spec.accuracy_of.
  apply Q.min_le_compat_l, truediv_le, H.
Qed.

Lemma update_learning_get row um br now token :
  dict_get (AIEngine.or_empty (models.user_patterns row)) token
  <= dict_get (AIEngine.or_empty (models.user_patterns
        (GhostBot.update_learning_patterns row um br now))) token
  /\ dict_get (AIEngine.or_empty (models.response_patterns row)) token
     <= dict_get (AIEngine.or_empty (models.response_patterns
           (GhostBot.update_learning_patterns row um br now))) token.
Proof.
  unfold GhostBot.update_learning_patterns. cbn.
  split; apply (fold_left_le _ (fun d => dict_get d token));
    intros; apply ghost_count_word_get.
Qed.

Lemma run_learning_get ops row token :
  dict_get (AIEngine.or_empty (models.user_patterns row)) token
  <= dict_get (AIEngine.or_empty (models.user_patterns (run_learning ops row))) token
  /\ dict_get (AIEngine.or_empty (models.response_patterns row)) token
     <= dict_get (AIEngine.or_empty (models.response_patterns (run_learning ops row))) token.
Proof.
  unfold run_learning. split.
  - apply (fold_left_le _
      (fun l => dict_get (AIEngine.or_empty (models.user_patterns l)) token)).
    intros l op. apply update_learning_get.
  - apply (fold_left_le _
      (fun l => dict_get (AIEngine.or_empty (models.response_patterns l)) token)).
    intros l op. apply update_learning_get.
Qed.

Lemma run_learning_accuracy ops row :
  models.accuracy_score (run_learning ops row) = models.accuracy_score row.
Proof.
  revert row. induction ops as [|op ops IH]; intros row; [done|].
  simpl. by rewrite IH.
Qed.

Lemma update_within learning um br :
  within_derived learning ->
  within_derived (AIEngine.update_patterns learning um br)
  /\ (AIEngine.accuracy learning
      <= AIEngine.accuracy (AIEngine.update_patterns learning um br))%Q.
Proof.
  intros Hw. unfold within_derived in *.
  pose proof (update_patterns_vocabulary learning um br) as Hv.
  pose proof (accuracy_of_mono _ _ Hv) as Hm.
  rewrite update_patterns_accuracy. cbv zeta.
  destruct (vocabulary (AIEngine.update_patterns learning um br) >? 0).
  - split; [apply Qle_refl | by eapply Qle_trans].
  - split; [by eapply Qle_trans | apply Qle_refl].
Qed.

Lemma run_updates_within ops learning :
  within_derived learning ->
  within_derived (run_updates ops learning)
  /\ (AIEngine.accuracy learning <= AIEngine.accuracy (run_updates ops learning))%Q.
Proof.
  revert learning. induction ops as [|op ops IH]; intros learning Hw.
  - split; [done | apply Qle_refl].
  - cbn [run_updates fold_left].
    destruct (update_within learning (fst op) (snd op) Hw) as [Hw' Hle].
    destruct (IH _ Hw') as [Hw'' Hle'].
    split; [exact Hw'' | by eapply Qle_trans].
Qed.

Lemma within_le_1 learning :
  within_derived learning -> (AIEngine.accuracy learning <= 1)%Q.
Proof. intros H. eapply Qle_trans; [exact H | apply accuracy_of_le_1]. Qed.

Lemma of_row_vocabulary row um br now :
  vocabulary (AIEngine.of_row row)
  <= vocabulary (AIEngine.of_row (GhostBot.update_learning_patterns row um br now)).
Proof.
  unfold vocabulary, AIEngine.of_row, GhostBot.update_learning_patterns. cbn.
  pose proof (fold_left_le GhostBot.count_word dict_len (split (lower um))
                (AIEngine.or_empty (models.user_patterns row))) as H1.
  pose proof (fold_left_le GhostBot.count_word dict_len (split (lower br))
                (AIEngine.or_empty (models.response_patterns row))) as H2.
  assert (Hlen : forall d w, dict_len d <= dict_len (GhostBot.count_word d w)).
  { intros d w. unfold GhostBot.count_word.
    destruct (len w >? 3); [|lia].
    destruct (negb (dict_mem d w)); apply dict_len_set. }
  specialize (H1 Hlen). specialize (H2 Hlen). unfold AIEngine.or_empty in *. lia.
Qed.

Lemma run_learning_within ops row :
  within_derived (AIEngine.of_row row) ->
  within_derived (AIEngine.of_row (run_learning ops row)).
Proof.
  revert row. induction ops as [|op ops IH]; intros row Hw; [done|].
  cbn [run_learning fold_left]. apply IH. unfold within_derived in *.
  eapply Qle_trans; [|apply accuracy_of_mono, of_row_vocabulary].
  exact Hw.
Qed.

(** C5, as the code has it.  Every token's inbound and outbound frequency
    only grows over any sequence of [update_patterns], and whenever an
    update leaves a non-empty vocabulary it sets the accuracy to
    [min(1, (inbound size + outbound size) / 1000)].  For a store whose
    accuracy is at most that value, as is the store of a new tenant and
    whatever the updates make of one, the accuracy stays at most that
    value and at most 1, and no update lowers it.  The worker's
    [update_learning_patterns] likewise only raises frequencies, leaves
    the stored accuracy as it is, and keeps a row within that value. *)
Theorem pattern_store_monotone
    (learning : AIEngine.LearningData) (ops ops' : list (pystr * pystr))
    (row : models.Learning) (gops : list (pystr * pystr * Z)) (token : pystr) :
  let l1 := run_updates ops learning in
  let l2 := run_updates ops' l1 in
  let row' := run_learning gops row in
  (dict_get (AIEngine.user_patterns learning) token
     <= dict_get (AIEngine.user_patterns l1) token
     <= dict_get (AIEngine.user_patterns l2) token) /\
  (dict_get (AIEngine.response_patterns learning) token
     <= dict_get (AIEngine.response_patterns l1) token
     <= dict_get (AIEngine.response_patterns l2) token) /\
  (forall um br,
     let l' := AIEngine.update_patterns learning um br in
     0 < vocabulary l' ->
     AIEngine.accuracy l'
     = Spec.accuracy_of (AIEngine.user_patterns l') (AIEngine.response_patterns l')) /\
  within_derived AIEngine.default_learning /\
  (within_derived learning ->
   within_derived l1
   /\ (AIEngine.accuracy l1 <= 1)%Q
   /\ (AIEngine.accuracy learning <= AIEngine.accuracy l1)%Q
   /\ (AIEngine.accuracy l1 <= AIEngine.accuracy l2)%Q) /\
  dict_get (AIEngine.or_empty (models.user_patterns row)) token
    <= dict_get (AIEngine.or_empty (models.user_patterns row')) token /\
  dict_get (AIEngine.or_empty (models.response_patterns row)) token
    <= dict_get (AIEngine.or_empty (models.response_patterns row')) token /\
  models.accuracy_score row' = models.accuracy_score row /\
  (within_derived (AIEngine.of_row row) -> within_derived (AIEngine.of_row row')).
Proof.
  cbv zeta.
  pose proof (run_updates_get ops learning token) as [Hu1 Hr1].
  pose proof (run_updates_get ops' (run_updates ops learning) token) as [Hu2 Hr2].
  pose proof (run_learning_get gops row token) as [Hg1 Hg2].
  split; [done|]. split; [done|]. split.
  { intros um br Hv. rewrite update_patterns_accuracy. cbv zeta.
    by assert ((vocabulary (AIEngine.update_patterns learning um br) >? 0) = true)
      as -> by lia. }
  split; [by vm_compute|]. split.
  { intros Hw. destruct (run_updates_within ops learning Hw) as [Hw1 Hle1].
    destruct (run_updates_within ops' _ Hw1) as [_ Hle2].
    split; [done|]. split; [by apply within_le_1|]. done. }
  split; [done|]. split; [done|]. split; [apply run_learning_accuracy|].
  apply run_learning_within.
Qed.

(** The accuracy part of the statement above from the store of a new
    tenant, over two exchanges and a third. *)
Lemma pattern_store_monotone_witness :
  let l1 := run_updates [(u "hello there", u "welcome"); (u "thanks", u "bye")]
              AIEngine.default_learning in
  let l2 := run_updates [(u "see you soon", u "okay")] l1 in
  within_derived l1
  /\ (AIEngine.accuracy l1 <= 1)%Q
  /\ (AIEngine.accuracy AIEngine.default_learning <= AIEngine.accuracy l1)%Q
  /\ (AIEngine.accuracy l1 <= AIEngine.accuracy l2)%Q.
Proof.
  apply (pattern_store_monotone AIEngine.default_learning
           [(u "hello there", u "welcome"); (u "thanks", u "bye")]
           [(u "see you soon", u "okay")] fresh_row [] []).
  by vm_compute.
Defined.

(** C5, as the specification words it, fails for such stores.  One update
    lowers an accuracy of 1/2 to 1/1000, and an accuracy of 2 outlives an
    update that adds no token. *)
Lemma stale_accuracy_counterexample :
  (AIEngine.accuracy (AIEngine.update_patterns (stale_store (1 # 2)) (u "hello") [])
   < AIEngine.accuracy (stale_store (1 # 2)))%Q
  /\ (AIEngine.accuracy (AIEngine.update_patterns (stale_store (1 # 2)) (u "hello") [])
      == 1 # 1000)%Q
  /\ (1 < AIEngine.accuracy (AIEngine.update_patterns (stale_store 2) (u "hi") []))%Q.
Proof. by vm_compute. Qed.

(* ===================================================================== *)
(** ** The two update routines against each other                         *)
(* ===================================================================== *)

Lemma count_word_agree (d : pydict) (word : pystr) :
  len word <> 3 -> GhostBot.count_word d word = AIEngine.count_word d word.
Proof.
  intros H. unfold GhostBot.count_word, AIEngine.count_word.
  destruct (len word >? 3) eqn:H3.
  - assert ((len word >? 2) = true) as -> by lia.
    destruct (dict_mem d word) eqn:Hm; cbn [negb]; [done|].
    by rewrite (dict_get_absent _ _ Hm).
  - by assert ((len word >? 2) = false) as -> by lia.
Qed.

(** Away from tokens of exactly three code points the two routines count
    alike. *)
Lemma updates_agree_off_cutoff (d : pydict) (words : list pystr) :
  Forall (fun word => len word <> 3) words ->
  fold_left GhostBot.count_word words d = fold_left AIEngine.count_word words d.
Proof.
  intros H. revert d. induction H as [|word words Hw _ IH]; intros d; [done|].
  simpl. by rewrite count_word_agree, IH.
Qed.

(** C6 at its failing input.  From empty maps, on the message ["hey"]
    answered by ["yes"], [AIEngine.update_patterns] (tokens longer than 2)
    counts both tokens, and [GhostBot.update_learning_patterns] (tokens
    longer than 3) counts neither: the maps differ. *)
Theorem update_cutoffs_disagree :
  AIEngine.user_patterns
    (AIEngine.update_patterns AIEngine.default_learning (u "hey") (u "yes"))
    = [(u "hey", 1)]
  /\ AIEngine.response_patterns
       (AIEngine.update_patterns AIEngine.default_learning (u "hey") (u "yes"))
     = [(u "yes", 1)]
  /\ models.user_patterns
       (GhostBot.update_learning_patterns fresh_row (u "hey") (u "yes") 0)
     = Some []
  /\ models.response_patterns
       (GhostBot.update_learning_patterns fresh_row (u "hey") (u "yes") 0)
     = Some [].
Proof. vm_compute. repeat split. Qed.

(* ===================================================================== *)
(** ** The subscription the entitlement check looks at                    *)
(* ===================================================================== *)

Lemma later_fold (rest : list models.Subscription) (s : models.Subscription) :
  let w := fold_left Spec.later rest s in
  w ∈ s :: rest /\ forall x, x ∈ s :: rest -> Spec.end_of x <= Spec.end_of w.
Proof.
  revert s. induction rest as [|t rest IH]; intros s; cbv zeta.
  - cbn [fold_left]. split; [by left|]. intros x Hx.
    apply list_elem_of_singleton in Hx as ->. lia.
  - cbn [fold_left]. destruct (IH (Spec.later s t)) as [Hin Hmax]. split.
    + apply elem_of_cons in Hin as [Heq | Hin].
      * rewrite Heq. unfold Spec.later.
        destruct (Spec.end_of s <? Spec.end_of t); [right; left | left].
      * by right; right.
    + intros x Hx.
      assert (Spec.end_of s <= Spec.end_of (Spec.later s t)
              /\ Spec.end_of t <= Spec.end_of (Spec.later s t)) as [Hs Ht].
      { unfold Spec.later.
        destruct (Spec.end_of s <? Spec.end_of t) eqn:E; lia. }
      pose proof (Hmax (Spec.later s t) ltac:(left)) as Hl.
      apply elem_of_cons in Hx as [-> | Hx]; [lia|].
      apply elem_of_cons in Hx as [-> | Hx]; [lia|].
      apply Hmax. by right.
Qed.

(** C9, as the code has it.  The query names no order, so the check gets
    the first verified unexpired window of the bot in storage order.  It
    gets one exactly when there is a window that ends last, and the one it
    gets ends no later than that one. *)
Theorem active_subscription_is_first (db : models.Db) (bot_id now : Z) :
  crud.get_active_subscription db bot_id now = head (Spec.windows db bot_id now)
  /\ match crud.get_active_subscription db bot_id now,
           Spec.effective_window db bot_id now with
     | Some s, Some w =>
         s ∈ Spec.windows db bot_id now /\ w ∈ Spec.windows db bot_id now
         /\ Spec.end_of s <= Spec.end_of w
     | None, None => True
     | _, _ => False
     end.
Proof.
  split; [done|].
  unfold crud.get_active_subscription, crud.first, Spec.effective_window.
  fold (Spec.windows db bot_id now).
  destruct (Spec.windows db bot_id now) as [|s rest]; [done|]. cbn [head].
  destruct (later_fold rest s) as [Hin Hmax].
  split; [by left|]. split; [done|]. apply Hmax. by left.
Qed.

(** C9, as the specification words it, fails: with two verified windows
    open at time 50, ending at 100 and at 200, the check gets the one
    ending at 100. *)
Lemma active_subscription_counterexample :
  crud.get_active_subscription two_windows 1 50 = Some (window 1 100)
  /\ Spec.effective_window two_windows 1 50 = Some (window 2 200)
  /\ crud.get_active_subscription two_windows 1 50
     <> Spec.effective_window two_windows 1 50.
Proof. vm_compute. repeat split. discriminate. Qed.

(* ===================================================================== *)
(** ** The worker's entitlement guard                                                  *)
(* ===================================================================== *)

(** The queries on [bots] change nothing but the token of a row. *)
Lemma decrypted_columns (decrypt_token : crud.cipher) (b : models.Bot) :
  models.id (crud.decrypted decrypt_token b) = models.id b
  /\ models.status (crud.decrypted decrypt_token b) = models.status b
  /\ models.plan_type (crud.decrypted decrypt_token b) = models.plan_type b
  /\ models.trial_expiry (crud.decrypted decrypt_token b) = models.trial_expiry b
  /\ models.admin_chat_id (crud.decrypted decrypt_token b) = models.admin_chat_id b
  /\ models.profile_clone (crud.decrypted decrypt_token b) = models.profile_clone b
  /\ models.last_active (crud.decrypted decrypt_token b) = models.last_active b
  /\ models.total_messages (crud.decrypted decrypt_token b) = models.total_messages b
  /\ models.bot_name (crud.decrypted decrypt_token b) = models.bot_name b.
Proof. unfold crud.decrypted. by destruct (truthy (models.bot_token b)). Qed.

Lemma get_bot_row (decrypt_token : crud.cipher) (db : models.Db) (bot_id : Z) :
  crud.get_bot decrypt_token db bot_id
  = crud.decrypted decrypt_token <$> crud.bot_row db bot_id.
Proof. done. Qed.

(** C2, as the code has it.  When the guard above is closed the handler
    leaves the worker and the storage as they were, so no Conversation is
    created and no learning row is updated, and it sends nothing; the
    only trace is the error logged when the trial expiry is missing. *)
Theorem closed_guard_drops (decrypt_token : crud.cipher) (io : GhostBot.Io)
    (self : GhostBot.t) (db : models.Db)
    (templates : AIEngine.bucket -> list pystr)
    (message : GhostBot.Message) (now : Z) (r r' : nat) :
  guard_closed db (GhostBot.bot_id self) now = true ->
  exists effects,
    GhostBot.handle_incoming_message decrypt_token io self db templates
      message now r r'
      = (self, db, effects)
    /\ (effects = [] \/ effects = [GhostBot.LogError TypeError]).
Proof.
  unfold guard_closed, GhostBot.handle_incoming_message. intros H.
  destruct (_ || _); [by eexists; split; [|left]|].
  rewrite get_bot_row.
  destruct (crud.bot_row db (GhostBot.bot_id self)) as [row|];
    [|by eexists; split; [|left]].
  cbn [fmap option_fmap option_map].
  destruct (decrypted_columns decrypt_token row)
    as [_ [Hst [Hplan [Hexp _]]]].
  set (bot := crud.decrypted decrypt_token row) in *.
  rewrite Hst, Hplan, Hexp. clearbody bot. clear Hst Hplan Hexp. rename row into bot0.
  destruct (bool_decide (models.status bot0 = models.ACTIVE)); cbn [negb orb] in *;
    [|by eexists; split; [|left]].
  destruct (crud.get_active_subscription db (GhostBot.bot_id self) now) as [s|].
  { rewrite bool_decide_eq_true_2 in H by done. done. }
  destruct (bool_decide (models.plan_type bot0 = models.TRIAL));
    [|by rewrite andb_false_r in H].
  destruct (models.trial_expiry bot0) as [expiry|].
  - rewrite andb_true_iff in H. destruct H as [_ ->].
    by eexists; split; [|left].
  - by eexists; split; [|right].
Qed.

(** The statement above at a trial bot whose trial ended at 10, at time 50. *)
Lemma closed_guard_drops_witness :
  exists effects,
    GhostBot.handle_incoming_message sample_cipher GhostBot.all_well worker_1
      (one_bot models.TRIAL (Some 10)) no_templates stranger_says_hello 50 0 0
      = (worker_1, one_bot models.TRIAL (Some 10), effects)
    /\ (effects = [] \/ effects = [GhostBot.LogError TypeError]).
Proof.
  apply (closed_guard_drops sample_cipher GhostBot.all_well worker_1
           (one_bot models.TRIAL (Some 10)) no_templates stranger_says_hello 50 0 0).
  vm_compute. reflexivity.
Defined.

(** C2, as the specification words it, fails.  A bot on the paid plan
    ["100"] with no verified unexpired subscription and no trial window
    is not entitled, yet the handler answers a stranger's ["hello"] and
    stores the Conversation. *)
Lemma unentitled_paid_plan_counterexample :
  Spec.is_entitled (one_bot (u "100") None) 1 50 = false
  /\ exists self' db' body,
       GhostBot.handle_incoming_message sample_cipher GhostBot.all_well worker_1
         (one_bot (u "100") None) no_templates stranger_says_hello 50 0 0
         = (self', db', [GhostBot.Answer 7 body false])
       /\ body = u "হ্যালো! কেমন আছেন? 😊"
       /\ length (models.conversations db') = 1%nat.
Proof.
  split; [vm_compute; reflexivity|].
  eexists _, _, _. split; [vm_compute; reflexivity|].
  split; vm_compute; reflexivity.
Qed.

(* ===================================================================== *)
(** ** A tenant without a learning row                                    *)
(* ===================================================================== *)





(* ===================================================================== *)
(** ** The runtime manager                                                *)
(* ===================================================================== *)

Import GhostBotManager.

Lemma stop_bot_lookup (self : t) (bot_id k : Z) :
  active_bots (stop_bot self bot_id) !! k
  = if decide (k = bot_id) then None else active_bots self !! k.
Proof.
  unfold stop_bot. destruct (active_bots self !! bot_id) eqn:H; cbn.
  - destruct (decide (k = bot_id)) as [->|Hne].
    + apply lookup_delete_eq.
    + by apply lookup_delete_ne.
  - destruct (decide (k = bot_id)) as [->|Hne]; done.
Qed.

Lemma stop_bot_errors (self : t) (bot_id : Z) :
  errors (stop_bot self bot_id) = errors self.
Proof. unfold stop_bot. by destruct (active_bots self !! bot_id). Qed.

(** The first loop of a pass: the workers whose bot left the active set
    are gone, the others stay, and nothing is logged. *)
Lemma stop_loop (ids keys : list Z) (self : t) :
  let self' :=
    fold_left
      (fun self bot_id =>
         if negb (bool_decide (bot_id ∈ ids)) then stop_bot self bot_id else self)
      keys self in
  errors self' = errors self
  /\ forall k, active_bots self' !! k
               = if bool_decide (k ∈ keys /\ k ∉ ids) then None
                 else active_bots self !! k.
Proof.
  revert self. induction keys as [|key keys IH]; intros self; cbv zeta.
  - split; [done|]. intros k. rewrite bool_decide_eq_false_2; [done|].
    intros [H _]. by apply elem_of_nil in H.
  - cbn [fold_left].
    destruct (IH (if negb (bool_decide (key ∈ ids))
                  then stop_bot self key else self)) as [He Hl].
    split.
    + rewrite He. destruct (negb _); [apply stop_bot_errors | done].
    + intros k. rewrite Hl. clear He Hl IH.
      destruct (bool_decide (key ∈ ids)) eqn:Hkey; cbn [negb].
      * apply bool_decide_eq_true in Hkey.
        destruct (decide (k ∈ keys /\ k ∉ ids)) as [H|H].
        -- rewrite !bool_decide_eq_true_2; [done| |done].
           destruct H. split; [by right | done].
        -- rewrite bool_decide_eq_false_2 by done.
           rewrite bool_decide_eq_false_2; [done|].
           intros [Hk Hn]. apply elem_of_cons in Hk as [->|Hk]; [done|].
           by apply H.
      * apply bool_decide_eq_false in Hkey. rewrite stop_bot_lookup.
        destruct (decide (k = key)) as [->|Hne].
        -- rewrite (bool_decide_eq_true_2 (key ∈ key :: keys /\ key ∉ ids));
             [by destruct (bool_decide _) | split; [by left | done]].
        -- destruct (decide (k ∈ keys /\ k ∉ ids)) as [H|H].
           ++ rewrite !bool_decide_eq_true_2; [done| |done].
              destruct H. split; [by right | done].
           ++ rewrite bool_decide_eq_false_2 by done.
              rewrite bool_decide_eq_false_2; [done|].
              intros [Hk Hn]. apply elem_of_cons in Hk as [->|Hk]; [done|].
              by apply H.
Qed.

Lemma start_bot_errors (ok : starter) (self : t) (bot : models.Bot) :
  (length (errors self) <= length (errors (start_bot ok self bot)))%nat.
Proof.
  unfold start_bot. destruct (active_bots self !! models.id bot); [done|].
  destruct (ok bot); cbn; [done|]. rewrite length_app. cbn. lia.
Qed.

(** What a start that logs nothing does to the registry. *)
Lemma start_bot_quiet (ok : starter) (self : t) (bot : models.Bot) :
  errors (start_bot ok self bot) = errors self ->
  dom (active_bots (start_bot ok self bot))
  = {[models.id bot]} ∪ dom (active_bots self).
Proof.
  unfold start_bot.
  destruct (active_bots self !! models.id bot) as [w|] eqn:Hw.
  - intros _. apply (elem_of_dom_2 (D := gset Z)) in Hw. set_solver.
  - destruct (ok bot); cbn.
    + intros _. apply dom_insert_L.
    + intros H. apply (f_equal (@length _)) in H.
      rewrite length_app in H. cbn in H. lia.
Qed.

Lemma start_pass_errors ok self bot :
  (length (errors self) <= length (errors (start_pass ok self bot)))%nat.
Proof.
  unfold start_pass. destruct (negb _); [apply start_bot_errors | done].
Qed.

Lemma start_loop_errors ok bots self :
  (length (errors self) <= length (errors (fold_left (start_pass ok) bots self)))%nat.
Proof.
  revert self. induction bots as [|bot bots IH]; intros self; [done|].
  cbn [fold_left]. etransitivity; [apply (start_pass_errors ok self bot) | apply IH].
Qed.

(** The second loop of a pass, when it logs nothing: every listed bot has
    a worker afterwards, and no other worker appears. *)
Lemma start_loop ok bots self :
  errors (fold_left (start_pass ok) bots self) = errors self ->
  dom (active_bots (fold_left (start_pass ok) bots self))
  = list_to_set (List.map models.id bots) ∪ dom (active_bots self).
Proof.
  revert self. induction bots as [|bot bots IH]; intros self H.
  - cbn. set_solver.
  - cbn [fold_left List.map list_to_set] in *.
    pose proof (start_loop_errors ok bots (start_pass ok self bot)) as Hlen.
    pose proof (start_pass_errors ok self bot) as Hlen'.
    assert (Hq : errors (start_pass ok self bot) = errors self).
    { rewrite H in Hlen. unfold start_pass in *.
      destruct (negb _); [|done]. unfold start_bot in *.
      destruct (active_bots self !! models.id bot); [done|].
      destruct (ok bot); [done|]. cbn in *. rewrite length_app in Hlen.
      cbn in Hlen. lia. }
    rewrite IH by congruence.
    assert (dom (active_bots (start_pass ok self bot))
            = {[models.id bot]} ∪ dom (active_bots self)) as ->.
    { unfold start_pass in *.
      destruct (bool_decide (is_Some (active_bots self !! models.id bot))) eqn:Hp;
        cbn [negb] in *.
      - apply bool_decide_eq_true in Hp.
        apply (elem_of_dom (D := gset Z)) in Hp. set_solver.
      - by apply start_bot_quiet. }
    set_solver.
Qed.

(** The ids of the rows [get_active_bots] returns are those of the rows
    with status active, in the order of the table. *)
Lemma active_ids_rows (decrypt_token : crud.cipher) (db : models.Db) :
  List.map models.id (crud.get_active_bots decrypt_token db)
  = List.map models.id
      (List.filter (fun b => bool_decide (models.status b = models.ACTIVE))
         (models.bots db)).
Proof.
  unfold crud.get_active_bots. rewrite List.map_map. apply List.map_ext.
  intros b. apply decrypted_columns.
Qed.

Lemma active_ids (decrypt_token : crud.cipher) (db : models.Db) (k : Z) :
  k ∈ List.map models.id (crud.get_active_bots decrypt_token db) <->
  exists b, b ∈ models.bots db /\ models.id b = k
            /\ models.status b = models.ACTIVE.
Proof.
  rewrite active_ids_rows, list_elem_of_In, in_map_iff. split.
  - intros [b [Hid Hb]]. apply filter_In in Hb as [Hb Hs].
    apply bool_decide_eq_true in Hs. exists b.
    by rewrite list_elem_of_In.
  - intros [b [Hb [Hid Hs]]]. exists b. split; [done|].
    apply filter_In. split; [by apply list_elem_of_In|].
    by apply bool_decide_eq_true.
Qed.

(** A pass that logs nothing has read the storage and leaves exactly the
    active bots with a worker. *)
Lemma clean_pass_live (decrypt_token : crud.cipher) (ok : starter) (self : t)
    (q : result models.Db) :
  errors (monitor_pass decrypt_token ok self q) = errors self ->
  exists db, q = Ok db /\
    forall k, k ∈ live (monitor_pass decrypt_token ok self q) <->
              k ∈ List.map models.id (crud.get_active_bots decrypt_token db).
Proof.
  intros Hpass. destruct q as [db|e].
  2:{ cbn in Hpass. apply (f_equal (@length _)) in Hpass.
      rewrite length_app in Hpass. cbn in Hpass. lia. }
  exists db. split; [done|]. intros k.
  unfold live, monitor_pass in *.
  set (ids := List.map models.id (crud.get_active_bots decrypt_token db)) in *.
  destruct (stop_loop ids (map_to_list (active_bots self)).*1 self)
    as [He Hl]. cbv zeta in He, Hl.
  set (stopped := fold_left _ (map_to_list (active_bots self)).*1 self) in *.
  fold (start_pass ok) in Hpass |- *.
  rewrite start_loop by congruence.
  rewrite elem_of_union, elem_of_list_to_set, elem_of_dom, Hl.
  split; [|by left]. intros [H|H]; [done|].
  destruct (decide (k ∈ ids)) as [|Hk]; [done|].
  rewrite bool_decide_eq_true_2 in H; [by destruct H|].
  split; [|done].
  destruct (decide (k ∈ (map_to_list (active_bots self)).*1)) as [|Hn]; [done|].
  rewrite bool_decide_eq_false_2 in H by (by intros []).
  destruct H as [w Hw]. destruct Hn.
  apply list_elem_of_fmap. exists (k, w). split; [done|].
  by apply elem_of_map_to_list.
Qed.

(** C3.  A pass that logs no error has read the storage, and after it the
    live workers are exactly the bots whose status in storage is active.
    Starting a bot a second time leaves the set of live workers as the
    first start left it; once the bot has a worker, a further start,
    whatever would happen to it, changes nothing at all.  A second stop
    of the same bot changes nothing. *)
Theorem reconciliation_exact (decrypt_token : crud.cipher) (ok ok' : starter)
    (self : t) (q : result models.Db) (bot : models.Bot) (bot_id : Z) :
  (errors (monitor_pass decrypt_token ok self q) = errors self ->
   exists db, q = Ok db /\
     forall k, k ∈ live (monitor_pass decrypt_token ok self q) <->
               exists b, b ∈ models.bots db /\ models.id b = k
                         /\ models.status b = models.ACTIVE)
  /\ live (start_bot ok (start_bot ok self bot) bot) = live (start_bot ok self bot)
  /\ (models.id bot ∈ live (start_bot ok self bot) ->
      start_bot ok' (start_bot ok self bot) bot = start_bot ok self bot)
  /\ stop_bot (stop_bot self bot_id) bot_id = stop_bot self bot_id.
Proof.
  split; [|split; [|split]].
  - intros Hpass. destruct (clean_pass_live _ _ _ _ Hpass) as [db [-> Hlive]].
    exists db. split; [done|]. intros k. by rewrite Hlive, active_ids.
  - unfold live, start_bot at 1.
    destruct (active_bots (start_bot ok self bot) !! models.id bot) eqn:H; [done|].
    unfold start_bot in *.
    destruct (active_bots self !! models.id bot) eqn:H0; [congruence|].
    destruct (ok bot); [|done]. cbn in H. by rewrite lookup_insert_eq in H.
  - intros Hin. unfold live in Hin. unfold start_bot at 1.
    apply (elem_of_dom (D := gset Z)) in Hin as [w ->]. done.
  - unfold stop_bot at 1.
    by rewrite stop_bot_lookup, decide_True.
Qed.

(** A clean pass over a storage with one active bot, for a manager without
    workers. *)
Lemma reconciliation_exact_witness :
  exists db, Ok (one_bot models.TRIAL (Some 90)) = Ok db /\
    forall k, k ∈ live (monitor_pass sample_cipher always no_workers
                          (Ok (one_bot models.TRIAL (Some 90)))) <->
              exists b, b ∈ models.bots db /\ models.id b = k
                        /\ models.status b = models.ACTIVE.
Proof.
  apply (reconciliation_exact sample_cipher always always no_workers
           (Ok (one_bot models.TRIAL (Some 90))) (bot_1 models.TRIAL (Some 90)) 1).
  vm_compute. reflexivity.
Defined.

(** A bot whose start fails: nothing is live after the first start nor
    after the second, and each start logs its failure. *)
Example failing_start_twice :
  let never : starter := fun _ => false in
  let once := start_bot never no_workers (bot_1 models.TRIAL (Some 90)) in
  let twice := start_bot never once (bot_1 models.TRIAL (Some 90)) in
  live once = ∅ /\ live twice = ∅
  /\ errors once = [StartError 1] /\ errors twice = [StartError 1; StartError 1].
Proof. cbv zeta. repeat split; by vm_compute. Qed.

(* ===================================================================== *)
(** ** More on the response engine                                        *)
(* ===================================================================== *)

(** X1.  Once [get_learning_data] has answered for a bot, it answers the same
    from the cache alone: whatever the storage has become, or even if it
    now fails, the same data comes back and the cache stays as it is. *)
Theorem learning_data_cached (E E' : AIEngine.Env)
    (c c' : gmap Z AIEngine.LearningData) (bot_id : Z)
    (learning : AIEngine.LearningData) :
  AIEngine.get_learning_data E c bot_id = Ok (learning, c') ->
  c' !! bot_id = Some learning
  /\ AIEngine.get_learning_data E' c' bot_id = Ok (learning, c')
  /\ forall other, other <> bot_id -> c' !! other = c !! other.
Proof.
  unfold AIEngine.get_learning_data. intros H.
  destruct (c !! bot_id) as [d|] eqn:Hc.
  - injection H as -> ->. by rewrite Hc.
  - destruct (AIEngine.load_learning E bot_id) as [row|e]; [|done].
    cbn [rbind] in H. injection H as <- <-.
    rewrite lookup_insert_eq. split; [done|]. split; [done|].
    intros other Hne. by rewrite lookup_insert_ne.
Qed.

(** The statement above at an empty cache and a storage without a row. *)
Lemma learning_data_cached_witness :
  (<[1 := AIEngine.default_learning]> (∅ : gmap Z AIEngine.LearningData)) !! 1
    = Some AIEngine.default_learning
  /\ AIEngine.get_learning_data
       {| AIEngine.load_learning := fun _ => Raise StorageError;
          AIEngine.response_templates := fun _ => [] |}
       (<[1 := AIEngine.default_learning]> ∅) 1
     = Ok (AIEngine.default_learning, <[1 := AIEngine.default_learning]> ∅)
  /\ forall other, other <> 1 ->
       (<[1 := AIEngine.default_learning]> (∅ : gmap Z AIEngine.LearningData)) !! other
       = (∅ : gmap Z AIEngine.LearningData) !! other.
Proof.
  apply (learning_data_cached plain_env
           {| AIEngine.load_learning := fun _ => Raise StorageError;
              AIEngine.response_templates := fun _ => [] |}
           ∅ (<[1 := AIEngine.default_learning]> ∅) 1 AIEngine.default_learning).
  reflexivity.
Defined.

(** A cache that already holds the bot is handed back unchanged by
    [generate_response], and the storage is not read. *)
Lemma generate_response_cache_hit (E E' : AIEngine.Env)
    (c : gmap Z AIEngine.LearningData) (context : AIEngine.Context)
    (learning : AIEngine.LearningData) (r r' : nat) :
  c !! AIEngine.bot_id context = Some learning ->
  AIEngine.response_templates E = AIEngine.response_templates E' ->
  AIEngine.generate_response E c context r r'
  = AIEngine.generate_response E' c context r r'
  /\ (AIEngine.generate_response E c context r r').2 = c.
Proof.
  intros Hc Ht.
  unfold AIEngine.generate_response, AIEngine.generate_response_try,
    AIEngine.get_learning_data, AIEngine.generate_contextual_response.
  rewrite Hc, Ht.
  destruct (AIEngine.prepared_text context) as [text|]; [|done].
  destruct (truthy (default [] (AIEngine.check_predefined_responses text)));
    [done|].
  destruct (truthy (default [] (AIEngine.check_learned_patterns learning text)));
    [done|].
  split; [done|].
  by destruct (rbind _ _).
Qed.

(* ===================================================================== *)
(** ** More on the worker                                                 *)
(* ===================================================================== *)

(** What the sending leaves behind: when it returns, the reply is among
    the effects; when it does not, no reply is. *)
Lemma send_outcome (io : GhostBot.Io) (clone : bool) (chat : Z) (reply : pystr) :
  let '(sent, returned) :=
    if clone then GhostBot.send_as_admin io chat reply
    else GhostBot.answer io chat reply in
  if returned
  then exists html, GhostBot.Answer chat reply html ∈ sent
  else forall c body html, GhostBot.Answer c body html ∉ sent.
Proof.
  unfold GhostBot.send_as_admin, GhostBot.answer.
  destruct clone;
    [destruct (GhostBot.delivers io (GhostBot.SendChatAction chat));
     [destruct (GhostBot.delivers io (GhostBot.Answer chat reply true))|]|];
    destruct (GhostBot.delivers io (GhostBot.Answer chat reply false));
    cbn [app];
    first [ by eexists; repeat first [left; reflexivity | right]
          | intros c body html Hin;
            repeat (apply elem_of_cons in Hin as [Hin|Hin]; [discriminate|]);
            by apply elem_of_nil in Hin ].
Qed.

(** The two ways the first half of [handle_incoming_message] ends: it
    drops the message and leaves everything as it was, or it goes on to
    send the engine's reply. *)
Lemma handle_outcome (decrypt_token : crud.cipher) (io : GhostBot.Io)
    (self : GhostBot.t) (db : models.Db)
    (templates : AIEngine.bucket -> list pystr)
    (message : GhostBot.Message) (now : Z) (r r' : nat) :
  (exists effects,
      GhostBot.handle_incoming_message decrypt_token io self db templates
        message now r r'
        = (self, db, effects)
      /\ (effects = [] \/ effects = [GhostBot.LogError TypeError]))
  \/ (exists row reply cache',
        GhostBot.from_user_id message <> GhostBot.admin_chat_id self
        /\ GhostBot.from_user_id message <> GhostBot.self_id self
        /\ crud.bot_row db (GhostBot.bot_id self) = Some row
        /\ models.status row = models.ACTIVE
        /\ AIEngine.generate_response (GhostBot.engine_env db templates)
             (GhostBot.ai_engine self)
             (private_context self (GhostBot.from_user_id message)
                (GhostBot.text_or_caption message)) r r' = (reply, cache')
        /\ GhostBot.handle_incoming_message decrypt_token io self db templates
             message now r r'
           = GhostBot.send_and_save io (with_cache self cache') db
               (crud.decrypted decrypt_token row)
               (crud.get_learning db (GhostBot.bot_id self))
               message reply now).
Proof.
  unfold GhostBot.handle_incoming_message.
  destruct (_ || _) eqn:Hsender; [left; eexists; split; [done | by left]|].
  apply orb_false_iff in Hsender as [Ha Hs].
  rewrite get_bot_row.
  destruct (crud.bot_row db (GhostBot.bot_id self)) as [row|] eqn:Hbot;
    [|left; eexists; split; [done | by left]].
  cbn [fmap option_fmap option_map].
  destruct (decrypted_columns decrypt_token row) as [_ [Hst' [Hplan [Hexp _]]]].
  rewrite Hst', Hplan, Hexp.
  destruct (bool_decide (models.status row = models.ACTIVE)) eqn:Hst; cbn [negb];
    [|left; eexists; split; [done | by left]].
  apply bool_decide_eq_true in Hst.
  pose (context := private_context self (GhostBot.from_user_id message)
                     (GhostBot.text_or_caption message)).
  assert (Hans :
    exists reply cache',
      AIEngine.generate_response (GhostBot.engine_env db templates)
        (GhostBot.ai_engine self) context r r' = (reply, cache')).
  { destruct (AIEngine.generate_response _ _ context r r') as [reply cache'].
    by eexists _, _. }
  destruct Hans as [reply [cache' Hgen]].
  fold (private_context self (GhostBot.from_user_id message)
          (GhostBot.text_or_caption message)).
  fold context. rewrite Hgen. fold (with_cache self cache').
  destruct (crud.get_active_subscription db (GhostBot.bot_id self) now) as [s|].
  { right. exists row, reply, cache'. repeat split; try done; lia. }
  destruct (bool_decide (models.plan_type row = models.TRIAL)).
  - destruct (models.trial_expiry row) as [expiry|];
      [|left; eexists; split; [done | by right]].
    destruct (expiry <? now); [left; eexists; split; [done | by left]|].
    right. exists row, reply, cache'. repeat split; try done; lia.
  - right. exists row, reply, cache'. repeat split; try done; lia.
Qed.

Lemma bot_row_head (db : models.Db) (bot_id : Z) (bot : models.Bot) :
  crud.bot_row db bot_id = Some bot -> models.id bot = bot_id.
Proof.
  unfold crud.bot_row, crud.first. intros H.
  apply head_Some_elem_of, list_elem_of_In, filter_In in H as [_ H]. lia.
Qed.

Lemma get_bot_head (decrypt_token : crud.cipher) (db : models.Db) (bot_id : Z)
    (bot : models.Bot) :
  crud.get_bot decrypt_token db bot_id = Some bot -> models.id bot = bot_id.
Proof.
  rewrite get_bot_row. destruct (crud.bot_row db bot_id) as [row|] eqn:Hrow; [|done].
  intros [= <-]. destruct (decrypted_columns decrypt_token row) as [-> _].
  by eapply bot_row_head.
Qed.



Lemma put_learning_get (ls : list models.Learning) (old new : models.Learning) :
  head (List.filter (fun l => models.learning_bot_id l =? models.learning_bot_id new) ls)
    = Some old ->
  head (List.filter (fun l => models.learning_bot_id l =? models.learning_bot_id new)
          (GhostBot.put_learning ls new)) = Some new.
Proof.
  induction ls as [|l ls IH]; [done|]. cbn [GhostBot.put_learning List.filter].
  destruct (models.learning_bot_id l =? models.learning_bot_id new) eqn:Hl.
  - intros _. cbn [List.filter]. by rewrite Z.eqb_refl.
  - intros H. cbn [List.filter]. rewrite Hl. by apply IH.
Qed.

Lemma get_learning_head (db : models.Db) (bot_id : Z) (l : models.Learning) :
  crud.get_learning db bot_id = Some l -> models.learning_bot_id l = bot_id.
Proof.
  unfold crud.get_learning, crud.first. intros H.
  apply head_Some_elem_of, list_elem_of_In, filter_In in H as [_ H]. lia.
Qed.

(** What [send_and_save] leaves in storage, write by write. *)
Lemma send_and_save_storage (io : GhostBot.Io) (self : GhostBot.t)
    (db : models.Db) (bot : models.Bot) (learning : option models.Learning)
    (message : GhostBot.Message) (reply : pystr) (now : Z) :
  let out := GhostBot.send_and_save io self db bot learning message reply now in
  let saved :=
    {| models.bots := GhostBot.put_bot (models.bots db) bot;
       models.subscriptions := models.subscriptions db;
       models.learnings := models.learnings db;
       models.conversations :=
         models.conversations db ++ [exchange self message reply now] |} in
  out.1.1 = self
  /\ ((forall c body html, GhostBot.Answer c body html ∉ out.2) /\ out.1.2 = db
      \/ (exists html, GhostBot.Answer (GhostBot.chat_id message) reply html ∈ out.2)
         /\ if GhostBot.goes_through io GhostBot.SaveConversation
            then if GhostBot.goes_through io GhostBot.RefreshConversation
                    && GhostBot.goes_through io GhostBot.CommitActivity
                 then out.1.2
                      = {| models.bots :=
                             GhostBot.put_bot (models.bots saved)
                               (GhostBot.touch bot now);
                           models.subscriptions := models.subscriptions db;
                           models.learnings :=
                             match learning with
                             | Some l =>
                                 GhostBot.put_learning (models.learnings db)
                                   (GhostBot.flushed l
                                      (GhostBot.update_learning_patterns l
                                         (GhostBot.text_or_caption message)
                                         reply now))
                             | None => models.learnings db
                             end;
                           models.conversations := models.conversations saved |}
                 else out.1.2 = saved
            else out.1.2 = db).
Proof.
  cbv zeta. unfold GhostBot.send_and_save.
  pose proof (send_outcome io
                (default true (models.profile_clone bot) && GhostBot.is_cloning self)
                (GhostBot.chat_id message) reply) as Hsend.
  destruct (if default true (models.profile_clone bot) && GhostBot.is_cloning self
            then GhostBot.send_as_admin io (GhostBot.chat_id message) reply
            else GhostBot.answer io (GhostBot.chat_id message) reply)
    as [sent returned].
  destruct returned; cbn [negb].
  - destruct Hsend as [html Hsent].
    destruct (GhostBot.goes_through io GhostBot.SaveConversation); cbn [negb].
    + destruct (GhostBot.goes_through io GhostBot.RefreshConversation
                && GhostBot.goes_through io GhostBot.CommitActivity); cbn [negb fst snd].
      * split; [done|]. right. split; [by exists html | done].
      * split; [done|]. right. split; [|done].
        exists html. apply elem_of_app. by left.
    + cbn [fst snd]. split; [done|]. right. split; [|done].
      exists html. apply elem_of_app. by left.
  - cbn [fst snd]. split; [done|]. left. split; [|done].
    intros c body html Hin. apply elem_of_app in Hin as [Hin|Hin].
    + by apply (Hsend c body html).
    + apply list_elem_of_singleton in Hin. discriminate.
Qed.


(** Every reply among the effects of [send_and_save] is the reply it was
    given, to the chat of the message. *)
Lemma send_and_save_answers (io : GhostBot.Io) (self : GhostBot.t)
    (db : models.Db) (bot : models.Bot) (learning : option models.Learning)
    (message : GhostBot.Message) (reply : pystr) (now : Z)
    (c : Z) (body : pystr) (html : bool) :
  GhostBot.Answer c body html
    ∈ (GhostBot.send_and_save io self db bot learning message reply now).2 ->
  c = GhostBot.chat_id message /\ body = reply.
Proof.
  unfold GhostBot.send_and_save, GhostBot.send_as_admin, GhostBot.answer.
  destruct (default true (models.profile_clone bot) && GhostBot.is_cloning self);
    [destruct (GhostBot.delivers io (GhostBot.SendChatAction (GhostBot.chat_id message)));
     [destruct (GhostBot.delivers io
                  (GhostBot.Answer (GhostBot.chat_id message) reply true))|]|];
    destruct (GhostBot.delivers io
                (GhostBot.Answer (GhostBot.chat_id message) reply false));
    cbn [negb app];
    repeat match goal with
           | |- context [if negb ?b then _ else _] => destruct b; cbn [negb]
           end;
    cbn [snd app]; intros Hin;
    repeat (apply elem_of_cons in Hin as [Hin|Hin];
            [try discriminate; by injection Hin as -> -> _|]);
    by apply elem_of_nil in Hin.
Qed.

(** X3.  What an answered exchange leaves in the learning row.  When the
    tenant has a learning row, the reply is delivered and every write
    goes through, the row read back has its training counter one higher
    and [last_trained] at the current time.  Of the three blobs, one that
    was NULL or empty holds what [update_learning_patterns] computed from
    this exchange; one that already held something is exactly as it was,
    because the update was made in place on the dict the session had
    loaded and is not seen by the commit.  So the row learns from the
    first exchange only. *)
Theorem learning_row_after_exchange (decrypt_token : crud.cipher)
    (io : GhostBot.Io) (self : GhostBot.t) (db : models.Db)
    (templates : AIEngine.bucket -> list pystr)
    (message : GhostBot.Message) (now : Z) (r r' : nat)
    (l : models.Learning) (reply : pystr) (html : bool) :
  crud.get_learning db (GhostBot.bot_id self) = Some l ->
  GhostBot.Answer (GhostBot.chat_id message) reply html
    ∈ (GhostBot.handle_incoming_message decrypt_token io self db templates
         message now r r').2 ->
  (forall call, GhostBot.goes_through io call = true) ->
  let updated :=
    GhostBot.update_learning_patterns l (GhostBot.text_or_caption message)
      reply now in
  exists l',
    crud.get_learning
      (GhostBot.handle_incoming_message decrypt_token io self db templates
         message now r r').1.2
      (GhostBot.bot_id self) = Some l'
    /\ l' = GhostBot.flushed l updated
    /\ models.training_count l' = models.training_count l + 1
    /\ models.last_trained l' = now
    /\ models.user_patterns l'
       = (if truthy_dict (models.user_patterns l)
          then models.user_patterns l else models.user_patterns updated)
    /\ models.response_patterns l'
       = (if truthy_dict (models.response_patterns l)
          then models.response_patterns l else models.response_patterns updated)
    /\ (forall c, models.context_data l = Some c ->
          models.last_interaction c <> None ->
          models.context_data l' = models.context_data l).
Proof.
  intros Hl Hans Hio. cbv zeta.
  destruct (handle_outcome decrypt_token io self db templates message now r r')
    as [[effects [Hh Heff]] | [row [reply' [cache' [_ [_ [Hbot [_ [Hgen Hh]]]]]]]]];
    rewrite Hh in Hans |- *; cbn [fst snd] in *.
  - destruct Heff as [-> | ->].
    + by apply elem_of_nil in Hans.
    + apply list_elem_of_singleton in Hans. discriminate.
  - destruct (send_and_save_answers _ _ _ _ _ _ _ _ _ _ _ Hans) as [_ <-].
    pose proof (send_and_save_storage io (with_cache self cache') db
                  (crud.decrypted decrypt_token row)
                  (crud.get_learning db (GhostBot.bot_id self))
                  message reply now) as Hsave.
    cbv zeta in Hsave. destruct Hsave as [_ [[Hno _] | [_ Hdb]]].
    { by destruct (Hno _ _ _ Hans). }
    rewrite !Hio in Hdb. cbn [andb] in Hdb. rewrite Hdb, Hl.
    set (updated := GhostBot.update_learning_patterns l _ reply now).
    exists (GhostBot.flushed l updated).
    split.
    { unfold crud.get_learning, crud.first in *. cbn [models.learnings].
      pose proof (get_learning_head db _ _ Hl) as Hid.
      assert (models.learning_bot_id (GhostBot.flushed l updated)
              = GhostBot.bot_id self) as Hid' by done.
      rewrite <- Hid' in Hl |- *. by eapply put_learning_get. }
    split; [done|]. split; [done|]. split; [done|].
    clearbody updated. unfold GhostBot.flushed, truthy_dict.
    cbn [models.user_patterns models.response_patterns models.context_data].
    split; [by destruct (models.user_patterns l) as [[|]|]|].
    split; [by destruct (models.response_patterns l) as [[|]|]|].
    intros c Hc Hlast.
    rewrite Hc. unfold GhostBot.blob_truthy.
    destruct (models.last_interaction c); [|done].
    rewrite (bool_decide_eq_true_2 (is_Some (Some _))) by by eexists.
    by rewrite orb_true_r.
Qed.

(** The statement above for a trial bot whose learning row is the one
    [create_learning] makes. *)
Lemma learning_row_after_exchange_witness :
  let updated :=
    GhostBot.update_learning_patterns fresh_row
      (GhostBot.text_or_caption stranger_says_hello)
      (u "হ্যালো! কেমন আছেন? 😊") 50 in
  exists l',
    crud.get_learning
      (GhostBot.handle_incoming_message sample_cipher GhostBot.all_well worker_1
         (learning_bot models.TRIAL (Some 90)) no_templates
         stranger_says_hello 50 0 0).1.2
      (GhostBot.bot_id worker_1) = Some l'
    /\ l' = GhostBot.flushed fresh_row updated
    /\ models.training_count l' = models.training_count fresh_row + 1
    /\ models.last_trained l' = 50
    /\ models.user_patterns l'
       = (if truthy_dict (models.user_patterns fresh_row)
          then models.user_patterns fresh_row else models.user_patterns updated)
    /\ models.response_patterns l'
       = (if truthy_dict (models.response_patterns fresh_row)
          then models.response_patterns fresh_row
          else models.response_patterns updated)
    /\ (forall c, models.context_data fresh_row = Some c ->
          models.last_interaction c <> None ->
          models.context_data l' = models.context_data fresh_row).
Proof.
  apply (learning_row_after_exchange sample_cipher GhostBot.all_well worker_1
           (learning_bot models.TRIAL (Some 90))
           no_templates stranger_says_hello 50 0 0 fresh_row
           (u "হ্যালো! কেমন আছেন? 😊") false).
  - vm_compute. reflexivity.
  - vm_compute. left.
  - intros call. reflexivity.
Defined.

(** Two exchanges in a row: the second one is counted, and none of its
    words reaches the row. *)
Example second_exchange_is_not_learned :
  let says text :=
    {| GhostBot.from_user_id := 7; GhostBot.chat_id := 7;
       GhostBot.text := Some text; GhostBot.caption := None |} in
  let once :=
    GhostBot.handle_incoming_message sample_cipher GhostBot.all_well worker_1
      (learning_bot models.TRIAL (Some 90)) no_templates
      (says (u "hello friend")) 50 0 0 in
  let twice :=
    GhostBot.handle_incoming_message sample_cipher GhostBot.all_well once.1.1
      once.1.2 no_templates (says (u "thanks friend")) 60 0 0 in
  (models.user_patterns <$> crud.get_learning once.1.2 1)
    = Some (Some [(u "hello", 1); (u "friend", 1)])
  /\ (models.training_count <$> crud.get_learning once.1.2 1) = Some 1
  /\ (models.user_patterns <$> crud.get_learning twice.1.2 1)
     = Some (Some [(u "hello", 1); (u "friend", 1)])
  /\ (models.training_count <$> crud.get_learning twice.1.2 1) = Some 2
  /\ length (models.conversations twice.1.2) = 2%nat.
Proof. cbv zeta. repeat split; by vm_compute. Qed.

(** The effects, the worker and the Conversation rows that
    [send_and_save] leaves do not depend on the learning table. *)
Lemma send_and_save_agnostic (io : GhostBot.Io) (self : GhostBot.t)
    (db db' : models.Db) (bot : models.Bot)
    (learning learning' : option models.Learning)
    (message : GhostBot.Message) (reply : pystr) (now : Z) :
  models.conversations db = models.conversations db' ->
  let out := GhostBot.send_and_save io self db bot learning message reply now in
  let out' := GhostBot.send_and_save io self db' bot learning' message reply now in
  out.2 = out'.2 /\ out.1.1 = self /\ out'.1.1 = self
  /\ models.conversations out.1.2 = models.conversations out'.1.2.
Proof.
  intros Hconv. cbv zeta. unfold GhostBot.send_and_save.
  destruct (if default true (models.profile_clone bot) && GhostBot.is_cloning self
            then GhostBot.send_as_admin io (GhostBot.chat_id message) reply
            else GhostBot.answer io (GhostBot.chat_id message) reply)
    as [sent returned].
  destruct returned; cbn [negb]; [|done].
  destruct (GhostBot.goes_through io GhostBot.SaveConversation); cbn [negb]; [|done].
  destruct (GhostBot.goes_through io GhostBot.RefreshConversation
            && GhostBot.goes_through io GhostBot.CommitActivity); cbn [negb];
    cbn; by rewrite Hconv.
Qed.

(** X4.  A worker whose engine has the bot's learning data in its cache answers
    from the cache: whatever the learning table holds, the effects, the
    cache and the Conversation table come out the same.  So what the
    worker writes into the learning row does not reach its own replies. *)
Theorem stored_learning_is_not_read (decrypt_token : crud.cipher)
    (io : GhostBot.Io) (self : GhostBot.t) (db : models.Db)
    (ls : list models.Learning)
    (templates : AIEngine.bucket -> list pystr)
    (message : GhostBot.Message) (now : Z) (r r' : nat)
    (learning : AIEngine.LearningData) :
  GhostBot.ai_engine self !! GhostBot.bot_id self = Some learning ->
  let out :=
    GhostBot.handle_incoming_message decrypt_token io self db templates
      message now r r' in
  let out' :=
    GhostBot.handle_incoming_message decrypt_token io self (with_learnings db ls)
      templates message now r r' in
  out.2 = out'.2
  /\ GhostBot.ai_engine out.1.1 = GhostBot.ai_engine self
  /\ GhostBot.ai_engine out'.1.1 = GhostBot.ai_engine self
  /\ models.conversations out.1.2 = models.conversations out'.1.2.
Proof.
  intros Hc. cbv zeta.
  set (context := private_context self (GhostBot.from_user_id message)
                    (GhostBot.text_or_caption message)).
  destruct (generate_response_cache_hit
              (GhostBot.engine_env db templates)
              (GhostBot.engine_env (with_learnings db ls) templates)
              (GhostBot.ai_engine self) context learning r r' Hc eq_refl)
    as [Hsame Hcache].
  unfold GhostBot.handle_incoming_message.
  fold (private_context self (GhostBot.from_user_id message)
          (GhostBot.text_or_caption message)).
  fold context.
  replace (crud.get_bot decrypt_token (with_learnings db ls) (GhostBot.bot_id self))
    with (crud.get_bot decrypt_token db (GhostBot.bot_id self)) by done.
  replace (crud.get_active_subscription (with_learnings db ls) (GhostBot.bot_id self) now)
    with (crud.get_active_subscription db (GhostBot.bot_id self) now) by done.
  rewrite <- Hsame.
  destruct (AIEngine.generate_response _ _ context r r') as [reply cache'].
  cbn [snd] in Hcache. subst cache'.
  assert (Hsave : forall bot,
    let out :=
      GhostBot.send_and_save io (with_cache self (GhostBot.ai_engine self)) db bot
        (crud.get_learning db (GhostBot.bot_id self)) message reply now in
    let out' :=
      GhostBot.send_and_save io (with_cache self (GhostBot.ai_engine self))
        (with_learnings db ls) bot
        (crud.get_learning (with_learnings db ls) (GhostBot.bot_id self))
        message reply now in
    out.2 = out'.2
    /\ GhostBot.ai_engine out.1.1 = GhostBot.ai_engine self
    /\ GhostBot.ai_engine out'.1.1 = GhostBot.ai_engine self
    /\ models.conversations out.1.2 = models.conversations out'.1.2).
  { intros bot. cbv zeta.
    destruct (send_and_save_agnostic io (with_cache self (GhostBot.ai_engine self))
                db (with_learnings db ls) bot
                (crud.get_learning db (GhostBot.bot_id self))
                (crud.get_learning (with_learnings db ls) (GhostBot.bot_id self))
                message reply now eq_refl) as [H1 [H2 [H3 H4]]].
    by rewrite H1, H2, H3, H4. }
  fold (with_cache self (GhostBot.ai_engine self)).
  destruct (_ || _); [done|].
  destruct (crud.get_bot decrypt_token db (GhostBot.bot_id self)) as [bot|]; [|done].
  destruct (negb _); [done|].
  destruct (crud.get_active_subscription db (GhostBot.bot_id self) now).
  { apply Hsave. }
  destruct (bool_decide (models.plan_type bot = models.TRIAL)); [|apply Hsave].
  destruct (models.trial_expiry bot) as [expiry|]; [|done].
  destruct (expiry <? now); [done | apply Hsave].
Qed.

(** The statement above for a worker with a cached empty store and a
    storage that has since learned nothing or a fresh row. *)
Lemma stored_learning_is_not_read_witness :
  let out :=
    GhostBot.handle_incoming_message sample_cipher GhostBot.all_well warm_worker
      (one_bot models.TRIAL (Some 90)) no_templates stranger_says_hello 50 0 0 in
  let out' :=
    GhostBot.handle_incoming_message sample_cipher GhostBot.all_well warm_worker
      (with_learnings (one_bot models.TRIAL (Some 90)) [fresh_row]) no_templates
      stranger_says_hello 50 0 0 in
  out.2 = out'.2
  /\ GhostBot.ai_engine out.1.1 = GhostBot.ai_engine warm_worker
  /\ GhostBot.ai_engine out'.1.1 = GhostBot.ai_engine warm_worker
  /\ models.conversations out.1.2 = models.conversations out'.1.2.
Proof.
  apply (stored_learning_is_not_read sample_cipher GhostBot.all_well warm_worker
           (one_bot models.TRIAL (Some 90))
           [fresh_row] no_templates stranger_says_hello 50 0 0
           AIEngine.default_learning).
  reflexivity.
Defined.






(** With the cipher of the examples, two answered exchanges leave the
    stored token of the bot empty: the first one stores the decrypted
    token, which the second one fails to decrypt. *)
Example token_after_two_exchanges :
  let once :=
    GhostBot.handle_incoming_message sample_cipher GhostBot.all_well worker_1
      (one_bot models.TRIAL (Some 90)) no_templates stranger_says_hello 50 0 0 in
  let twice :=
    GhostBot.handle_incoming_message sample_cipher GhostBot.all_well once.1.1
      once.1.2 no_templates stranger_says_hello 60 0 0 in
  List.map models.bot_token (models.bots (one_bot models.TRIAL (Some 90)))
    = [u "enc:t"]
  /\ List.map models.bot_token (models.bots once.1.2) = [u "t"]
  /\ List.map models.bot_token (models.bots twice.1.2) = [[]].
Proof. cbv zeta. repeat split; by vm_compute. Qed.

(* ===================================================================== *)
(** ** Counting tokens                                                    *)
(* ===================================================================== *)

Lemma ai_count_fold (words : list pystr) (d : pydict) (token : pystr) :
  dict_get (fold_left AIEngine.count_word words d) token
  = dict_get d token + (if len token >? 2 then occurrences token words else 0).
Proof.
  revert d. unfold occurrences.
  induction words as [|w words IH]; intros d; cbn [fold_left List.filter].
  - cbn. destruct (len token >? 2); lia.
  - rewrite IH. unfold AIEngine.count_word.
    destruct (bool_decide (w = token)) eqn:Hw.
    + apply bool_decide_eq_true in Hw as ->.
      destruct (len token >? 2) eqn:Hlen.
      * rewrite dict_get_set, bool_decide_eq_true_2 by done. cbn [length]. lia.
      * lia.
    + apply bool_decide_eq_false in Hw.
      destruct (len w >? 2); [|lia].
      rewrite dict_get_set, bool_decide_eq_false_2 by done. lia.
Qed.

Lemma ghost_count_fold (words : list pystr) (d : pydict) (token : pystr) :
  dict_get (fold_left GhostBot.count_word words d) token
  = dict_get d token + (if len token >? 3 then occurrences token words else 0).
Proof.
  revert d. unfold occurrences.
  induction words as [|w words IH]; intros d; cbn [fold_left List.filter].
  - cbn. destruct (len token >? 3); lia.
  - rewrite IH. unfold GhostBot.count_word.
    destruct (bool_decide (w = token)) eqn:Hw.
    + apply bool_decide_eq_true in Hw as ->.
      destruct (len token >? 3) eqn:Hlen; [|lia].
      destruct (dict_mem d token) eqn:Hm; cbn [negb];
        rewrite dict_get_set, bool_decide_eq_true_2 by done; cbn [length];
        rewrite ?(dict_get_absent _ _ Hm); lia.
    + apply bool_decide_eq_false in Hw.
      destruct (len w >? 3); [|lia].
      destruct (dict_mem d w); cbn [negb];
        rewrite dict_get_set, bool_decide_eq_false_2 by done; lia.
Qed.

(** X6.  [update_patterns] counts exactly.  The inbound frequency of a token
    grows by the number of times the token occurs among the lower-cased,
    whitespace-split words of the user message when the token has more
    than two code points, and not at all otherwise; the outbound
    frequency likewise with the words of the reply. *)
Theorem update_patterns_counts (learning : AIEngine.LearningData)
    (user_message bot_response token : pystr) :
  let learning' := AIEngine.update_patterns learning user_message bot_response in
  dict_get (AIEngine.user_patterns learning') token
  = dict_get (AIEngine.user_patterns learning) token
    + (if len token >? 2
       then occurrences token (split (lower user_message)) else 0)
  /\ dict_get (AIEngine.response_patterns learning') token
     = dict_get (AIEngine.response_patterns learning) token
       + (if len token >? 2
          then occurrences token (split (lower bot_response)) else 0).
Proof.
  cbv zeta. unfold AIEngine.update_patterns. cbn.
  split; apply ai_count_fold.
Qed.

(** X7.  [update_learning_patterns] counts exactly, with its own cutoff: a
    token's frequency grows by its number of occurrences when it has more
    than three code points, and not at all otherwise.  Besides, the row
    keeps its bot and its accuracy and the known display name, and its
    training counter and interaction counter go up by one. *)
Theorem update_learning_patterns_counts (row : models.Learning)
    (user_message bot_response token : pystr) (now : Z) :
  let row' := GhostBot.update_learning_patterns row user_message bot_response now in
  dict_get (AIEngine.or_empty (models.user_patterns row')) token
  = dict_get (AIEngine.or_empty (models.user_patterns row)) token
    + (if len token >? 3
       then occurrences token (split (lower user_message)) else 0)
  /\ dict_get (AIEngine.or_empty (models.response_patterns row')) token
     = dict_get (AIEngine.or_empty (models.response_patterns row)) token
       + (if len token >? 3
          then occurrences token (split (lower bot_response)) else 0)
  /\ models.learning_bot_id row' = models.learning_bot_id row
  /\ models.accuracy_score row' = models.accuracy_score row
  /\ models.training_count row' = models.training_count row + 1
  /\ models.context_data row'
     = Some {| models.user_name :=
                 models.user_name (default models.empty_context (models.context_data row));
               models.last_interaction := Some now;
               models.total_interactions :=
                 models.total_interactions
                   (default models.empty_context (models.context_data row)) + 1 |}.
Proof.
  cbv zeta. unfold GhostBot.update_learning_patterns. cbn.
  split; [apply ghost_count_fold|]. split; [apply ghost_count_fold|]. done.
Qed.

Lemma dict_mem_set (d : pydict) (k k' : pystr) (v : Z) :
  dict_mem (dict_set d k v) k' = dict_mem d k' || bool_decide (k = k').
Proof.
  induction d as [|[k0 v0] d IH]; simpl.
  - by rewrite orb_false_r.
  - destruct (bool_decide (k0 = k)) eqn:Hk0; simpl.
    + apply bool_decide_eq_true in Hk0 as ->.
      destruct (bool_decide (k = k')); [done | by rewrite orb_false_r].
    + rewrite IH. by rewrite orb_assoc.
Qed.

Lemma ai_count_fold_mem (words : list pystr) (d : pydict) (token : pystr) :
  dict_mem (fold_left AIEngine.count_word words d) token
  = dict_mem d token || ((len token >? 2) && bool_decide (token ∈ words)).
Proof.
  revert d. induction words as [|w words IH]; intros d; cbn [fold_left].
  - rewrite bool_decide_eq_false_2 by apply not_elem_of_nil.
    by rewrite andb_false_r, orb_false_r.
  - rewrite IH. unfold AIEngine.count_word.
    destruct (decide (w = token)) as [->|Hne].
    + rewrite (bool_decide_eq_true_2 (token ∈ token :: words)) by left.
      destruct (len token >? 2) eqn:Hlen; cbn [andb].
      * rewrite dict_mem_set, bool_decide_eq_true_2 by done.
        by rewrite !orb_true_r.
      * by rewrite orb_false_r.
    + assert (bool_decide (token ∈ w :: words) = bool_decide (token ∈ words)) as ->.
      { apply bool_decide_ext. rewrite elem_of_cons. naive_solver. }
      destruct (len w >? 2); [|done].
      rewrite dict_mem_set, (bool_decide_eq_false_2 (w = token)) by done.
      by rewrite orb_false_r.
Qed.

(** X8.  The keys of the inbound map after [update_patterns] are the keys it
    had and the words of the message with more than two code points,
    nothing else; in particular no key is ever dropped. *)
Theorem update_patterns_keys (learning : AIEngine.LearningData)
    (user_message bot_response token : pystr) :
  let learning' := AIEngine.update_patterns learning user_message bot_response in
  dict_mem (AIEngine.user_patterns learning') token
  = dict_mem (AIEngine.user_patterns learning) token
    || ((len token >? 2) && bool_decide (token ∈ split (lower user_message)))
  /\ dict_mem (AIEngine.response_patterns learning') token
     = dict_mem (AIEngine.response_patterns learning) token
       || ((len token >? 2) && bool_decide (token ∈ split (lower bot_response))).
Proof.
  cbv zeta. unfold AIEngine.update_patterns. cbn.
  split; apply ai_count_fold_mem.
Qed.

(* ===================================================================== *)
(** ** Training from stored conversations                                 *)
(* ===================================================================== *)

(** The loop of [train_from_conversations] passes over every
    conversation that lacks a message or a reply. *)
Lemma train_loop_complete (conversations : list AIEngineTraining.conv)
    (learning : AIEngine.LearningData) :
  fold_left AIEngineTraining.train_step conversations learning
  = run_updates (complete_pairs conversations) learning.
Proof.
  revert learning. unfold run_updates, complete_pairs.
  induction conversations as [|c conversations IH]; intros learning; [done|].
  destruct c as [[[|x um]|] [[|y br]|]];
    cbn -[AIEngine.update_patterns]; apply IH.
Qed.

Lemma of_row_saved (row : models.Learning) (learning : AIEngine.LearningData) :
  AIEngine.of_row
    {| models.learning_bot_id := models.learning_bot_id row;
       models.user_patterns := Some (AIEngine.user_patterns learning);
       models.response_patterns := Some (AIEngine.response_patterns learning);
       models.context_data := Some (AIEngine.context_data learning);
       models.accuracy_score := Some (AIEngine.accuracy learning);
       models.training_count := models.training_count row;
       models.last_trained := models.last_trained row |}
  = learning.
Proof. by destruct learning. Qed.

(** X9.  Training reaches the cache and the row.  When the learning data of
    the bot can be had, [train_from_conversations] leaves in the cache the
    data updated with exactly the conversations that have both a message
    and a reply, in their order.  With the storage answering it returns
    [True]; a bot with a learning row then has that row holding the same
    patterns, context and accuracy, its training counter untouched, and a
    bot without a row has nothing stored.  With the storage failing it
    returns [False], and the cache holds the trained data all the same. *)
Theorem training_reaches_cache_and_row (E : AIEngine.Env)
    (c c1 : gmap Z AIEngine.LearningData) (db : models.Db) (bot_id : Z)
    (conversations : list AIEngineTraining.conv)
    (learning : AIEngine.LearningData) (e : exn) :
  AIEngine.get_learning_data E c bot_id = Ok (learning, c1) ->
  let trained := run_updates (complete_pairs conversations) learning in
  AIEngineTraining.train_from_conversations E c (Raise e) bot_id conversations
    = (false, <[bot_id := trained]> c1, Raise e)
  /\ exists db',
       AIEngineTraining.train_from_conversations E c (Ok db) bot_id conversations
         = (true, <[bot_id := trained]> c1, Ok db')
       /\ match crud.get_learning db bot_id with
          | Some row =>
              exists row',
                crud.get_learning db' bot_id = Some row'
                /\ AIEngine.of_row row' = trained
                /\ models.training_count row' = models.training_count row
          | None => db' = db
          end.
Proof.
  intros Hget. cbv zeta. unfold AIEngineTraining.train_from_conversations.
  rewrite Hget, train_loop_complete. split; [done|].
  eexists. split; [done|]. unfold AIEngineTraining.save.
  destruct (crud.get_learning db bot_id) as [row|] eqn:Hrow; [|done].
  eexists. split; [|split; [apply of_row_saved | done]].
  unfold crud.get_learning, crud.first in *. cbn [models.learnings].
  pose proof (get_learning_head db _ _ Hrow) as Hid.
  set (row' := {| models.learning_bot_id := models.learning_bot_id row |}).
  assert (models.learning_bot_id row' = bot_id) as Hid' by done.
  rewrite <- Hid' in Hrow |- *. by eapply put_learning_get.
Qed.

(** The statement above for a bot with a fresh row and two conversations,
    one of them without a reply. *)
Lemma training_reaches_cache_and_row_witness :
  let conversations :=
    [ {| AIEngineTraining.message := Some (u "where is my order");
         AIEngineTraining.response := Some (u "coming soon") |};
      {| AIEngineTraining.message := Some (u "hello again");
         AIEngineTraining.response := None |} ] in
  let E := GhostBot.engine_env (learning_bot models.TRIAL None) no_templates in
  let trained :=
    run_updates (complete_pairs conversations) (AIEngine.of_row fresh_row) in
  AIEngineTraining.train_from_conversations E ∅ (Raise StorageError) 1 conversations
    = (false, <[1 := trained]> (<[1 := AIEngine.of_row fresh_row]> ∅),
       Raise StorageError)
  /\ exists db',
       AIEngineTraining.train_from_conversations E ∅
         (Ok (learning_bot models.TRIAL None)) 1 conversations
         = (true, <[1 := trained]> (<[1 := AIEngine.of_row fresh_row]> ∅), Ok db')
       /\ match crud.get_learning (learning_bot models.TRIAL None) 1 with
          | Some row =>
              exists row',
                crud.get_learning db' 1 = Some row'
                /\ AIEngine.of_row row' = trained
                /\ models.training_count row' = models.training_count row
          | None => db' = learning_bot models.TRIAL None
          end.
Proof.
  cbv zeta.
  apply (training_reaches_cache_and_row
           (GhostBot.engine_env (learning_bot models.TRIAL None) no_templates)
           ∅ (<[1 := AIEngine.of_row fresh_row]> ∅)
           (learning_bot models.TRIAL None) 1 _ (AIEngine.of_row fresh_row)
           StorageError).
  reflexivity.
Defined.

(* ===================================================================== *)
(** ** More on the runtime manager                                        *)
(* ===================================================================== *)

Import GhostBotManagerOps.

Lemma stop_fold_lookup (keys : list Z) (self : t) (k : Z) :
  active_bots (fold_left stop_bot keys self) !! k
  = if bool_decide (k ∈ keys) then None else active_bots self !! k.
Proof.
  revert self. induction keys as [|key keys IH]; intros self; cbn [fold_left].
  - by rewrite bool_decide_eq_false_2 by apply not_elem_of_nil.
  - rewrite IH, stop_bot_lookup.
    destruct (decide (k = key)) as [->|Hne].
    + rewrite (bool_decide_eq_true_2 (key ∈ key :: keys)) by left.
      by destruct (bool_decide _).
    + assert (bool_decide (k ∈ key :: keys) = bool_decide (k ∈ keys)) as ->; [|done].
      apply bool_decide_ext. rewrite elem_of_cons. naive_solver.
Qed.

Lemma stop_fold_errors (keys : list Z) (self : t) :
  errors (fold_left stop_bot keys self) = errors self.
Proof.
  revert self. induction keys as [|key keys IH]; intros self; [done|].
  cbn [fold_left]. by rewrite IH, stop_bot_errors.
Qed.

Lemma registry_keys (self : t) (k : Z) :
  k ∈ (map_to_list (active_bots self)).*1 <-> is_Some (active_bots self !! k).
Proof.
  rewrite list_elem_of_fmap. split.
  - intros [[k' w] [-> H]]. apply elem_of_map_to_list in H. by exists w.
  - intros [w H]. exists (k, w). split; [done|]. by apply elem_of_map_to_list.
Qed.

(** X10.  After [stop_all] no worker is left, whatever the registry held;
    nothing is logged and [running] is off. *)
Theorem stop_all_leaves_none (self : t) :
  active_bots (stop_all self).1 = ∅
  /\ errors (stop_all self).1 = errors self
  /\ (stop_all self).2 = false.
Proof.
  unfold stop_all. cbn [fst snd]. split; [|split; [apply stop_fold_errors | done]].
  apply map_eq. intros k. rewrite stop_fold_lookup, lookup_empty.
  case_bool_decide as Hk; [done|].
  destruct (active_bots self !! k) as [w|] eqn:Hw; [|done].
  destruct Hk. apply registry_keys. by exists w.
Qed.

(** The worker [start_bot] makes for a row. *)
Lemma start_bot_lookup (ok : starter) (self : t) (bot : models.Bot) (k : Z) :
  active_bots (start_bot ok self bot) !! k
  = match active_bots self !! k with
    | Some w => Some w
    | None =>
        if bool_decide (k = models.id bot) && ok bot
        then Some {| w_token := models.bot_token bot;
                     w_bot_id := models.id bot;
                     w_admin_chat_id := models.admin_chat_id bot |}
        else None
    end.
Proof.
  unfold start_bot.
  destruct (active_bots self !! models.id bot) as [w0|] eqn:H0.
  - destruct (active_bots self !! k) as [w|] eqn:Hk; [done|].
    rewrite bool_decide_eq_false_2; [done|]. intros ->. congruence.
  - destruct (ok bot); cbn [active_bots].
    + destruct (decide (k = models.id bot)) as [->|Hne].
      * by rewrite lookup_insert_eq, H0, bool_decide_eq_true_2.
      * rewrite lookup_insert_ne by done.
        rewrite bool_decide_eq_false_2 by done. by destruct (_ !! k).
    + rewrite andb_false_r. by destruct (_ !! k).
Qed.

(** X11.  [restart_bot] on one bot.  Afterwards the bot has a worker exactly
    when the storage has it with status active and the start went
    through, and that worker is a new one made from the stored row; a bot
    that is gone or not active, or whose start fails, is left stopped.
    No other bot's worker is touched. *)
Theorem restart_bot_refreshes (decrypt_token : crud.cipher)
    (ok : starter) (self : t) (db : models.Db)
    (bot_id : Z) :
  active_bots (restart_bot decrypt_token ok self db bot_id) !! bot_id
  = match crud.get_bot decrypt_token db bot_id with
    | Some bot =>
        if bool_decide (models.status bot = models.ACTIVE) && ok bot
        then Some {| w_token := models.bot_token bot;
                     w_bot_id := bot_id;
                     w_admin_chat_id := models.admin_chat_id bot |}
        else None
    | None => None
    end
  /\ forall k, k <> bot_id ->
       active_bots (restart_bot decrypt_token ok self db bot_id) !! k = active_bots self !! k.
Proof.
  unfold restart_bot.
  destruct (crud.get_bot decrypt_token db bot_id) as [bot|] eqn:Hbot.
  - pose proof (get_bot_head decrypt_token db _ _ Hbot) as Hid.
    destruct (bool_decide (models.status bot = models.ACTIVE)); cbn [andb].
    + split.
      * rewrite start_bot_lookup, stop_bot_lookup, decide_True by done.
        by rewrite Hid, bool_decide_eq_true_2.
      * intros k Hk. rewrite start_bot_lookup, stop_bot_lookup, decide_False by done.
        rewrite bool_decide_eq_false_2 by congruence. by destruct (_ !! k).
    + split.
      * by rewrite stop_bot_lookup, decide_True.
      * intros k Hk. by rewrite stop_bot_lookup, decide_False.
  - split.
    + by rewrite stop_bot_lookup, decide_True.
    + intros k Hk. by rewrite stop_bot_lookup, decide_False.
Qed.

(** The second loop of a pass, with or without failures: a worker that is
    there stays the same one, a listed bot whose start goes through has a
    worker afterwards, and every new worker belongs to a listed bot. *)
Lemma start_loop_lookup (ok : starter) (bots : list models.Bot) (self : t) :
  let self' := fold_left (start_pass ok) bots self in
  (forall k w, active_bots self !! k = Some w -> active_bots self' !! k = Some w)
  /\ (forall bot, bot ∈ bots -> ok bot = true ->
        is_Some (active_bots self' !! models.id bot))
  /\ (forall k, is_Some (active_bots self' !! k) ->
        is_Some (active_bots self !! k) \/ k ∈ List.map models.id bots).
Proof.
  revert self. induction bots as [|bot bots IH]; intros self; cbv zeta.
  - cbn. split; [done|]. split; [|by left].
    intros bot H. by apply elem_of_nil in H.
  - cbn [fold_left List.map].
    destruct (IH (start_pass ok self bot)) as [Hkeep [Hnew Honly]].
    assert (Hstep : forall k,
               active_bots (start_pass ok self bot) !! k
               = match active_bots self !! k with
                 | Some w => Some w
                 | None =>
                     if bool_decide (k = models.id bot) && ok bot
                     then Some {| w_token := models.bot_token bot;
                                  w_bot_id := models.id bot;
                                  w_admin_chat_id := models.admin_chat_id bot |}
                     else None
                 end).
    { intros k. unfold start_pass. case_bool_decide as Hp; cbn [negb].
      - destruct Hp as [w0 Hw0]. destruct (active_bots self !! k) eqn:Hk; [done|].
        rewrite bool_decide_eq_false_2; [done|]. intros ->. congruence.
      - apply start_bot_lookup. }
    split; [|split].
    + intros k w Hk. apply Hkeep. by rewrite Hstep, Hk.
    + intros b Hb Hok. apply elem_of_cons in Hb as [->|Hb]; [|by apply Hnew].
      assert (is_Some (active_bots (start_pass ok self bot) !! models.id bot))
        as [w Hw].
      { rewrite Hstep. destruct (active_bots self !! models.id bot); [done|].
        by rewrite bool_decide_eq_true_2, Hok. }
      exists w. by apply Hkeep.
    + intros k Hk. destruct (Honly k Hk) as [H|H]; [|by right; right].
      rewrite Hstep in H. destruct (active_bots self !! k) eqn:Hself; [by left|].
      destruct (decide (k = models.id bot)) as [->|Hne]; [by right; left|].
      rewrite bool_decide_eq_false_2 in H by done. by destruct H.
Qed.

Lemma monitor_pass_lookup (decrypt_token : crud.cipher)
    (ok : starter) (self : t) (db : models.Db) :
  let self' := monitor_pass decrypt_token ok self (Ok db) in
  (forall k, k ∈ live self' -> k ∈ List.map models.id (crud.get_active_bots decrypt_token db))
  /\ (forall bot, bot ∈ crud.get_active_bots decrypt_token db ->
        ok bot = true \/ models.id bot ∈ live self ->
        models.id bot ∈ live self')
  /\ (forall k w, k ∈ List.map models.id (crud.get_active_bots decrypt_token db) ->
        active_bots self !! k = Some w -> active_bots self' !! k = Some w).
Proof.
  cbv zeta. unfold monitor_pass, live.
  set (ids := List.map models.id (crud.get_active_bots decrypt_token db)).
  destruct (stop_loop ids (map_to_list (active_bots self)).*1 self) as [_ Hl].
  cbv zeta in Hl.
  set (stopped := fold_left _ (map_to_list (active_bots self)).*1 self) in *.
  destruct (start_loop_lookup ok (crud.get_active_bots decrypt_token db) stopped)
    as [Hkeep [Hnew Honly]]. cbv zeta in Hkeep, Hnew, Honly.
  assert (Hstay : forall k w, k ∈ ids -> active_bots self !! k = Some w ->
                              active_bots stopped !! k = Some w).
  { intros k w Hk Hw. rewrite Hl, bool_decide_eq_false_2; [done|]. by intros []. }
  split; [|split].
  - intros k Hk. apply elem_of_dom in Hk.
    destruct (Honly k Hk) as [H|H]; [|done].
    rewrite Hl in H. case_bool_decide as Hc; [by destruct H|].
    destruct (decide (k ∈ ids)) as [|Hn]; [done|]. destruct Hc.
    split; [|done]. by apply registry_keys.
  - intros bot Hbot [Hok | Hlive]; apply elem_of_dom.
    + by apply Hnew.
    + apply elem_of_dom in Hlive as [w Hw]. exists w. apply Hkeep, Hstay; [|done].
      apply list_elem_of_In, in_map, list_elem_of_In, Hbot.
  - intros k w Hk Hw. by apply Hkeep, Hstay.
Qed.

(** X12.  A pass that reads the storage keeps its promises whether or not some
    start fails.  Afterwards every worker belongs to a bot that is active
    in storage; every active bot whose start goes through, or that had a
    worker, has one; and a worker of a bot that stays active is the very
    same as before, so a pass never restarts a running bot. *)
Theorem pass_isolates_failures (decrypt_token : crud.cipher)
    (ok : starter) (self : t) (db : models.Db) :
  let self' := monitor_pass decrypt_token ok self (Ok db) in
  (forall k, k ∈ live self' -> k ∈ List.map models.id (crud.get_active_bots decrypt_token db))
  /\ (forall bot, bot ∈ crud.get_active_bots decrypt_token db ->
        ok bot = true \/ models.id bot ∈ live self ->
        models.id bot ∈ live self')
  /\ (forall k w, k ∈ List.map models.id (crud.get_active_bots decrypt_token db) ->
        active_bots self !! k = Some w -> active_bots self' !! k = Some w).
Proof. apply monitor_pass_lookup. Qed.

(** Of two active bots one cannot be started; the other one is. *)
Example pass_isolates_failures_example :
  let db :=
    {| models.bots := [bot_1 models.TRIAL (Some 90);
                       {| models.id := 2; models.bot_token := u "x";
                          models.admin_chat_id := 6; models.bot_name := u "c";
                          models.plan_type := models.TRIAL;
                          models.status := models.ACTIVE;
                          models.profile_clone := None; models.last_active := None;
                          models.total_messages := 0;
                          models.trial_expiry := Some 90 |}];
       models.subscriptions := []; models.learnings := [];
       models.conversations := [] |} in
  let ok : starter := fun bot => models.id bot =? 2 in
  2 ∈ live (monitor_pass sample_cipher ok no_workers (Ok db)).
Proof.
  cbv zeta.
  match goal with
  | |- _ ∈ live (monitor_pass ?dec ?ok ?self (Ok ?db)) =>
      destruct (monitor_pass_lookup dec ok self db) as [_ [H _]];
      apply (H (List.nth 1 (crud.get_active_bots dec db) (bot_1 models.TRIAL None)))
  end.
  - vm_compute. right. left.
  - left. vm_compute. reflexivity.
Qed.

Lemma fold_left_skip {A B} (f : A -> B -> A) (l : list B) (a : A) :
  (forall b, b ∈ l -> f a b = a) -> fold_left f l a = a.
Proof.
  induction l as [|b l IH]; intros H; [done|]. cbn [fold_left].
  rewrite (H b) by left. apply IH. intros b' Hb'. apply H. by right.
Qed.

(** What a pass that logs nothing leaves in the registry. *)
Lemma clean_pass_registry (decrypt_token : crud.cipher)
    (ok : starter) (self : t) (db : models.Db) (k : Z) :
  errors (monitor_pass decrypt_token ok self (Ok db)) = errors self ->
  is_Some (active_bots (monitor_pass decrypt_token ok self (Ok db)) !! k)
  <-> k ∈ List.map models.id (crud.get_active_bots decrypt_token db).
Proof.
  intros Hclean. split.
  - intros H. apply (monitor_pass_lookup decrypt_token ok self db). by apply elem_of_dom.
  - intros Hk. unfold monitor_pass in *.
    set (ids := List.map models.id (crud.get_active_bots decrypt_token db)) in *.
    destruct (stop_loop ids (map_to_list (active_bots self)).*1 self) as [He _].
    cbv zeta in He.
    set (stopped := fold_left _ (map_to_list (active_bots self)).*1 self) in *.
    apply (elem_of_dom (D := gset Z)). rewrite start_loop by congruence.
    apply elem_of_union. left. by apply elem_of_list_to_set.
Qed.

(** X13.  A pass that logged nothing has reached a fixed point: a second pass
    over the same storage, whatever its starts would do, attempts none,
    stops nothing and logs nothing; the manager stays exactly as it is. *)
Theorem clean_pass_is_stable (decrypt_token : crud.cipher)
    (ok ok' : starter) (self : t) (db : models.Db) :
  errors (monitor_pass decrypt_token ok self (Ok db)) = errors self ->
  monitor_pass decrypt_token ok' (monitor_pass decrypt_token ok self (Ok db)) (Ok db)
  = monitor_pass decrypt_token ok self (Ok db).
Proof.
  intros Hclean.
  pose proof (fun k => clean_pass_registry decrypt_token ok self db k Hclean) as Hreg.
  set (self1 := monitor_pass decrypt_token ok self (Ok db)) in *.
  unfold monitor_pass at 1.
  rewrite (fold_left_skip _ (map_to_list (active_bots self1)).*1).
  - apply fold_left_skip. intros bot Hbot. unfold start_pass.
    rewrite bool_decide_eq_true_2; [done|].
    apply Hreg, list_elem_of_In, in_map, list_elem_of_In, Hbot.
  - intros key Hkey. rewrite bool_decide_eq_true_2; [done|].
    apply Hreg, registry_keys, Hkey.
Qed.

(** The statement above for a manager without workers and one active bot. *)
Lemma clean_pass_is_stable_witness :
  monitor_pass sample_cipher (fun _ => false)
    (monitor_pass sample_cipher always no_workers (Ok (one_bot models.TRIAL (Some 90))))
    (Ok (one_bot models.TRIAL (Some 90)))
  = monitor_pass sample_cipher always no_workers (Ok (one_bot models.TRIAL (Some 90))).
Proof.
  apply (clean_pass_is_stable sample_cipher always (fun _ => false) no_workers
           (one_bot models.TRIAL (Some 90))).
  vm_compute. reflexivity.
Defined.

Lemma get_bot_active_listed (decrypt_token : crud.cipher) (db : models.Db) (k : Z)
    (bot : models.Bot) :
  crud.get_bot decrypt_token db k = Some bot -> models.status bot = models.ACTIVE ->
  k ∈ List.map models.id (crud.get_active_bots decrypt_token db).
Proof.
  rewrite get_bot_row. intros Hbot Hst. apply active_ids.
  destruct (crud.bot_row db k) as [row|] eqn:Hrow; [|done].
  injection Hbot as <-. exists row.
  destruct (decrypted_columns decrypt_token row) as [_ [Hst' _]].
  split; [|split; [by eapply bot_row_head | by rewrite <- Hst']].
  unfold crud.bot_row, crud.first in Hrow.
  by apply head_Some_elem_of, list_elem_of_In, filter_In in Hrow
    as [?%list_elem_of_In _].
Qed.

(** X14.  After a pass that logged nothing, [get_bot_status] never reports a
    stored status of active: a bot is reported running exactly when the
    storage has it active, and for any other bot the report is its stored
    status, which is not active, or that it is not found. *)
Theorem status_after_clean_pass (decrypt_token : crud.cipher)
    (ok : starter) (self : t) (db : models.Db)
    (bot_id : Z) :
  errors (monitor_pass decrypt_token ok self (Ok db)) = errors self ->
  match get_bot_status decrypt_token (monitor_pass decrypt_token ok self (Ok db)) db bot_id with
  | Running => bot_id ∈ List.map models.id (crud.get_active_bots decrypt_token db)
  | Stored status =>
      status <> models.ACTIVE
      /\ (bot_id ∉ List.map models.id (crud.get_active_bots decrypt_token db))
      /\ exists bot, crud.get_bot decrypt_token db bot_id = Some bot /\ models.status bot = status
  | NotFound =>
      crud.get_bot decrypt_token db bot_id = None
      /\ bot_id ∉ List.map models.id (crud.get_active_bots decrypt_token db)
  end.
Proof.
  intros Hclean.
  pose proof (clean_pass_registry decrypt_token ok self db bot_id Hclean) as Hreg.
  unfold get_bot_status.
  destruct (active_bots (monitor_pass decrypt_token ok self (Ok db)) !! bot_id) as [w|] eqn:Hw.
  - apply Hreg. by exists w.
  - assert (bot_id ∉ List.map models.id (crud.get_active_bots decrypt_token db)) as Hn.
    { intros H. apply Hreg in H as [w H]. congruence. }
    destruct (crud.get_bot decrypt_token db bot_id) as [bot|] eqn:Hbot; [|done].
    split; [|split; [done | by exists bot]].
    intros Hst. apply Hn. by eapply get_bot_active_listed.
Qed.

(** The statement above for a manager without workers and one active bot. *)
Lemma status_after_clean_pass_witness :
  match get_bot_status sample_cipher
          (monitor_pass sample_cipher always no_workers (Ok (one_bot models.TRIAL (Some 90))))
          (one_bot models.TRIAL (Some 90)) 1 with
  | Running => 1 ∈ List.map models.id
                     (crud.get_active_bots sample_cipher (one_bot models.TRIAL (Some 90)))
  | Stored status =>
      status <> models.ACTIVE
      /\ (1 ∉ List.map models.id
                (crud.get_active_bots sample_cipher (one_bot models.TRIAL (Some 90))))
      /\ exists bot,
           crud.get_bot sample_cipher (one_bot models.TRIAL (Some 90)) 1 = Some bot
           /\ models.status bot = status
  | NotFound =>
      crud.get_bot sample_cipher (one_bot models.TRIAL (Some 90)) 1 = None
      /\ 1 ∉ List.map models.id
               (crud.get_active_bots sample_cipher (one_bot models.TRIAL (Some 90)))
  end.
Proof.
  apply (status_after_clean_pass sample_cipher always no_workers
           (one_bot models.TRIAL (Some 90)) 1).
  vm_compute. reflexivity.
Defined.

Lemma start_pass_start (ok : starter) (self : t) (bot : models.Bot) :
  start_pass ok self bot = start_bot ok self bot.
Proof.
  unfold start_pass, start_bot.
  destruct (active_bots self !! models.id bot) as [w|] eqn:Hw.
  - by rewrite bool_decide_eq_true_2.
  - rewrite bool_decide_eq_false_2; [done|]. by intros [].
Qed.

(** The loop of [load_active_bots] is the second loop of a pass, run over
    the active bots whose decrypted token is not empty. *)
Lemma load_as_start_loop (decrypt_token : crud.cipher) (ok : starter) (self : t)
    (db : models.Db) :
  load_active_bots decrypt_token ok self db
  = fold_left (start_pass ok)
      (List.filter (fun b => truthy (models.bot_token b))
         (crud.get_active_bots decrypt_token db))
      self.
Proof.
  unfold load_active_bots.
  assert (H : Forall (fun b => models.status b = models.ACTIVE)
                (crud.get_active_bots decrypt_token db)).
  { apply Forall_forall. intros b Hb. unfold crud.get_active_bots in Hb.
    apply list_elem_of_In, in_map_iff in Hb as [row [<- Hrow]].
    apply filter_In in Hrow as [_ Hrow]. apply bool_decide_eq_true in Hrow.
    destruct (decrypted_columns decrypt_token row) as [_ [Hst _]]. by rewrite Hst. }
  revert self. induction H as [|b bots Hb _ IH]; intros self; [done|].
  cbn [fold_left List.filter]. unfold load_pass at 2.
  rewrite bool_decide_eq_true_2 by done. cbn [andb].
  destruct (truthy (models.bot_token b)).
  - cbn [fold_left]. by rewrite start_pass_start, IH.
  - apply IH.
Qed.

(** X15.  [load_active_bots], when it logs nothing, adds a worker for
    exactly the bots that are active in storage and whose token, as
    [get_active_bots] hands it over, is not empty, and keeps the workers
    that were there.  So an active bot whose stored token is empty or does
    not decrypt is skipped without a trace, and is left for the monitor,
    which does not look at the token. *)
Theorem load_skips_empty_tokens (decrypt_token : crud.cipher) (ok : starter)
    (self : t) (db : models.Db) (k : Z) :
  errors (load_active_bots decrypt_token ok self db) = errors self ->
  k ∈ live (load_active_bots decrypt_token ok self db)
  <-> (k ∈ live self
       \/ exists b, b ∈ models.bots db /\ models.id b = k
                    /\ models.status b = models.ACTIVE
                    /\ models.bot_token b <> []
                    /\ decrypt_token (models.bot_token b) <> []).
Proof.
  rewrite load_as_start_loop. intros Hclean. unfold live.
  rewrite start_loop by done.
  rewrite elem_of_union, elem_of_list_to_set, list_elem_of_In, in_map_iff.
  split.
  - intros [[b' [Hid Hb]] | H]; [right | by left].
    apply filter_In in Hb as [Hb Htok]. unfold crud.get_active_bots in Hb.
    apply in_map_iff in Hb as [b [<- Hb]].
    apply filter_In in Hb as [Hb Hst]. exists b.
    destruct (decrypted_columns decrypt_token b) as [Hid' _].
    split; [by apply list_elem_of_In|]. split; [by rewrite <- Hid'|].
    split; [by apply bool_decide_eq_true in Hst|].
    unfold crud.decrypted in Htok.
    destruct (models.bot_token b) as [|c s] eqn:Hs; cbn [truthy] in Htok;
      [by rewrite Hs in Htok|].
    cbn [models.bot_token] in Htok. split; [done|].
    by destruct (decrypt_token (c :: s)).
  - intros [H | [b [Hb [Hid [Hst [Htok Hdec]]]]]]; [by right | left].
    exists (crud.decrypted decrypt_token b).
    destruct (decrypted_columns decrypt_token b) as [Hid' _].
    split; [by rewrite Hid'|]. apply filter_In. split.
    + unfold crud.get_active_bots. apply in_map, filter_In.
      split; [by apply list_elem_of_In | by apply bool_decide_eq_true].
    + unfold crud.decrypted.
      destruct (models.bot_token b) as [|c s]; [done|]. cbn.
      by destruct (decrypt_token (c :: s)).
Qed.

(** The statement above for a manager without workers and one active bot. *)
Lemma load_skips_empty_tokens_witness :
  1 ∈ live (load_active_bots sample_cipher always no_workers
              (one_bot models.TRIAL (Some 90)))
  <-> (1 ∈ live no_workers
       \/ exists b, b ∈ models.bots (one_bot models.TRIAL (Some 90))
                    /\ models.id b = 1
                    /\ models.status b = models.ACTIVE
                    /\ models.bot_token b <> []
                    /\ sample_cipher (models.bot_token b) <> []).
Proof.
  apply (load_skips_empty_tokens sample_cipher always no_workers
           (one_bot models.TRIAL (Some 90)) 1).
  vm_compute. reflexivity.
Defined.

(** A bot whose stored token does not decrypt: loading skips it and logs
    nothing, the monitor tries to start it. *)
Example undecryptable_token_is_skipped :
  let db :=
    {| models.bots :=
         [ {| models.id := 3; models.bot_token := u "t"; models.admin_chat_id := 5;
              models.bot_name := u "b"; models.plan_type := models.TRIAL;
              models.status := models.ACTIVE; models.profile_clone := None;
              models.last_active := None; models.total_messages := 0;
              models.trial_expiry := Some 90 |} ];
       models.subscriptions := []; models.learnings := [];
       models.conversations := [] |} in
  load_active_bots sample_cipher always no_workers db = no_workers
  /\ 3 ∈ live (monitor_pass sample_cipher always no_workers (Ok db)).
Proof. cbv zeta. split; [by vm_compute|]. by vm_compute. Qed.

(* ===================================================================== *)
(** ** More on the languages                                              *)
(* ===================================================================== *)

Ltac cp_to_prop :=
  bool_to_prop; bool_to_prop; bool_to_prop; rewrite ?N.ltb_lt, ?N.ltb_ge in *.

Lemma plain_lower (c : cp) : plain_bangla_cp c = true -> Re.lower_cp c = c.
Proof.
  unfold plain_bangla_cp, LanguageDetect.latin_cp, Re.lower_cp. intros H.
  repeat match goal with
         | |- context [if ?b then _ else _] => destruct b eqn:?
         end; try reflexivity; cp_to_prop; lia.
Qed.

Lemma latin_lower (k : cp) :
  (LanguageDetect.latin_cp k || (k =? 58) || (k =? 59) || (k =? 60))%N = true ->
  ((97 <= Re.lower_cp k <= 122) \/ Re.lower_cp k = 58 \/ Re.lower_cp k = 59 \/ Re.lower_cp k = 60)%N.
Proof.
  unfold LanguageDetect.latin_cp, Re.lower_cp. intros H.
  repeat match goal with
         | |- context [if ?b then _ else _] => destruct b eqn:?
         end; bool_to_prop; lia.
Qed.

Lemma plain_never_matches (k c : cp) :
  (LanguageDetect.latin_cp k || (k =? 58) || (k =? 59) || (k =? 60))%N = true ->
  plain_bangla_cp c = true -> Re.ci_eq k c = false.
Proof.
  intros Hk Hc. unfold Re.ci_eq. rewrite (plain_lower c Hc).
  apply latin_lower in Hk. apply N.eqb_neq.
  unfold plain_bangla_cp, LanguageDetect.latin_cp in Hc. cp_to_prop. lia.
Qed.

(** [re.sub] with a pattern that matches nowhere gives the subject back. *)
Lemma sub_aux_no_match (m : Re.matcher) (repl : pystr) (before : option cp)
    (s : pystr) :
  (forall b c t, c ∈ s -> m b (c :: t) = None) ->
  Re.sub_aux m repl before 0 s = s.
Proof.
  revert before. induction s as [|c s IH]; intros before H; [done|].
  cbn [Re.sub_aux]. rewrite (H before c s) by left.
  f_equal. apply IH. intros b c' t Hc'. apply H. by right.
Qed.

Lemma latin_headed_no_match (key repl text : pystr) :
  latin_headed key = true -> forallb plain_bangla_cp text = true ->
  Re.sub (Re.lit_ci key) repl text = text
  /\ Re.sub (Re.word_ci key) repl text = text.
Proof.
  intros Hkey Htext. destruct key as [|k key]; [done|]. cbn [latin_headed] in Hkey.
  rewrite forallb_forall in Htext.
  split; apply sub_aux_no_match; intros b c t Hc;
    apply list_elem_of_In, Htext in Hc;
    unfold Re.lit_ci, Re.word_ci; cbn [truthy Re.ci_startswith andb];
    by rewrite (plain_never_matches k c Hkey Hc).
Qed.

(** X16.  Text that is already Bangla passes through [_to_bangla] untouched:
    a text made of code points of the Bengali block and of Basic Latin
    blanks, digits and punctuation other than [:], [;] and [<] comes back
    as it went in, from [_to_bangla] and so from [translate] to any
    language. *)
Theorem bangla_text_is_kept (text : pystr) (target_lang : pyval) :
  forallb plain_bangla_cp text = true ->
  LanguageManager._to_bangla text = text
  /\ LanguageManager.translate text target_lang = text.
Proof.
  intros Htext.
  assert (H1 : forallb (fun kv => latin_headed (fst kv))
                 LanguageManager.BANGLISH_TO_BANGLA = true)
    by (vm_compute; reflexivity).
  assert (H2 : forallb (fun kv => latin_headed (fst kv))
                 LanguageManager.ENGLISH_TO_BANGLA = true)
    by (vm_compute; reflexivity).
  rewrite forallb_forall in H1, H2.
  assert (Hto : LanguageManager._to_bangla text = text).
  { unfold LanguageManager._to_bangla. destruct (negb (truthy text)); [done|].
    rewrite (fold_left_skip LanguageManager.emoticon_step).
    2:{ intros [k v] Hkv. apply list_elem_of_In, H1 in Hkv.
        unfold LanguageManager.emoticon_step.
        destruct (startswith _ _); [|done].
        by apply latin_headed_no_match. }
    rewrite (fold_left_skip LanguageManager.banglish_step).
    2:{ intros [k v] Hkv. apply list_elem_of_In, H1 in Hkv.
        unfold LanguageManager.banglish_step.
        destruct (negb _); [|done].
        by apply latin_headed_no_match. }
    apply fold_left_skip. intros [k v] Hkv. apply list_elem_of_In, H2 in Hkv.
    unfold LanguageManager.english_step. by apply latin_headed_no_match. }
  split; [done|]. unfold LanguageManager.translate.
  destruct (pyval_eq_str target_lang _); [done|].
  by destruct (pyval_eq_str target_lang _).
Qed.

(** The statement above at a predefined greeting. *)
Lemma bangla_text_is_kept_witness :
  LanguageManager._to_bangla (u "আপনার সাথে চ্যাট করছি!") = u "আপনার সাথে চ্যাট করছি!"
  /\ LanguageManager.translate (u "আপনার সাথে চ্যাট করছি!") (PStr (u "bangla"))
     = u "আপনার সাথে চ্যাট করছি!".
Proof.
  apply (bangla_text_is_kept (u "আপনার সাথে চ্যাট করছি!") (PStr (u "bangla"))).
  vm_compute. reflexivity.
Defined.

Lemma filter_existsb {A} (f : A -> bool) (l : list A) :
  (0 <? Z.of_nat (length (List.filter f l))) = existsb f l.
Proof.
  induction l as [|x l IH]; [done|]. cbn [List.filter existsb].
  destruct (f x); [|done]. cbn [orb]. apply Z.ltb_lt.
  rewrite length_cons. lia.
Qed.

Lemma banglish_has_word (words : list pystr) :
  (Z.of_nat (length words) >? 0)
  && py_gt (py_truediv (Z.of_nat (length (List.filter LanguageDetect.banglish_word words)))
              (Z.of_nat (length words))) (3 # 10) = true ->
  existsb LanguageDetect.banglish_word words = true.
Proof.
  intros H. apply andb_true_iff in H as [Hn Hgt].
  apply py_gt_lt, truediv_gt_threshold in Hgt; [|lia].
  rewrite <- filter_existsb. apply Z.ltb_lt. lia.
Qed.

(** X17.  The three tests and [detect_language] agree, up to one gap.  Bangla
    is detected exactly when [is_bangla] holds; English or Banglish is
    detected exactly when [is_english] holds; a text that [is_banglish]
    accepts is never Bangla, and is detected as Banglish whenever it has a
    Basic Latin letter at all. *)
Theorem language_tests_agree (text : pystr) :
  (LanguageDetect.is_bangla text = true
   <-> LanguageDetect.detect_language text = LanguageDetect.BANGLA)
  /\ (LanguageDetect.is_english text = true
      <-> (LanguageDetect.detect_language text = LanguageDetect.ENGLISH
           \/ LanguageDetect.detect_language text = LanguageDetect.BANGLISH))
  /\ (LanguageDetect.is_banglish text = true ->
        LanguageDetect.is_bangla text = false
        /\ (existsb LanguageDetect.latin_cp text = true ->
              LanguageDetect.detect_language text = LanguageDetect.BANGLISH)).
Proof.
  pose proof (banglish_has_word (split (lower text))) as Hword.
  unfold LanguageDetect.is_english, LanguageDetect.is_banglish,
    LanguageDetect.detect_language, len.
  unfold LanguageDetect.is_bangla.
  replace (Z.of_nat (length (List.filter LanguageDetect.latin_cp text)) >? 0)
    with (existsb LanguageDetect.latin_cp text)
    by (rewrite <- filter_existsb; lia).
  unfold LanguageDetect.BANGLA, LanguageDetect.BANGLISH, LanguageDetect.ENGLISH,
    LanguageDetect.UNKNOWN.
  destruct (existsb LanguageDetect.banglish_word (split (lower text))) eqn:Hw.
  - clear Hword.
    destruct text as [|c text]; cbn [truthy negb];
      [|destruct (existsb LanguageDetect.bangla_cp (c :: text));
        destruct (existsb LanguageDetect.latin_cp (c :: text))];
      cbn [existsb andb negb];
      repeat split; intros; try done; try discriminate;
      try (by right); try (by left);
      match goal with
      | H : _ \/ _ |- _ => destruct H; discriminate
      end.
  - assert (Hno : (Z.of_nat (length (split (lower text))) >? 0)
                  && py_gt (py_truediv
                       (Z.of_nat (length (List.filter LanguageDetect.banglish_word
                                            (split (lower text)))))
                       (Z.of_nat (length (split (lower text))))) (3 # 10) = false).
    { destruct (_ && _); [by discriminate Hword | done]. }
    rewrite Hno. clear Hword Hno.
    destruct text as [|c text]; cbn [truthy negb];
      [|destruct (existsb LanguageDetect.bangla_cp (c :: text));
        destruct (existsb LanguageDetect.latin_cp (c :: text))];
      cbn [existsb andb negb];
      repeat split; intros; try done; try discriminate;
      try (by right); try (by left);
      match goal with
      | H : _ \/ _ |- _ => destruct H; discriminate
      end.
Qed.

(** The gap: a text without any letter can still be Banglish for
    [is_banglish], and unknown for [detect_language]. *)
Example heart_is_banglish_and_unknown :
  LanguageDetect.is_banglish (u "<3") = true
  /\ LanguageDetect.detect_language (u "<3") = LanguageDetect.UNKNOWN.
Proof. vm_compute. by split. Qed.

(* ===================================================================== *)
(** ** Keywords the intent detection never gets to see                    *)
(* ===================================================================== *)

Lemma isin_trans (a b c : pystr) :
  isin a b = true -> isin b c = true -> isin a c = true.
Proof.
  rewrite !isin_spec. intros [p [q ->]] [x [y ->]].
  exists (x ++ p), (q ++ y). by rewrite <- !app_assoc.
Qed.

(** The reply to a message whose first matching entry is known. *)
Lemma predefined_answer (E : AIEngine.Env) (c : gmap Z AIEngine.LearningData)
    (context : AIEngine.Context) (m : pystr) (entry : pystr * pystr) (r r' : nat) :
  AIEngine.message_text context = Some (PStr m) ->
  (forall e, AIEngine.load_learning E (AIEngine.bot_id context) <> Raise e) ->
  List.find (Spec.matches_entry m) Spec.predefined_table = Some entry ->
  (AIEngine.generate_response E c context r r').1 = snd entry.
Proof.
  intros Hm Hload Hfind.
  pose proof (find_some _ _ Hfind) as [Hin _]. apply list_elem_of_In in Hin.
  unfold AIEngine.generate_response, AIEngine.generate_response_try,
    AIEngine.prepared_text.
  rewrite Hm.
  destruct (get_learning_data_ok E c _ Hload) as [learning [c' ->]].
  rewrite check_predefined_find, find_prepared, Hfind.
  cbn [fmap option_fmap option_map default from_option id].
  rewrite (predefined_values_nonempty _ Hin). cbn [fst].
  apply translate_banglish.
Qed.

(** X18.  A message that contains an intent keyword in which a key of the
    predefined table occurs is answered by the predefined stage, so the
    heuristic stage never classifies it: such a keyword never decides an
    intent. *)
Theorem shadowed_keyword_is_predefined (E : AIEngine.Env)
    (c : gmap Z AIEngine.LearningData) (context : AIEngine.Context)
    (m keyword : pystr) (r r' : nat) :
  AIEngine.message_text context = Some (PStr m) ->
  (forall e, AIEngine.load_learning E (AIEngine.bot_id context) <> Raise e) ->
  shadowed keyword = true ->
  isin keyword (lower m) = true ->
  exists entry,
    entry ∈ Spec.predefined_table
    /\ AIEngine.check_predefined_responses (lower (strip m)) = Some (snd entry)
    /\ (AIEngine.generate_response E c context r r').1 = snd entry.
Proof.
  intros Hm Hload Hsh Hin.
  apply existsb_exists in Hsh as [e [He Hke]].
  assert (Hex : existsb (Spec.matches_entry m) Spec.predefined_table = true).
  { apply existsb_exists. exists e. split; [done|].
    unfold Spec.matches_entry. by eapply isin_trans. }
  destruct (List.find (Spec.matches_entry m) Spec.predefined_table)
    as [entry|] eqn:Hfind.
  2:{ apply existsb_exists in Hex as [x [Hx Hmx]].
      by rewrite (find_none _ _ Hfind x Hx) in Hmx. }
  exists entry. pose proof (find_some _ _ Hfind) as [Hentry _].
  split; [by apply list_elem_of_In|]. split.
  - by rewrite check_predefined_find, find_prepared, Hfind.
  - by eapply predefined_answer.
Qed.

(** The statement above for a request for help. *)
Lemma shadowed_keyword_is_predefined_witness :
  exists entry,
    entry ∈ Spec.predefined_table
    /\ AIEngine.check_predefined_responses (lower (strip (u "একটু সাহায্য করুন")))
       = Some (snd entry)
    /\ (AIEngine.generate_response plain_env ∅
          {| AIEngine.bot_id := 1; AIEngine.user_id := 7;
             AIEngine.message_text := Some (PStr (u "একটু সাহায্য করুন"));
             AIEngine.language := None |} 0 0).1 = snd entry.
Proof.
  apply (shadowed_keyword_is_predefined plain_env ∅
           {| AIEngine.bot_id := 1; AIEngine.user_id := 7;
              AIEngine.message_text := Some (PStr (u "একটু সাহায্য করুন"));
              AIEngine.language := None |}
           (u "একটু সাহায্য করুন") (u "সাহায্য") 0 0).
  - reflexivity.
  - intros e. discriminate.
  - vm_compute. reflexivity.
  - vm_compute. reflexivity.
Defined.

(** The intent keywords this concerns. *)
Example shadowed_intent_keywords :
  List.filter shadowed intent_keywords
  = [u "হ্যালো"; u "সালাম"; u "কিভাবে"; u "সাহায্য"; u "হেল্প"].
Proof. vm_compute. reflexivity. Qed.
